(** * SyntheticAPI-Backend: the tunnel connector, embedded and verified

    A shallow embedding of the Go sources of the connector service
    (services/connector: tunnel.go, reverse proxy, service, store), of its
    HTTP handlers (routes/connector) and of the [contains] helper of the
    tester service, together with the properties the specification states
    about them.

    Conventions of the embedding.
    - Go [string] is a byte sequence: Rocq [string] (a list of [ascii]).
    - Go [int] and [time.Time]/[time.Duration] are [Z] (durations and
      instants in nanoseconds).
    - Go [map[K]V] is stdpp's [gmap K V]; a map of pointers is a map of
      locations into an explicit heap, so that aliasing is visible.
    - A Go [(T, error)] result is [res T]; a bare [error] is [option string]
      ([None] is [nil]).
    - Values the code draws from its environment ([uuid.New], [time.Now],
      the outcome of a socket write, what the agent answers) are arguments
      of the embedded functions. *)

From Stdlib Require Import ZArith String Ascii List Bool Lia QArith.
From stdpp Require Import gmap strings list fin_maps pretty.

Open Scope Z_scope.

(* ===================================================================== *)
(** * Definitions                                                         *)
(* ===================================================================== *)

(** ** Results *)

Inductive res (A : Type) : Type :=
| OK (a : A)
| Error (msg : string).
Arguments OK {A} a.
Arguments Error {A} msg.

(** ** Go string primitives

    [len], slicing [s[i:j]], and the functions of package [strings] that the
    sources call. *)

Module GoStrings.

Definition len (s : string) : Z := Z.of_nat (String.length s).

(** [s[i:j]] for [0 <= i <= j <= len s]. *)
Definition slice (s : string) (i j : nat) : string := substring i (j - i) s.

(** [strings.LastIndex(s, string(c))] through its position, if any. *)
Fixpoint lastIndexByte (s : string) (c : ascii) : option nat :=
  match s with
  | EmptyString => None
  | String a s' =>
      match lastIndexByte s' c with
      | Some i => Some (S i)
      | None => if Ascii.eqb a c then Some 0%nat else None
      end
  end.

(** [strings.LastIndex(s, string(c))]: the index of the last [c], or [-1]. *)
Definition LastIndex (s : string) (c : ascii) : Z :=
  match lastIndexByte s c with
  | Some i => Z.of_nat i
  | None => -1
  end.

(** [strings.HasSuffix]:
    [len(s) >= len(suffix) && s[len(s)-len(suffix):] == suffix]. *)
Definition HasSuffix (s suffix : string) : bool :=
  (String.length suffix <=? String.length s)%nat
  && String.eqb (slice s (String.length s - String.length suffix) (String.length s)) suffix.

(** [strings.TrimSuffix]: [s] without the suffix when it has it. *)
Definition TrimSuffix (s suffix : string) : string :=
  if HasSuffix s suffix
  then slice s 0 (String.length s - String.length suffix)
  else s.

(** [c] does not occur in [s]. *)
Fixpoint no_byte (c : ascii) (s : string) : Prop :=
  match s with
  | EmptyString => True
  | String a s' => a <> c /\ no_byte c s'
  end.

End GoStrings.

(** ** services/tester: [contains] and [findSubstring] *)

Module Tester.
Import GoStrings.

(** The loop [for i := 0; i <= len(text)-len(substring); i++] with its early
    [return true]: the indices are [0 .. len(text)-len(substring)], none when
    the bound is negative. *)
Definition findSubstring (text substring : string) : bool :=
  existsb
    (fun i => String.eqb (slice text i (i + String.length substring)) substring)
    (seq 0 (Z.to_nat (len text - len substring + 1))).

Definition contains (text substring : string) : bool :=
  (len text >? 0) && (len substring >? 0)
  && (String.eqb text substring
      || ((len text >? len substring) && findSubstring text substring)).

(** [sub] occurs in [text]. *)
Definition occurs_in (sub text : string) : Prop :=
  exists pre post : string, text = pre +:+ sub +:+ post.

End Tester.

(** ** services/connector: port validation (proxy.go) *)

Definition restrictedPorts : list Z :=
  [22; 23; 25; 53; 80; 110; 143; 443; 993; 995].

(** [ValidatePort]: [None] is the [nil] error. *)
Definition ValidatePort (port : Z) : option string :=
  if (port <? 1) || (port >? 65535)
  then Some "port must be between 1 and 65535"%string
  else if existsb (Z.eqb port) restrictedPorts
       then Some ("port " +:+ pretty port +:+ " is restricted")
       else None.

(** ** services/connector: the store (store.go, store_impl.go)

    [TunnelStatus] is a Go string type; its values are the five declared
    constants. *)

Inductive TunnelStatus : Type :=
| TunnelStatusActive
| TunnelStatusInactive
| TunnelStatusConnecting
| TunnelStatusError
| TunnelStatusTerminated.

#[global] Instance TunnelStatus_eq_dec : EqDecision TunnelStatus.
Proof. solve_decision. Defined.

Record Analytics : Type := mkAnalytics {
  RequestCount : Z;
  ResponseTimes : list Z;
  StatusCodes : gmap Z Z;
  Endpoints : gmap string Z;
  LastRequest : Z;
  BytesTransferred : Z
}.

Record Tunnel : Type := mkTunnel {
  Tunnel_ID : string;
  Tunnel_UserID : string;
  Tunnel_LocalPort : Z;
  Tunnel_PublicURL : string;
  Tunnel_Status : TunnelStatus;
  Tunnel_CreatedAt : Z;
  Tunnel_LastActivity : Z;
  Tunnel_ExpiresAt : Z;
  Tunnel_Analytics : option Analytics
}.

(** [&Analytics{StatusCodes: make(map[int]int), Endpoints: make(map[string]int)}] *)
Definition emptyAnalytics : Analytics :=
  mkAnalytics 0 [] ∅ ∅ 0 0.

(** [MemoryStore]: the map [tunnels] (its mutex is not modelled: every method
    holds it for its whole body). The Go map holds [*Tunnel]; the functions
    below read and write the records only through the map. *)
Record MemoryStore : Type := mkMemoryStore {
  tunnels : gmap string Tunnel
}.

Definition NewMemoryStore : MemoryStore := mkMemoryStore ∅.

Module Store.

Definition CreateTunnel (ms : MemoryStore) (tunnel : Tunnel)
  : MemoryStore * option string :=
  match tunnels ms !! Tunnel_ID tunnel with
  | Some _ =>
      (ms, Some ("tunnel with ID " +:+ Tunnel_ID tunnel +:+ " already exists"))
  | None =>
      (mkMemoryStore (<[Tunnel_ID tunnel := tunnel]> (tunnels ms)), None)
  end.

Definition GetTunnel (ms : MemoryStore) (tunnelID : string) : res Tunnel :=
  match tunnels ms !! tunnelID with
  | Some tunnel => OK tunnel
  | None => Error ("tunnel with ID " +:+ tunnelID +:+ " not found")
  end.

(** The loop over [ms.tunnels] appends the tunnels that pass the test. Go
    visits a map in an unspecified order; here it is the order of
    [map_to_list]. *)
Definition GetTunnelsByUserID (ms : MemoryStore) (userID : string)
  : res (list Tunnel) :=
  OK (filter
        (λ tunnel, Tunnel_UserID tunnel = userID
                   ∧ Tunnel_Status tunnel = TunnelStatusActive)
        ((map_to_list (tunnels ms)).*2)).

(** The active tunnels of a user, as a sub-map of the store. *)
Definition active_of (userID : string) (ms : MemoryStore) : gmap string Tunnel :=
  filter (λ kv : string * Tunnel,
            Tunnel_UserID kv.2 = userID ∧ Tunnel_Status kv.2 = TunnelStatusActive)
    (tunnels ms).

Definition UpdateTunnelStatus (ms : MemoryStore) (tunnelID : string)
  (status : TunnelStatus) (now : Z) : MemoryStore * option string :=
  match tunnels ms !! tunnelID with
  | None => (ms, Some ("tunnel with ID " +:+ tunnelID +:+ " not found"))
  | Some tunnel =>
      let tunnel' :=
        mkTunnel (Tunnel_ID tunnel) (Tunnel_UserID tunnel)
          (Tunnel_LocalPort tunnel) (Tunnel_PublicURL tunnel)
          status (Tunnel_CreatedAt tunnel) now (Tunnel_ExpiresAt tunnel)
          (Tunnel_Analytics tunnel) in
      (mkMemoryStore (<[tunnelID := tunnel']> (tunnels ms)), None)
  end.

End Store.

(** ** services/connector: the service (service.go, service_impl.go) *)

Record TunnelConfig : Type := mkTunnelConfig {
  MaxTunnelsPerUser : Z;
  TunnelExpiration : Z;
  AllowedPorts : list Z;
  BaseURL : string
}.

Definition Hour : Z := 3600 * 1000000000.
Definition Minute : Z := 60 * 1000000000.
Definition Second : Z := 1000000000.

Definition GenerateTunnelConfig (baseURL : string) : TunnelConfig :=
  mkTunnelConfig 5 (24 * Hour) [3000; 3001; 4000; 5000; 8000; 8080; 8081; 9000] baseURL.

Module Service.

Definition isPortAllowed (config : TunnelConfig) (port : Z) : bool :=
  if (Z.of_nat (length (AllowedPorts config)) =? 0)
  then true
  else existsb (Z.eqb port) (AllowedPorts config).

(** [generatePublicURL]; [random] is the hex string of [generateRandomString]. *)
Definition generatePublicURL (config : TunnelConfig) (random tunnelID : string) : string :=
  BaseURL config +:+ "/" +:+ random +:+ "/" +:+ tunnelID.

(** [CreateTunnel]. [tunnelID] is the value of [uuid.New().String()], [random]
    the random hex string, [now] the reading of the clock (the three calls of
    [time.Now] are taken at one instant). The goroutine [establishTunnel] that
    the function starts is the separate step [establishTunnel] below. *)
Definition CreateTunnel (config : TunnelConfig) (ms : MemoryStore)
  (userID : string) (localPort : Z) (tunnelID random : string) (now : Z)
  : MemoryStore * res Tunnel :=
  if negb (isPortAllowed config localPort)
  then (ms, Error ("port " +:+ pretty localPort +:+ " is not allowed"))
  else
    match Store.GetTunnelsByUserID ms userID with
    | Error err => (ms, Error ("failed to get existing tunnels: " +:+ err))
    | OK existingTunnels =>
        if Z.of_nat (length existingTunnels) >=? MaxTunnelsPerUser config
        then (ms, Error ("maximum number of tunnels ("
                         +:+ pretty (MaxTunnelsPerUser config)
                         +:+ ") exceeded for user"))
        else
          let tunnel :=
            mkTunnel tunnelID userID localPort
              (generatePublicURL config random tunnelID)
              TunnelStatusConnecting now now (now + TunnelExpiration config)
              (Some emptyAnalytics) in
          match Store.CreateTunnel ms tunnel with
          | (ms', Some err) => (ms', Error ("failed to create tunnel: " +:+ err))
          | (ms', None) => (ms', OK tunnel)
          end
    end.

(** [GetUserTunnels] *)
Definition GetUserTunnels (ms : MemoryStore) (userID : string) : res (list Tunnel) :=
  Store.GetTunnelsByUserID ms userID.

(** [establishTunnel], after its two-second sleep. *)
Definition establishTunnel (ms : MemoryStore) (tunnelID : string) (now : Z)
  : MemoryStore :=
  match Store.UpdateTunnelStatus ms tunnelID TunnelStatusActive now with
  | (ms', None) => ms'
  | (ms', Some _) => fst (Store.UpdateTunnelStatus ms' tunnelID TunnelStatusError now)
  end.

End Service.

(** ** routes/connector: the REST handler of [POST /tunnel/create] *)

Module Handler.

Record CreateTunnelRequest : Type := mkCreateTunnelRequest {
  Req_UserID : string;
  Req_LocalPort : Z
}.

(** The JSON documents the handler answers with. *)
Inductive ReplyBody : Type :=
| ErrorBody (error details : string)
| CreatedBody (data : Tunnel) (message : string).

Record Reply : Type := mkReply {
  reply_status : Z;
  reply_body : ReplyBody
}.

Definition StatusCreated : Z := 201.
Definition StatusBadRequest : Z := 400.
Definition StatusInternalServerError : Z := 500.
Definition StatusBadGateway : Z := 502.

(** [CreateTunnel]. [parsed] is the outcome of [c.BodyParser(&req)]. *)
Definition CreateTunnel (config : TunnelConfig) (ms : MemoryStore)
  (parsed : res CreateTunnelRequest) (tunnelID random : string) (now : Z)
  : MemoryStore * Reply :=
  match parsed with
  | Error err => (ms, mkReply StatusBadRequest (ErrorBody "Invalid request body" err))
  | OK req =>
      match ValidatePort (Req_LocalPort req) with
      | Some err => (ms, mkReply StatusBadRequest (ErrorBody "Invalid port" err))
      | None =>
          match Service.CreateTunnel config ms (Req_UserID req) (Req_LocalPort req)
                  tunnelID random now with
          | (ms', Error err) =>
              (ms', mkReply StatusInternalServerError
                      (ErrorBody "Failed to create tunnel" err))
          | (ms', OK tunnel) =>
              (ms', mkReply StatusCreated
                      (CreatedBody tunnel "Tunnel created successfully"))
          end
      end
  end.

(** A run of consecutive create calls for one user and one port, one call
    per generated tunnel id; with [activate], the goroutine [establishTunnel]
    of each call has finished before the next call. The result lists the
    status codes of the replies. *)
Fixpoint create_run (config : TunnelConfig) (activate : bool) (userID : string)
  (localPort : Z) (now : Z) (tunnelIDs : list string) (ms : MemoryStore)
  : list Z * MemoryStore :=
  match tunnelIDs with
  | [] => ([], ms)
  | tunnelID :: rest =>
      let '(ms1, reply) :=
        CreateTunnel config ms (OK (mkCreateTunnelRequest userID localPort))
          tunnelID "deadbeef" now in
      let ms2 :=
        if activate && (reply_status reply =? StatusCreated)
        then Service.establishTunnel ms1 tunnelID now
        else ms1 in
      let '(codes, ms3) := create_run config activate userID localPort now rest ms2 in
      (reply_status reply :: codes, ms3)
  end.

(** The default configuration with [max_tunnels_per_user = 2]. *)
Definition config_cap2 : TunnelConfig :=
  mkTunnelConfig 2 (24 * Hour) [3000; 3001; 4000; 5000; 8000; 8080; 8081; 9000]
    "https://api.syntra.dev".

End Handler.

(** ** services/connector: frames and sessions (tunnel.go) *)

(** A decoded [interface{}] value of a frame's [data] object. *)
#[warnings="-register-all"]
Inductive JSON : Type :=
| JNull
| JBool (b : bool)
| JNumber (x : Q)
| JString (s : string)
| JArray (items : list JSON)
| JObject (fields : list (string * JSON)).

(** [int(x)] for a [float64] [x]: truncation toward zero when the truncated
    value fits in 64 bits. For any other [x] the Go specification leaves the
    result to the implementation; the value here is the one of amd64, the
    minimum [int64]. *)
Definition go_int (x : Q) : Z :=
  let truncated := Z.quot (Qnum x) (Z.pos (Qden x)) in
  if (- 2 ^ 63 <=? truncated) && (truncated <? 2 ^ 63) then truncated else - 2 ^ 63.

Inductive TunnelMessageType : Type :=
| MessageTypeHandshake
| MessageTypeRequest
| MessageTypeResponse
| MessageTypeHeartbeat
| MessageTypeError
| MessageTypeDisconnect
| MessageTypeOther (name : string).

Record TunnelMessage : Type := mkTunnelMessage {
  Msg_ID : string;
  Msg_Type : TunnelMessageType;
  Msg_Data : gmap string JSON;
  Msg_Headers : gmap string string
}.

(** Addresses of [TunnelConnection] records and identities of channels. *)
Abbreviation loc := nat.
Abbreviation chan := nat.

(** [TunnelConnection]. [Conn_sent] stands for the socket [Conn]: the frames
    written to it so far, oldest first. [cancelled] is the state of [ctx]
    ([cancel] sets it). The mutex is not modelled. *)
Record TunnelConnection : Type := mkTunnelConnection {
  Conn_ID : string;
  Conn_UserID : string;
  Conn_Subdomain : string;
  Conn_LocalPort : Z;
  Conn_sent : list TunnelMessage;
  LastPing : Z;
  Conn_CreatedAt : Z;
  pendingReqs : gmap string chan;
  cancelled : bool
}.

(** The effects on a session's pending table and socket, in program order. *)
Inductive Event : Type :=
| EvPendingInsert (p : loc) (requestID : string)
| EvPendingDelete (p : loc) (requestID : string)
| EvWrite (p : loc) (msg : TunnelMessage) (ok : bool).

(** [TunnelManager]. The two Go maps hold [*TunnelConnection]: here locations
    into [heap]. [chans] holds the buffer of every channel made by
    [ForwardRequest] (capacity 1). [trace] is a ghost log of the events
    above, oldest first. *)
Record TunnelManager : Type := mkTunnelManager {
  connections : gmap string loc;
  subdomains : gmap string loc;
  heap : gmap loc TunnelConnection;
  chans : gmap chan (list TunnelMessage);
  store : MemoryStore;
  trace : list Event
}.

Module Tunnels.

Definition set_heap (tm : TunnelManager) (h : gmap loc TunnelConnection) : TunnelManager :=
  mkTunnelManager (connections tm) (subdomains tm) h (chans tm) (store tm) (trace tm).

Definition set_chans (tm : TunnelManager) (c : gmap chan (list TunnelMessage)) : TunnelManager :=
  mkTunnelManager (connections tm) (subdomains tm) (heap tm) c (store tm) (trace tm).

Definition set_store (tm : TunnelManager) (ms : MemoryStore) : TunnelManager :=
  mkTunnelManager (connections tm) (subdomains tm) (heap tm) (chans tm) ms (trace tm).

Definition log (tm : TunnelManager) (evs : list Event) : TunnelManager :=
  mkTunnelManager (connections tm) (subdomains tm) (heap tm) (chans tm) (store tm)
    (trace tm ++ evs).

Definition set_indices (tm : TunnelManager) (c s : gmap string loc) : TunnelManager :=
  mkTunnelManager c s (heap tm) (chans tm) (store tm) (trace tm).

Definition set_pendingReqs (conn : TunnelConnection) (m : gmap string chan) : TunnelConnection :=
  mkTunnelConnection (Conn_ID conn) (Conn_UserID conn) (Conn_Subdomain conn)
    (Conn_LocalPort conn) (Conn_sent conn) (LastPing conn) (Conn_CreatedAt conn)
    m (cancelled conn).

Definition set_LastPing (now : Z) (conn : TunnelConnection) : TunnelConnection :=
  mkTunnelConnection (Conn_ID conn) (Conn_UserID conn) (Conn_Subdomain conn)
    (Conn_LocalPort conn) (Conn_sent conn) now (Conn_CreatedAt conn)
    (pendingReqs conn) (cancelled conn).

(** [conn.cancel()] *)
Definition cancel (conn : TunnelConnection) : TunnelConnection :=
  mkTunnelConnection (Conn_ID conn) (Conn_UserID conn) (Conn_Subdomain conn)
    (Conn_LocalPort conn) (Conn_sent conn) (LastPing conn) (Conn_CreatedAt conn)
    (pendingReqs conn) true.

(** A successful [conn.Conn.WriteJSON(msg)]. *)
Definition written (msg : TunnelMessage) (conn : TunnelConnection) : TunnelConnection :=
  mkTunnelConnection (Conn_ID conn) (Conn_UserID conn) (Conn_Subdomain conn)
    (Conn_LocalPort conn) (Conn_sent conn ++ [msg]) (LastPing conn)
    (Conn_CreatedAt conn) (pendingReqs conn) (cancelled conn).

(** [conn.pendingReqs[requestID] = ch] *)
Definition pending_insert (requestID : string) (ch : chan) (conn : TunnelConnection)
  : TunnelConnection :=
  set_pendingReqs conn (<[requestID := ch]> (pendingReqs conn)).

(** [delete(conn.pendingReqs, requestID)] *)
Definition pending_delete (requestID : string) (conn : TunnelConnection)
  : TunnelConnection :=
  set_pendingReqs conn (delete requestID (pendingReqs conn)).

(** An update of the record at [p] through the pointer. *)
Definition update_conn (p : loc) (f : TunnelConnection -> TunnelConnection)
  (tm : TunnelManager) : TunnelManager :=
  set_heap tm (alter f p (heap tm)).

(** [conn.Conn.WriteJSON(msg)]; [writeErr] is the error of the write, if any. *)
Definition WriteJSON (p : loc) (msg : TunnelMessage) (writeErr : option string)
  (tm : TunnelManager) : TunnelManager :=
  match writeErr with
  | None => log (update_conn p (written msg) tm) [EvWrite p msg true]
  | Some _ => log tm [EvWrite p msg false]
  end.

(** [generateSubdomain]; [uuid] is the value of [uuid.New().String()]. *)
Definition generateSubdomain (userID uuid : string) : string :=
  userID +:+ "-" +:+ GoStrings.slice uuid 0 8.

Definition publicURL (subdomain : string) : string :=
  "https://" +:+ subdomain +:+ ".syntra.dev".

(** [NewTunnelManager] (the cleanup goroutine is [cleanupRoutine_tick]). *)
Definition NewTunnelManager (ms : MemoryStore) : TunnelManager :=
  mkTunnelManager ∅ ∅ ∅ ∅ ms [].

(** [registerConnection]; [conn] is the pointer [p]. The error of
    [tm.store.CreateTunnel] is dropped, as in the source. A location outside
    the heap does not occur (a Go pointer held by the caller is valid). *)
Definition registerConnection (tm : TunnelManager) (p : loc) (now : Z) : TunnelManager :=
  match heap tm !! p with
  | None => tm
  | Some conn =>
      let tunnel :=
        mkTunnel (Conn_ID conn) (Conn_UserID conn) (Conn_LocalPort conn)
          (publicURL (Conn_Subdomain conn)) TunnelStatusActive
          (Conn_CreatedAt conn) now (now + 24 * Hour) (Some emptyAnalytics) in
      set_store
        (set_indices tm (<[Conn_ID conn := p]> (connections tm))
                        (<[Conn_Subdomain conn := p]> (subdomains tm)))
        (fst (Store.CreateTunnel (store tm) tunnel))
  end.

(** [unregisterConnection] *)
Definition unregisterConnection (tm : TunnelManager) (connID : string) (now : Z)
  : TunnelManager :=
  match connections tm !! connID with
  | None => tm
  | Some p =>
      match heap tm !! p with
      | None => tm
      | Some conn =>
          set_store
            (set_indices (update_conn p cancel tm)
               (delete connID (connections tm))
               (delete (Conn_Subdomain conn) (subdomains tm)))
            (fst (Store.UpdateTunnelStatus (store tm) connID TunnelStatusTerminated now))
      end
  end.

(** The first part of [HandleWebSocket]: the new [TunnelConnection] is
    allocated and registered. [tunnelID] and [uuid] are the two values of
    [uuid.New().String()]. [LocalPort] is not set by the source and keeps its
    zero value. The result carries the address of the new record. *)
Definition HandleWebSocket_open (tm : TunnelManager) (userID tunnelID uuid : string)
  (now : Z) : TunnelManager * loc :=
  let p := fresh (dom (heap tm)) in
  let tunnelConn :=
    mkTunnelConnection tunnelID userID (generateSubdomain userID uuid) 0 []
      now now ∅ false in
  (registerConnection (set_heap tm (<[p := tunnelConn]> (heap tm))) p now, p).

(** The handshake frame of [HandleWebSocket]; [msgID] is its fresh id. *)
Definition handshake (msgID : string) (conn : TunnelConnection) : TunnelMessage :=
  mkTunnelMessage msgID MessageTypeHandshake
    (<["tunnel_id" := JString (Conn_ID conn)]>
       (<["subdomain" := JString (Conn_Subdomain conn)]>
          (<["public_url" := JString (publicURL (Conn_Subdomain conn))]>
             (<["status" := JString "connected"]> ∅))))
    ∅.

(** The second part of [HandleWebSocket]: the handshake is written to the
    socket of session [p]; when the write fails the function returns and its
    deferred [unregisterConnection] runs. *)
Definition HandleWebSocket_handshake (tm : TunnelManager) (p : loc) (msgID : string)
  (writeErr : option string) (now : Z) : TunnelManager :=
  match heap tm !! p with
  | None => tm
  | Some conn =>
      let tm1 := WriteJSON p (handshake msgID conn) writeErr tm in
      match writeErr with
      | Some _ => unregisterConnection tm1 (Conn_ID conn) now
      | None => tm1
      end
  end.

(** One tick of [heartbeatLoop] for session [p]: a session silent for more
    than 60 s makes the loop return, and the deferred [unregisterConnection]
    of [HandleWebSocket] runs; otherwise a heartbeat is written. *)
Definition heartbeatLoop_tick (tm : TunnelManager) (p : loc) (now : Z)
  (msgID : string) (writeErr : option string) : TunnelManager :=
  match heap tm !! p with
  | None => tm
  | Some conn =>
      if now - LastPing conn >? 60 * Second
      then unregisterConnection tm (Conn_ID conn) now
      else
        let heartbeat :=
          mkTunnelMessage msgID MessageTypeHeartbeat
            (<["timestamp" := JNumber (inject_Z (now / Second))]> ∅) ∅ in
        WriteJSON p heartbeat writeErr tm
  end.

(** One pass of the body of [cleanupRoutine] for the entry [(id, conn)]. *)
Definition cleanup_entry (now : Z) (tm : TunnelManager) (entry : string * loc)
  : TunnelManager :=
  match heap tm !! entry.2 with
  | None => tm
  | Some conn =>
      if now - LastPing conn >? 2 * Minute
      then set_indices (update_conn entry.2 cancel tm)
             (delete entry.1 (connections tm))
             (delete (Conn_Subdomain conn) (subdomains tm))
      else tm
  end.

(** One tick of [cleanupRoutine]: the loop over [tm.connections]. An entry is
    deleted only while it is the current one, so the loop visits every entry
    of the map as it was when the loop started. *)
Definition cleanupRoutine_tick (tm : TunnelManager) (now : Z) : TunnelManager :=
  foldl (cleanup_entry now) tm (map_to_list (connections tm)).

(** [handleResponse]. The channel send blocks when the buffer is full:
    [None]. *)
Definition handleResponse (tm : TunnelManager) (p : loc) (msg : TunnelMessage)
  : option TunnelManager :=
  match heap tm !! p with
  | None => Some tm
  | Some conn =>
      match pendingReqs conn !! Msg_ID msg with
      | None => Some tm
      | Some responseChan =>
          match chans tm !! responseChan with
          | Some [] =>
              Some (log
                      (update_conn p (pending_delete (Msg_ID msg))
                         (set_chans tm (<[responseChan := [msg]]> (chans tm))))
                      [EvPendingDelete p (Msg_ID msg)])
          | _ => None
          end
      end
  end.

(** [handleHeartbeat]; the error of the write is dropped. *)
Definition handleHeartbeat (tm : TunnelManager) (p : loc) (msgID : string) (now : Z)
  (writeErr : option string) : TunnelManager :=
  let heartbeat :=
    mkTunnelMessage msgID MessageTypeHeartbeat
      (<["timestamp" := JNumber (inject_Z (now / Second))]> ∅) ∅ in
  WriteJSON p heartbeat writeErr tm.

(** One completed iteration of the loop of [handleMessages] in which
    [ReadJSON] returned [msg]: the state at the end of the iteration, [None]
    when the iteration does not get to its end because the channel send of
    [handleResponse] blocks. What the iteration has done to the manager by
    then is [handleMessages_iteration] below. *)
Definition handleMessage (tm : TunnelManager) (p : loc) (msg : TunnelMessage)
  (now : Z) (msgID : string) (writeErr : option string) : option TunnelManager :=
  let tm1 := update_conn p (set_LastPing now) tm in
  match Msg_Type msg with
  | MessageTypeResponse => handleResponse tm1 p msg
  | MessageTypeHeartbeat => Some (handleHeartbeat tm1 p msgID now writeErr)
  | _ => Some tm1
  end.

(** One iteration of the loop of [handleMessages] in which [ReadJSON]
    returned [msg], as far as it gets. [conn.LastPing] is assigned before the
    frame is dispatched, so it is set also when the channel send of
    [handleResponse] then blocks; the flag tells whether the iteration got to
    its end. *)
Definition handleMessages_iteration (tm : TunnelManager) (p : loc) (msg : TunnelMessage)
  (now : Z) (msgID : string) (writeErr : option string) : TunnelManager * bool :=
  let tm1 := update_conn p (set_LastPing now) tm in
  match Msg_Type msg with
  | MessageTypeResponse =>
      match handleResponse tm1 p msg with
      | Some tm2 => (tm2, true)
      | None => (tm1, false)
      end
  | MessageTypeHeartbeat => (handleHeartbeat tm1 p msgID now writeErr, true)
  | _ => (tm1, true)
  end.

End Tunnels.

(** ** services/connector: the dispatcher (tunnel.go) and the reverse proxy *)

(** [*http.Request], as far as the sources read it. A nil [Body] is [None]. *)
Record HTTPRequest : Type := mkHTTPRequest {
  Method : string;
  URL_Path : string;
  URL_RawQuery : string;
  Req_Header : gmap string (list string);
  Req_Body : option string;
  ContentLength : Z
}.

(** [*http.Response], as far as the sources write and read it. *)
Record HTTPResponse : Type := mkHTTPResponse {
  StatusCode : Z;
  Resp_Header : gmap string (list string);
  Resp_Body : option string
}.

(** The request as Fiber presents it to [ProxyHandler], as far as
    [fiberToHTTPRequest] reads it. [c.OriginalURL()] enters only through the
    URL that [http.NewRequest] parses: [fc_Path] is the [URL.Path] of that
    parse (the path with its percent escapes decoded) and [fc_RawQuery] its
    [URL.RawQuery] (the text after the first question mark, as sent). *)
Record FiberRequest : Type := mkFiberRequest {
  fc_Method : string;
  fc_Host : string;
  fc_Path : string;
  fc_RawQuery : string;
  fc_Headers : list (string * string);
  fc_Body : string
}.

(** What [ProxyHandler] hands to the Fiber context: the status given to
    [c.Status], the headers given to [c.Set] and the body given to [c.Send] or
    [c.JSON]. What the server then writes on the wire from that (the headers
    it adds of its own, its default for a status it does not know) is
    outside the source and not part of the record. *)
Inductive FiberBody : Type :=
| RawBody (bytes : string)
| JSONError (error : string) (details : option string).

Record FiberResponse : Type := mkFiberResponse {
  fiber_status : Z;
  fiber_headers : gmap string string;
  fiber_body : FiberBody
}.

(** The two cases of the [select] of [ForwardRequest]. *)
Inductive SelectCase : Type :=
| CaseResponse
| CaseTimeout.

Section Dispatcher.

(** [textproto.CanonicalMIMEHeaderKey], which [http.Header.Set] and
    [http.Header.Add] apply to the key. *)
Variable CanonicalMIMEHeaderKey : string -> string.

(** [buf := make([]byte, n); r.Read(buf); string(buf)] for a reader over
    [content]: the first [n] bytes of [content], then zero bytes up to [n]. *)
Definition readBody (n : Z) (content : string) : string :=
  substring 0 (Z.to_nat n) content
  +:+ string_of_list_ascii (repeat zero (Z.to_nat n - String.length content)).

(** The frame [ForwardRequest] builds from the request. *)
Definition requestFrame (requestID : string) (req : HTTPRequest) : TunnelMessage :=
  let body :=
    match Req_Body req with
    | None => ""%string
    | Some content => readBody (ContentLength req) content
    end in
  mkTunnelMessage requestID MessageTypeRequest
    (<["body" := JString body]>
       (<["method" := JString (Method req)]>
          (<["path" := JString (URL_Path req)]>
             (<["query" := JString (URL_RawQuery req)]> ∅))))
    (omap head (Req_Header req)).

(** [buildHTTPResponse] *)
Definition buildHTTPResponse (msg : TunnelMessage) : res HTTPResponse :=
  let statusCode :=
    match Msg_Data msg !! "status_code"%string with
    | Some (JNumber statusCode) => go_int statusCode
    | _ => 200
    end in
  OK (mkHTTPResponse statusCode
        (map_fold (λ key value header, <[CanonicalMIMEHeaderKey key := [value]]> header)
           ∅ (Msg_Headers msg))
        None).

(** [ForwardRequest] up to and including the write of the request frame.
    [requestID] is the value of [uuid.New().String()]; [writeErr] the error of
    [WriteJSON], if any. On success the result carries the session and the
    channel the caller then waits on. *)
Definition ForwardRequest_send (tm : TunnelManager) (subdomain : string)
  (req : HTTPRequest) (requestID : string) (writeErr : option string)
  : TunnelManager * res (loc * chan) :=
  match subdomains tm !! subdomain with
  | None => (tm, Error ("no active tunnel for subdomain: " +:+ subdomain))
  | Some p =>
      let requestMsg := requestFrame requestID req in
      let responseChan := fresh (dom (chans tm)) in
      let tm1 :=
        Tunnels.log
          (Tunnels.update_conn p (Tunnels.pending_insert requestID responseChan)
             (Tunnels.set_chans tm (<[responseChan := []]> (chans tm))))
          [EvPendingInsert p requestID] in
      let tm2 := Tunnels.WriteJSON p requestMsg writeErr tm1 in
      match writeErr with
      | Some err =>
          (Tunnels.log (Tunnels.update_conn p (Tunnels.pending_delete requestID) tm2)
             [EvPendingDelete p requestID],
           Error ("failed to send request through tunnel: " +:+ err))
      | None => (tm2, OK (p, responseChan))
      end
  end.

(** The [select] of [ForwardRequest], resolved by the case [sel]; [elapsed] is
    the time since the [select] was entered. [None]: the case is not ready. *)
Definition ForwardRequest_await (tm : TunnelManager) (p : loc) (requestID : string)
  (responseChan : chan) (sel : SelectCase) (elapsed : Z)
  : option (TunnelManager * res HTTPResponse) :=
  match sel with
  | CaseResponse =>
      match chans tm !! responseChan with
      | Some (responseMsg :: rest) =>
          Some (Tunnels.set_chans tm (<[responseChan := rest]> (chans tm)),
                buildHTTPResponse responseMsg)
      | _ => None
      end
  | CaseTimeout =>
      if elapsed >=? 30 * Second
      then Some (Tunnels.log
                   (Tunnels.update_conn p (Tunnels.pending_delete requestID) tm)
                   [EvPendingDelete p requestID],
                 Error "tunnel request timeout")
      else None
  end.

(** [ForwardRequest]. [env] is what the other goroutines (the read loop of the
    session, teardown, other requests) do to the manager while the caller is
    parked in the [select]. *)
Definition ForwardRequest (tm : TunnelManager) (subdomain : string)
  (req : HTTPRequest) (requestID : string) (writeErr : option string)
  (env : TunnelManager -> TunnelManager) (sel : SelectCase) (elapsed : Z)
  : option (TunnelManager * res HTTPResponse) :=
  match ForwardRequest_send tm subdomain req requestID writeErr with
  | (tm', Error err) => Some (tm', Error err)
  | (tm', OK (p, responseChan)) =>
      ForwardRequest_await (env tm') p requestID responseChan sel elapsed
  end.

(** [ReverseProxy.extractSubdomain] *)
Definition stripPort (host : string) : string :=
  let colonIndex := GoStrings.LastIndex host ":" in
  if colonIndex =? -1 then host else GoStrings.slice host 0 (Z.to_nat colonIndex).

Definition extractSubdomain (baseDomain host : string) : string :=
  let host := stripPort host in
  let suffix := "." +:+ baseDomain in
  if negb (GoStrings.HasSuffix host suffix) then ""%string
  else
    let subdomain := GoStrings.TrimSuffix host suffix in
    if String.eqb subdomain "" || String.eqb subdomain baseDomain
    then ""%string
    else subdomain.

(** [fiberToHTTPRequest]; [newRequestErr] is the error of [http.NewRequest],
    if any, and [fc_Path], [fc_RawQuery] what its parse of the URL gives. The
    body is a [bytes.Reader], so [ContentLength] is its length. *)
Definition fiberToHTTPRequest (c : FiberRequest) (newRequestErr : option string)
  : res HTTPRequest :=
  match newRequestErr with
  | Some err => Error err
  | None =>
      OK (mkHTTPRequest (fc_Method c) (fc_Path c) (fc_RawQuery c)
            (foldl (λ header kv,
                      <[CanonicalMIMEHeaderKey kv.1 :=
                          default [] (header !! CanonicalMIMEHeaderKey kv.1) ++ [kv.2]]> header)
               ∅ (fc_Headers c))
            (Some (fc_Body c)) (GoStrings.len (fc_Body c)))
  end.

(** [httpResponseToFiber]. [c.Set] replaces the value of a header, so of the
    values of one key the last is kept. [Duration.Milliseconds] is the
    quotient of the nanoseconds by a million, truncated toward zero.
    [c.Send] cannot fail here. *)
Definition httpResponseToFiber (resp : HTTPResponse) (responseTime : Z) : FiberResponse :=
  let headers := omap last (Resp_Header resp) in
  let headers :=
    <["X-Tunnel-Response-Time" := pretty (Z.quot responseTime 1000000) +:+ "ms"]>
      headers in
  mkFiberResponse (StatusCode resp) headers
    (RawBody match Resp_Body resp with
             | Some body => body
             | None => ""%string
             end).

Definition jsonError (status : Z) (error : string) (details : option string)
  : FiberResponse :=
  mkFiberResponse status ∅ (JSONError error details).

(** The part of [ProxyHandler] after [ForwardRequest] has returned. *)
Definition ProxyHandler_reply (result : res HTTPResponse) (responseTime : Z)
  : FiberResponse :=
  match result with
  | Error err => jsonError Handler.StatusBadGateway "Tunnel unavailable" (Some err)
  | OK resp => httpResponseToFiber resp responseTime
  end.

(** [ProxyHandler]: [None] when the call is still parked in [ForwardRequest].
    [responseTime] is the measured [time.Since(startTime)]. *)
Definition ProxyHandler (baseDomain : string) (tm : TunnelManager) (c : FiberRequest)
  (newRequestErr : option string) (requestID : string) (writeErr : option string)
  (env : TunnelManager -> TunnelManager) (sel : SelectCase) (elapsed responseTime : Z)
  : option (TunnelManager * FiberResponse) :=
  let subdomain := extractSubdomain baseDomain (fc_Host c) in
  if String.eqb subdomain ""
  then Some (tm, jsonError Handler.StatusBadRequest "Invalid subdomain" None)
  else
    match fiberToHTTPRequest c newRequestErr with
    | Error _ =>
        Some (tm, jsonError Handler.StatusInternalServerError
                    "Failed to process request" None)
    | OK req =>
        match ForwardRequest tm subdomain req requestID writeErr env sel elapsed with
        | None => None
        | Some (tm', result) => Some (tm', ProxyHandler_reply result responseTime)
        end
    end.

End Dispatcher.

(** ** Reachable states of the tunnel manager

    The steps the program takes on a [TunnelManager], from the manager
    [NewTunnelManager] makes. [registerConnection] stores a new session under
    its tunnel id and its subdomain whatever the two indices hold there; what
    a run lets a registration find in the indices is the parameter
    [may_open]. The store is shared with the service, which may change it at
    any time. The handshake of [HandleWebSocket] and the ticks of
    [heartbeatLoop] are a socket write, an unregistration, or both. *)
Inductive reachable_under (may_open : TunnelManager -> string -> string -> Prop)
  : TunnelManager -> Prop :=
| reach_new (ms : MemoryStore) :
    reachable_under may_open (Tunnels.NewTunnelManager ms)
| reach_open (tm : TunnelManager) (userID tunnelID uuid : string) (now : Z) :
    reachable_under may_open tm ->
    may_open tm tunnelID (Tunnels.generateSubdomain userID uuid) ->
    reachable_under may_open (Tunnels.HandleWebSocket_open tm userID tunnelID uuid now).1
| reach_unregister (tm : TunnelManager) (connID : string) (now : Z) :
    reachable_under may_open tm ->
    reachable_under may_open (Tunnels.unregisterConnection tm connID now)
| reach_cleanup (tm : TunnelManager) (now : Z) :
    reachable_under may_open tm ->
    reachable_under may_open (Tunnels.cleanupRoutine_tick tm now)
| reach_message (tm : TunnelManager) (p : loc) (msg : TunnelMessage) (now : Z)
    (msgID : string) (writeErr : option string) :
    reachable_under may_open tm ->
    reachable_under may_open
      (Tunnels.handleMessages_iteration tm p msg now msgID writeErr).1
| reach_write (tm : TunnelManager) (p : loc) (msg : TunnelMessage)
    (writeErr : option string) :
    reachable_under may_open tm ->
    reachable_under may_open (Tunnels.WriteJSON p msg writeErr tm)
| reach_send (tm : TunnelManager) (subdomain : string) (req : HTTPRequest)
    (requestID : string) (writeErr : option string) :
    reachable_under may_open tm ->
    reachable_under may_open (ForwardRequest_send tm subdomain req requestID writeErr).1
| reach_await (canon : string -> string) (tm tm' : TunnelManager) (p : loc)
    (requestID : string) (responseChan : chan) (sel : SelectCase) (elapsed : Z)
    (result : res HTTPResponse) :
    reachable_under may_open tm ->
    ForwardRequest_await canon tm p requestID responseChan sel elapsed = Some (tm', result) ->
    reachable_under may_open tm'
| reach_store (tm : TunnelManager) (ms : MemoryStore) :
    reachable_under may_open tm ->
    reachable_under may_open (Tunnels.set_store tm ms).


(** Neither key is in its index. *)
Definition unused (tm : TunnelManager) (tunnelID subdomain : string) : Prop :=
  connections tm !! tunnelID = None /\ subdomains tm !! subdomain = None.

(** The states of the runs in which every registration finds its tunnel id
    and its subdomain unused. *)
Definition reachable_unused : TunnelManager -> Prop :=
  reachable_under unused.

(** The two indices agree: every entry of either index points at a record
    that carries the entry's key and that the other index holds under the
    record's other key. *)
Definition registry_consistent (tm : TunnelManager) : Prop :=
  (forall id p, connections tm !! id = Some p ->
     exists conn, heap tm !! p = Some conn /\ Conn_ID conn = id
                  /\ subdomains tm !! Conn_Subdomain conn = Some p)
  /\ (forall sub p, subdomains tm !! sub = Some p ->
        exists conn, heap tm !! p = Some conn /\ Conn_Subdomain conn = sub
                     /\ connections tm !! Conn_ID conn = Some p).

(** The two keys under which a session is registered. *)
Definition keys (conn : TunnelConnection) : string * string :=
  (Conn_ID conn, Conn_Subdomain conn).

(** [tm'] has the indices of [tm] and, at every address, a record with the
    same keys. *)
Definition same_registry (tm tm' : TunnelManager) : Prop :=
  connections tm' = connections tm
  /\ subdomains tm' = subdomains tm
  /\ forall q, keys <$> heap tm' !! q = keys <$> heap tm !! q.

(** From [tm] to [tm'] nothing happened but cancellations and removals from
    the indices: channels and store are the same, every session record keeps
    its pending table, its last ping and its subdomain and stays cancelled
    once it is, and no index gains an entry. *)
Definition only_torn_down (tm tm' : TunnelManager) : Prop :=
  chans tm' = chans tm
  /\ store tm' = store tm
  /\ (forall q conn, heap tm !! q = Some conn ->
        exists conn', heap tm' !! q = Some conn'
          /\ pendingReqs conn' = pendingReqs conn
          /\ LastPing conn' = LastPing conn
          /\ Conn_Subdomain conn' = Conn_Subdomain conn
          /\ (cancelled conn = true -> cancelled conn' = true))
  /\ (forall id, connections tm !! id = None -> connections tm' !! id = None)
  /\ (forall sub, subdomains tm !! sub = None -> subdomains tm' !! sub = None).

(** ** A concrete session and its agents *)

Module Scenario.

(** The manager after the agent of user [alice] has connected. *)
Definition tm_alice : TunnelManager :=
  (Tunnels.HandleWebSocket_open (Tunnels.NewTunnelManager NewMemoryStore)
     "alice" "tunnel-1" "abcd1234-5678-4abc-9def-0123456789ab" 0).1.

Definition p_alice : loc :=
  (Tunnels.HandleWebSocket_open (Tunnels.NewTunnelManager NewMemoryStore)
     "alice" "tunnel-1" "abcd1234-5678-4abc-9def-0123456789ab" 0).2.

Definition request_pong : FiberRequest :=
  mkFiberRequest "POST" "alice-abcd1234.syntra.dev" "/ping" ""
    [("Content-Type", "text/plain")]%string "pong".

(** The response frame of an agent that echoes a request frame: status 200
    and the body of the request. *)
Definition echo_agent (request : TunnelMessage) : TunnelMessage :=
  mkTunnelMessage (Msg_ID request) MessageTypeResponse
    (<["status_code" := JNumber (inject_Z 200)]>
       (<["body" := default (JString "") (Msg_Data request !! "body"%string)]> ∅))
    ∅.

(** What happens while the caller is parked when the agent echoes: the read
    loop of session [p] receives the echo of the last frame written. *)
Definition agent_echoes (p : loc) (tm : TunnelManager) : TunnelManager :=
  match heap tm !! p with
  | None => tm
  | Some conn =>
      match last (Conn_sent conn) with
      | None => tm
      | Some frame =>
          default tm (Tunnels.handleMessage tm p (echo_agent frame) 1 "hb-1" None)
      end
  end.

(** The agent never answers. *)
Definition agent_silent (tm : TunnelManager) : TunnelManager := tm.

(** The manager after a second agent of [alice] has connected, when the two
    values of [uuid.New] for the subdomains start with the same eight
    characters. *)
Definition tm_two : TunnelManager :=
  (Tunnels.HandleWebSocket_open tm_alice
     "alice" "tunnel-2" "abcd1234-ffff-4abc-9def-0123456789ab" 1).1.

(** The manager with one request of [alice]'s tunnel written and parked. *)
Definition tm_parked : TunnelManager :=
  (ForwardRequest_send tm_alice "alice-abcd1234"
     (mkHTTPRequest "GET" "/ping" "" ∅ (Some ""%string) 0) "req-1" None).1.

(** A response frame for the parked request. *)
Definition response_req1 : TunnelMessage :=
  mkTunnelMessage "req-1" MessageTypeResponse
    (<["status_code" := JNumber (inject_Z 200)]> ∅) ∅.

(** The manager after the read loop has handled that frame. *)
Definition tm_delivered : TunnelManager :=
  default tm_parked (Tunnels.handleResponse tm_parked 0%nat response_req1).

(** The manager after the deadline of the parked request has passed. *)
Definition tm_timed_out : TunnelManager :=
  match ForwardRequest_await (λ key, key) tm_parked 0%nat "req-1" 0%nat CaseTimeout
          (30 * Second) with
  | Some (tm, _) => tm
  | None => tm_parked
  end.

(** The parked request between the two steps of [handleResponse]: its
    channel holds a frame and its entry is still in the pending table. A
    further response frame with its id cannot be sent. *)
Definition tm_blocked : TunnelManager :=
  Tunnels.set_chans tm_parked
    (<[0%nat := [mkTunnelMessage "req-1" MessageTypeResponse ∅ ∅]]> (chans tm_parked)).

(** The store after a create call for [alice] has been answered. *)
Definition ms_alice : MemoryStore :=
  (Service.CreateTunnel (GenerateTunnelConfig "https://api.syntra.dev") NewMemoryStore
     "alice" 3000 "t1" "deadbeef" 0).1.

Definition tunnel_t1 : Tunnel :=
  mkTunnel "t1" "alice" 3000 "https://api.syntra.dev/deadbeef/t1"
    TunnelStatusConnecting 0 0 (24 * Hour) (Some emptyAnalytics).

End Scenario.

(** ** The remaining operations of the store, the service and the handlers *)

(** A Go [int64] (and [int]) after an arithmetic operation: the result wraps
    around. *)
Definition wrap64 (x : Z) : Z := (x + 2 ^ 63) mod 2 ^ 64 - 2 ^ 63.

Module StoreOps.

Definition set_LastActivity (now : Z) (tunnel : Tunnel) : Tunnel :=
  mkTunnel (Tunnel_ID tunnel) (Tunnel_UserID tunnel) (Tunnel_LocalPort tunnel)
    (Tunnel_PublicURL tunnel) (Tunnel_Status tunnel) (Tunnel_CreatedAt tunnel)
    now (Tunnel_ExpiresAt tunnel) (Tunnel_Analytics tunnel).

Definition set_Analytics (analytics : option Analytics) (now : Z) (tunnel : Tunnel)
  : Tunnel :=
  mkTunnel (Tunnel_ID tunnel) (Tunnel_UserID tunnel) (Tunnel_LocalPort tunnel)
    (Tunnel_PublicURL tunnel) (Tunnel_Status tunnel) (Tunnel_CreatedAt tunnel)
    now (Tunnel_ExpiresAt tunnel) analytics.

(** The two assignments of [UpdateTunnelStatus]. *)
Definition set_Status (status : TunnelStatus) (now : Z) (tunnel : Tunnel) : Tunnel :=
  mkTunnel (Tunnel_ID tunnel) (Tunnel_UserID tunnel) (Tunnel_LocalPort tunnel)
    (Tunnel_PublicURL tunnel) status (Tunnel_CreatedAt tunnel)
    now (Tunnel_ExpiresAt tunnel) (Tunnel_Analytics tunnel).

Definition not_found (tunnelID : string) : string :=
  "tunnel with ID " +:+ tunnelID +:+ " not found".

(** [UpdateTunnelActivity] *)
Definition UpdateTunnelActivity (ms : MemoryStore) (tunnelID : string) (now : Z)
  : MemoryStore * option string :=
  match tunnels ms !! tunnelID with
  | None => (ms, Some (not_found tunnelID))
  | Some tunnel =>
      (mkMemoryStore (<[tunnelID := set_LastActivity now tunnel]> (tunnels ms)), None)
  end.

(** [UpdateTunnelAnalytics]; a nil [*Analytics] is [None]. *)
Definition UpdateTunnelAnalytics (ms : MemoryStore) (tunnelID : string)
  (analytics : option Analytics) (now : Z) : MemoryStore * option string :=
  match tunnels ms !! tunnelID with
  | None => (ms, Some (not_found tunnelID))
  | Some tunnel =>
      (mkMemoryStore (<[tunnelID := set_Analytics analytics now tunnel]> (tunnels ms)),
       None)
  end.

(** [DeleteTunnel] *)
Definition DeleteTunnel (ms : MemoryStore) (tunnelID : string)
  : MemoryStore * option string :=
  match tunnels ms !! tunnelID with
  | None => (ms, Some (not_found tunnelID))
  | Some _ => (mkMemoryStore (delete tunnelID (tunnels ms)), None)
  end.

(** [now.After(tunnel.ExpiresAt)] *)
Definition expired (now : Z) (tunnel : Tunnel) : Prop := Tunnel_ExpiresAt tunnel < now.

#[global] Instance expired_dec (now : Z) (tunnel : Tunnel) : Decision (expired now tunnel).
Proof. unfold expired. apply _. Defined.

(** [GetExpiredTunnels], in the order of [map_to_list]. *)
Definition GetExpiredTunnels (ms : MemoryStore) (now : Z) : res (list Tunnel) :=
  OK (filter (expired now) ((map_to_list (tunnels ms)).*2)).

(** One pass of the loop of [CleanupExpiredTunnels]. *)
Definition cleanup_step (now : Z) (m : gmap string Tunnel) (entry : string * Tunnel)
  : gmap string Tunnel :=
  if decide (expired now entry.2) then delete entry.1 m else m.

(** [CleanupExpiredTunnels]: the loop deletes only the entry it is at, so it
    visits every entry of the map as it was when the loop started. *)
Definition CleanupExpiredTunnels (ms : MemoryStore) (now : Z)
  : MemoryStore * option string :=
  (mkMemoryStore (foldl (cleanup_step now) (tunnels ms) (map_to_list (tunnels ms))),
   None).

End StoreOps.

Module ServiceOps.

(** [GetTunnel] *)
Definition GetTunnel (ms : MemoryStore) (tunnelID : string) : res Tunnel :=
  Store.GetTunnel ms tunnelID.

(** [TerminateTunnel] *)
Definition TerminateTunnel (ms : MemoryStore) (tunnelID : string) (now : Z)
  : MemoryStore * option string :=
  match Store.GetTunnel ms tunnelID with
  | Error err => (ms, Some ("tunnel not found: " +:+ err))
  | OK tunnel =>
      if decide (Tunnel_Status tunnel = TunnelStatusTerminated)
      then (ms, Some "tunnel is already terminated"%string)
      else
        match Store.UpdateTunnelStatus ms tunnelID TunnelStatusTerminated now with
        | (ms', Some err) => (ms', Some ("failed to update tunnel status: " +:+ err))
        | (ms', None) => (ms', None)
        end
  end.

(** One observed request, as [UpdateTunnelAnalytics] receives it. *)
Record Observation : Type := mkObservation {
  obs_statusCode : Z;
  obs_responseTime : Z;
  obs_endpoint : string;
  obs_bytesTransferred : Z
}.

(** The updates [UpdateTunnelAnalytics] makes to the analytics record. *)
Definition record_observation (o : Observation) (now : Z) (a : Analytics) : Analytics :=
  mkAnalytics
    (wrap64 (RequestCount a + 1))
    (ResponseTimes a ++ [obs_responseTime o])
    (<[obs_statusCode o :=
         wrap64 (default 0 (StatusCodes a !! obs_statusCode o) + 1)]> (StatusCodes a))
    (<[obs_endpoint o :=
         wrap64 (default 0 (Endpoints a !! obs_endpoint o) + 1)]> (Endpoints a))
    now
    (wrap64 (BytesTransferred a + obs_bytesTransferred o)).

(** [UpdateTunnelAnalytics]. The source updates the record through the
    pointer [GetTunnel] returned and then hands it to the store; the store
    then holds the updated record, as here. *)
Definition UpdateTunnelAnalytics (ms : MemoryStore) (tunnelID : string)
  (o : Observation) (now : Z) : MemoryStore * option string :=
  match Store.GetTunnel ms tunnelID with
  | Error err => (ms, Some err)
  | OK tunnel =>
      let analytics := default emptyAnalytics (Tunnel_Analytics tunnel) in
      StoreOps.UpdateTunnelAnalytics ms tunnelID
        (Some (record_observation o now analytics)) now
  end.

(** The service called once per observation, in order. *)
Definition record_all (tunnelID : string) (now : Z) (ms : MemoryStore)
  (observations : list Observation) : MemoryStore :=
  foldl (λ ms o, (UpdateTunnelAnalytics ms tunnelID o now).1) ms observations.

(** [CleanupExpiredTunnels] *)
Definition CleanupExpiredTunnels (ms : MemoryStore) (now : Z)
  : MemoryStore * option string :=
  StoreOps.CleanupExpiredTunnels ms now.

End ServiceOps.

Module HandlerOps.

(** The JSON documents of the handlers below. *)
Inductive Body : Type :=
| Failure (error : string) (details : option string)
| TunnelData (data : Tunnel)
| TunnelList (data : list Tunnel) (count : Z)
| Message (message : string).

Record Reply : Type := mkReply {
  status : Z;
  body : Body
}.

(** [GetTunnel]; [tunnelID] is [c.Params("tunnelId")]. [c.JSON] answers 200. *)
Definition GetTunnel (ms : MemoryStore) (tunnelID : string) : Reply :=
  if String.eqb tunnelID ""
  then mkReply 400 (Failure "Tunnel ID is required" None)
  else
    match ServiceOps.GetTunnel ms tunnelID with
    | Error err => mkReply 404 (Failure "Tunnel not found" (Some err))
    | OK tunnel => mkReply 200 (TunnelData tunnel)
    end.

(** [GetUserTunnels] *)
Definition GetUserTunnels (ms : MemoryStore) (userID : string) : Reply :=
  if String.eqb userID ""
  then mkReply 400 (Failure "User ID is required" None)
  else
    match Service.GetUserTunnels ms userID with
    | Error err => mkReply 500 (Failure "Failed to retrieve tunnels" (Some err))
    | OK tunnels => mkReply 200 (TunnelList tunnels (Z.of_nat (length tunnels)))
    end.

(** [TerminateTunnel] *)
Definition TerminateTunnel (ms : MemoryStore) (tunnelID : string) (now : Z)
  : MemoryStore * Reply :=
  if String.eqb tunnelID ""
  then (ms, mkReply 400 (Failure "Tunnel ID is required" None))
  else
    match ServiceOps.TerminateTunnel ms tunnelID now with
    | (ms', Some err) => (ms', mkReply 500 (Failure "Failed to terminate tunnel" (Some err)))
    | (ms', None) => (ms', mkReply 200 (Message "Tunnel terminated successfully"))
    end.

End HandlerOps.

(** ** The reverse proxy's health and statistics, and their handlers *)

Module ProxyOps.

(** [GetActiveConnections] returns a copy of the id index; the loops below
    range over the records its values point at (in the order of
    [map_to_list]). *)
Definition GetActiveConnections (tm : TunnelManager) : gmap string loc :=
  connections tm.

Definition active_conns (tm : TunnelManager) : list TunnelConnection :=
  omap (λ entry : string * loc, heap tm !! entry.2)
    (map_to_list (GetActiveConnections tm)).

(** [time.Since(conn.LastPing) < 2*time.Minute] *)
Definition recent (now : Z) (conn : TunnelConnection) : bool :=
  now - LastPing conn <? 2 * Minute.

(** [ReverseProxy.HealthCheck]: [(true, nil)] is [OK true]; the only other
    result is [(false, err)]. *)
Definition HealthCheck (tm : TunnelManager) (subdomain : string) (now : Z) : res bool :=
  if existsb (λ conn, String.eqb (Conn_Subdomain conn) subdomain && recent now conn)
       (active_conns tm)
  then OK true
  else Error "tunnel not found or unhealthy".

(** The map [GetTunnelStats] returns; [uptime] is a number of seconds. *)
Record Stats : Type := mkStats {
  stat_tunnel_id : string;
  stat_user_id : string;
  stat_subdomain : string;
  stat_local_port : Z;
  stat_created_at : Z;
  stat_last_ping : Z;
  stat_uptime : Q;
  stat_is_healthy : bool
}.

(** The map [GetTunnelStats] builds from a session. *)
Definition stats_of (now : Z) (conn : TunnelConnection) : Stats :=
  mkStats (Conn_ID conn) (Conn_UserID conn) (Conn_Subdomain conn)
    (Conn_LocalPort conn) (Conn_CreatedAt conn) (LastPing conn)
    ((now - Conn_CreatedAt conn) # 1000000000) (recent now conn).

(** The loop of [GetTunnelStats]; [conns] lists the sessions of the id index
    in the order in which the [range] statement visits them, which Go does
    not specify. *)
Definition GetTunnelStats_loop (conns : list TunnelConnection) (subdomain : string)
  (now : Z) : res Stats :=
  match find (λ conn, String.eqb (Conn_Subdomain conn) subdomain) conns with
  | Some conn => OK (stats_of now conn)
  | None => Error "tunnel not found"
  end.

(** [ReverseProxy.GetTunnelStats], the id index visited in the order of
    [map_to_list]. *)
Definition GetTunnelStats (tm : TunnelManager) (subdomain : string) (now : Z) : res Stats :=
  GetTunnelStats_loop (active_conns tm) subdomain now.

(** The status codes of [WebSocketHandler.HealthCheck] and
    [WebSocketHandler.GetStats]; [subdomain] is [c.Params("subdomain")]. *)
Definition HealthCheck_status (tm : TunnelManager) (subdomain : string) (now : Z) : Z :=
  if String.eqb subdomain "" then 400
  else match HealthCheck tm subdomain now with
       | Error _ => 404
       | OK _ => 200
       end.

Definition GetStats_status (tm : TunnelManager) (subdomain : string) (now : Z) : Z :=
  if String.eqb subdomain "" then 400
  else match GetTunnelStats tm subdomain now with
       | Error _ => 404
       | OK _ => 200
       end.

End ProxyOps.

(** ** services/tester: validation of a result and the run of a suite *)

Module TesterSuite.

(** Of the structs below, the fields that only shape the HTTP request of a
    test case (its headers, body and timeout, the suite's global headers) are
    part of the exchange and not listed. *)
Record ExpectedResult : Type := mkExpectedResult {
  exp_StatusCode : Z;
  exp_Headers : gmap string string;
  exp_BodyContains : list string
}.

Record TestCase : Type := mkTestCase {
  tc_ID : string;
  tc_Method : string;
  tc_Path : string;
  tc_Expected : ExpectedResult
}.

Record TestResult : Type := mkTestResult {
  TestCaseID : string;
  Success : bool;
  res_StatusCode : Z;
  ResponseTime : Z;
  res_Headers : gmap string string;
  res_Body : string;
  res_Error : string;
  Timestamp : Z
}.

(** [validateTestResult]: each loop returns [false] at the first mismatch. *)
Definition validateTestResult (result : TestResult) (expected : ExpectedResult) : bool :=
  if negb (res_StatusCode result =? exp_StatusCode expected) then false
  else if negb (forallb
                  (λ kv : string * string,
                     match res_Headers result !! kv.1 with
                     | Some actualValue => String.eqb actualValue kv.2
                     | None => false
                     end)
                  (map_to_list (exp_Headers expected)))
  then false
  else forallb (Tester.contains (res_Body result)) (exp_BodyContains expected).

(** What the HTTP exchange of one test case came to. *)
Inductive Exchange : Type :=
| MarshalFailed (err : string)
| NewRequestFailed (err : string)
| RequestFailed (err : string) (responseTime : Z)
| ReadFailed (statusCode : Z) (header : gmap string (list string)) (err : string)
    (responseTime : Z)
| Responded (statusCode : Z) (header : gmap string (list string)) (body : string)
    (responseTime : Z).

(** [executeTestCase], given the outcome of its HTTP exchange. *)
Definition executeTestCase (testCase : TestCase) (now : Z) (exchange : Exchange)
  : TestResult :=
  match exchange with
  | MarshalFailed err =>
      mkTestResult (tc_ID testCase) false 0 0 ∅ ""
        ("Failed to marshal request body: " +:+ err) now
  | NewRequestFailed err =>
      mkTestResult (tc_ID testCase) false 0 0 ∅ ""
        ("Failed to create request: " +:+ err) now
  | RequestFailed err responseTime =>
      mkTestResult (tc_ID testCase) false 0 responseTime ∅ ""
        ("Request failed: " +:+ err) now
  | ReadFailed statusCode header err responseTime =>
      mkTestResult (tc_ID testCase) false statusCode responseTime (omap head header) ""
        ("Failed to read response body: " +:+ err) now
  | Responded statusCode header body responseTime =>
      let result :=
        mkTestResult (tc_ID testCase) false statusCode responseTime (omap head header)
          body "" now in
      mkTestResult (tc_ID testCase) (validateTestResult result (tc_Expected testCase))
        statusCode responseTime (omap head header) body "" now
  end.

Record TestSuite : Type := mkTestSuite {
  suite_ID : string;
  suite_Name : string;
  suite_BaseURL : string;
  TestCases : list TestCase
}.

Inductive ExecutionStatus : Type :=
| StatusPending
| StatusRunning
| StatusCompleted
| StatusFailed
| StatusCancelled.

Record TestExecution : Type := mkTestExecution {
  exec_ID : string;
  SuiteID : string;
  TunnelID : string;
  exec_Status : ExecutionStatus;
  Results : list TestResult;
  StartTime : Z;
  EndTime : Z;
  Duration : Z;
  PassedTests : Z;
  FailedTests : Z;
  TotalTests : Z
}.

(** The tester's [MemoryStore]. Its maps hold pointers; the functions below
    read and write the records only through the maps. *)
Record MemoryStore : Type := mkMemoryStore {
  testSuites : gmap string TestSuite;
  executions : gmap string TestExecution
}.

Definition SaveTestSuite (ms : MemoryStore) (suite : TestSuite) : MemoryStore :=
  mkMemoryStore (<[suite_ID suite := suite]> (testSuites ms)) (executions ms).

Definition GetTestSuite (ms : MemoryStore) (suiteID : string) : res TestSuite :=
  match testSuites ms !! suiteID with
  | Some suite => OK suite
  | None => Error ("test suite with ID " +:+ suiteID +:+ " not found")
  end.

Definition SaveTestExecution (ms : MemoryStore) (execution : TestExecution) : MemoryStore :=
  mkMemoryStore (testSuites ms) (<[exec_ID execution := execution]> (executions ms)).

Definition GetTestExecution (ms : MemoryStore) (executionID : string) : res TestExecution :=
  match executions ms !! executionID with
  | Some execution => OK execution
  | None => Error ("test execution with ID " +:+ executionID +:+ " not found")
  end.

Definition UpdateTestExecution (ms : MemoryStore) (execution : TestExecution)
  : MemoryStore * option string :=
  match executions ms !! exec_ID execution with
  | None =>
      (ms, Some ("test execution with ID " +:+ exec_ID execution +:+ " not found"))
  | Some _ =>
      (mkMemoryStore (testSuites ms) (<[exec_ID execution := execution]> (executions ms)),
       None)
  end.

(** The number of successful results. *)
Definition passed (results : list TestResult) : Z :=
  Z.of_nat (length (filter (λ r, Success r = true) results)).

(** One pass of the loop of [ExecuteTestSuite]: the result is appended and
    one of the two counters goes up. *)
Definition tally (execution : TestExecution) (result : TestResult) : TestExecution :=
  mkTestExecution (exec_ID execution) (SuiteID execution) (TunnelID execution)
    (exec_Status execution) (Results execution ++ [result])
    (StartTime execution) (EndTime execution) (Duration execution)
    (if Success result then wrap64 (PassedTests execution + 1) else PassedTests execution)
    (if Success result then FailedTests execution else wrap64 (FailedTests execution + 1))
    (TotalTests execution).

(** [ExecuteTestSuite]. [executionID] is the value of [generateExecutionID],
    [startTime] and [endTime] the two readings of the clock, and
    [exchanges i] the outcome of the HTTP exchange of the [i]-th test case
    (with the time its result is stamped with). The source saves the
    execution first and then updates it through the pointer; the store holds
    the final record after [UpdateTestExecution], as here. *)
Definition ExecuteTestSuite (ms : MemoryStore) (suiteID tunnelURL executionID : string)
  (startTime endTime : Z) (exchanges : nat -> Z * Exchange)
  : MemoryStore * res TestExecution :=
  match GetTestSuite ms suiteID with
  | Error err => (ms, Error ("failed to get test suite: " +:+ err))
  | OK suite =>
      let execution :=
        mkTestExecution executionID suiteID "tunnel_id_from_url" StatusRunning []
          startTime 0 0 0 0 (Z.of_nat (length (TestCases suite))) in
      let ms1 := SaveTestExecution ms execution in
      let execution :=
        foldl tally execution
          (imap (λ i testCase,
                   executeTestCase testCase (exchanges i).1 (exchanges i).2)
             (TestCases suite)) in
      let execution :=
        mkTestExecution (exec_ID execution) (SuiteID execution) (TunnelID execution)
          StatusCompleted (Results execution) (StartTime execution) endTime
          (endTime - startTime) (PassedTests execution) (FailedTests execution)
          (TotalTests execution) in
      match UpdateTestExecution ms1 execution with
      | (ms2, Some err) => (ms2, Error ("failed to update test execution: " +:+ err))
      | (ms2, None) => (ms2, OK execution)
      end
  end.

(** A stored suite of two test cases and the outcomes of their exchanges:
    the first is answered as expected, the second gets no answer. *)
Definition suite_demo : TestSuite :=
  mkTestSuite "suite-1" "demo" "http://localhost:3000"
    [mkTestCase "case-1" "GET" "/ping" (mkExpectedResult 200 ∅ ["pong"%string]);
     mkTestCase "case-2" "GET" "/down" (mkExpectedResult 200 ∅ [])].

Definition store_demo : MemoryStore :=
  SaveTestSuite (mkMemoryStore ∅ ∅) suite_demo.

Definition exchanges_demo (i : nat) : Z * Exchange :=
  match i with
  | O => (1, Responded 200 ∅ "ping pong" 5)
  | _ => (2, RequestFailed "connection refused" 7)
  end.

End TesterSuite.

(* ===================================================================== *)
(** * Theorems                                                            *)
(* ===================================================================== *)

(** ** Strings *)

Module GoStringsFacts.
Import GoStrings.

Lemma app_cons (a : ascii) (s t : string) : String a s +:+ t = String a (s +:+ t).
Proof. reflexivity. Qed.

Lemma app_empty_l (s : string) : "" +:+ s = s.
Proof. reflexivity. Qed.

Lemma length_app (s t : string) :
  String.length (s +:+ t) = (String.length s + String.length t)%nat.
Proof. induction s as [|a s IH]; rewrite ?app_cons; cbn [String.length]; [reflexivity | now rewrite IH]. Qed.

Lemma app_empty_r (s : string) : s +:+ "" = s.
Proof. induction s as [|a s IH]; rewrite ?app_cons, ?app_empty_l; [reflexivity | now rewrite IH]. Qed.

Lemma app_assoc (s t u : string) : (s +:+ t) +:+ u = s +:+ (t +:+ u).
Proof. induction s as [|a s IH]; rewrite ?app_cons, ?app_empty_l; [reflexivity | now rewrite IH]. Qed.

Lemma substring_0_0 (s : string) : substring 0 0 s = ""%string.
Proof. now destruct s. Qed.

Lemma substring_prefix (s t : string) :
  substring 0 (String.length s) (s +:+ t) = s.
Proof.
  induction s as [|a s IH]; rewrite ?app_cons; cbn [String.length substring];
    [apply substring_0_0 | now rewrite IH].
Qed.

Lemma substring_skip (p t : string) (m : nat) :
  substring (String.length p) m (p +:+ t) = substring 0 m t.
Proof.
  induction p as [|a p IH]; rewrite ?app_cons; cbn [String.length substring];
    [reflexivity | apply IH].
Qed.

Lemma substring_decomp (n m : nat) (s : string) :
  (n + m <= String.length s)%nat ->
  exists pre post : string,
    s = pre +:+ substring n m s +:+ post /\ String.length pre = n.
Proof.
  revert m s. induction n as [|n IHn].
  - induction m as [|m IHm]; intros s Hlen.
    + exists ""%string, s. rewrite substring_0_0. now split.
    + destruct s as [|a s]; simpl in Hlen; [lia|].
      destruct (IHm s) as (pre & post & Heq & Hpre); [lia|].
      destruct pre; [|discriminate].
      exists ""%string, post. split; [|reflexivity].
      rewrite app_empty_l in *. cbn [substring]. rewrite app_cons. now rewrite <- Heq.
  - intros m s Hlen. destruct s as [|a s]; simpl in Hlen; [lia|].
    destruct (IHn m s) as (pre & post & Heq & Hpre); [lia|].
    exists (String a pre), post. cbn [substring String.length]. rewrite app_cons.
    split; [now rewrite <- Heq | now rewrite Hpre].
Qed.

Lemma HasSuffix_app (pre suffix : string) : HasSuffix (pre +:+ suffix) suffix = true.
Proof.
  unfold HasSuffix, slice. rewrite length_app.
  apply andb_true_intro. split.
  - apply Nat.leb_le. lia.
  - apply String.eqb_eq.
    replace (String.length pre + String.length suffix - String.length suffix)%nat
      with (String.length pre) by lia.
    replace (String.length pre + String.length suffix - String.length pre)%nat
      with (String.length suffix) by lia.
    rewrite substring_skip.
    rewrite <- (app_empty_r suffix) at 2. apply substring_prefix.
Qed.

Lemma HasSuffix_inv (s suffix : string) :
  HasSuffix s suffix = true -> exists pre, s = pre +:+ suffix.
Proof.
  unfold HasSuffix, slice. intros H.
  apply andb_prop in H as [Hlen Heq].
  apply Nat.leb_le in Hlen. apply String.eqb_eq in Heq.
  destruct (substring_decomp (String.length s - String.length suffix)
              (String.length s - (String.length s - String.length suffix)) s)
    as (pre & post & Hs & Hpre); [lia|].
  rewrite Heq in Hs.
  assert (Hpost : String.length post = 0%nat).
  { apply (f_equal String.length) in Hs. rewrite !length_app in Hs. lia. }
  destruct post; [|discriminate].
  exists pre. now rewrite app_empty_r in Hs.
Qed.

Lemma TrimSuffix_app (pre suffix : string) : TrimSuffix (pre +:+ suffix) suffix = pre.
Proof.
  unfold TrimSuffix. rewrite HasSuffix_app. unfold slice.
  rewrite length_app.
  replace (String.length pre + String.length suffix - String.length suffix - 0)%nat
    with (String.length pre) by lia.
  apply substring_prefix.
Qed.

End GoStringsFacts.

(** ** The tester's [contains] *)

Module TesterFacts.
Import GoStrings GoStringsFacts Tester.

Lemma findSubstring_occurs (text sub : string) :
  findSubstring text sub = true <-> occurs_in sub text.
Proof.
  unfold findSubstring, occurs_in, slice, len. split.
  - intros H. apply existsb_exists in H as (i & Hin & Heq).
    apply in_seq in Hin. apply String.eqb_eq in Heq.
    replace (i + String.length sub - i)%nat with (String.length sub) in Heq by lia.
    destruct (substring_decomp i (String.length sub) text) as (pre & post & Ht & _);
      [lia|].
    exists pre, post. now rewrite Heq in Ht.
  - intros (pre & post & ->).
    apply existsb_exists. exists (String.length pre). split.
    + apply in_seq. rewrite !length_app. lia.
    + apply String.eqb_eq.
      replace (String.length pre + String.length sub - String.length pre)%nat
        with (String.length sub) by lia.
      rewrite substring_skip. apply substring_prefix.
Qed.

Lemma len_pos (s : string) : s <> ""%string -> (len s >? 0) = true.
Proof.
  intros H. destruct s; [congruence|]. unfold len. cbn [String.length].
  apply Z.gtb_lt. lia.
Qed.

(** C9, first part as the claim has it, refuted: [contains] accepts a
    non-empty string as a substring of itself, through the test
    [text == substring]. *)
Lemma contains_equal_counterexample :
  ~ (forall s : string, s <> ""%string -> contains s s = false).
Proof.
  intros H. specialize (H "a"%string ltac:(discriminate)).
  vm_compute in H. discriminate.
Qed.

(** C9 (amended): for a non-empty [sub], [contains text sub] holds when
    [text] equals [sub], and for a [text] strictly longer than [sub] it holds
    exactly when [sub] occurs in [text], bytes compared as they are. *)
Theorem contains_spec (text sub : string) (Hsub : sub <> ""%string) :
  (text = sub -> contains text sub = true)
  /\ ((String.length sub < String.length text)%nat ->
      (contains text sub = true <-> occurs_in sub text)).
Proof.
  split.
  - intros ->. unfold contains. rewrite (len_pos _ Hsub).
    rewrite String.eqb_refl. reflexivity.
  - intros Hlt. unfold contains.
    rewrite (len_pos _ Hsub).
    assert (Htext : text <> ""%string) by (destruct text; [simpl in Hlt; lia | discriminate]).
    rewrite (len_pos _ Htext).
    assert (Hne : String.eqb text sub = false).
    { apply String.eqb_neq. intros ->. lia. }
    rewrite Hne.
    assert (Hgt : (len text >? len sub) = true) by (apply Z.gtb_lt; unfold len; lia).
    rewrite Hgt. cbn [andb orb]. apply findSubstring_occurs.
Qed.

Lemma contains_spec_witness :
  contains "pong" "pong" = true
  /\ (contains "status: ok" "ok" = true <-> occurs_in "ok" "status: ok").
Proof.
  split.
  - apply (proj1 (contains_spec "pong" "pong" ltac:(discriminate))). reflexivity.
  - apply (proj2 (contains_spec "status: ok" "ok" ltac:(discriminate))).
    vm_compute. lia.
Defined.

End TesterFacts.

(** ** Subdomain extraction *)

Module ExtractFacts.
Import GoStrings GoStringsFacts.

Lemma lastIndexByte_None (s : string) (c : ascii) :
  no_byte c s -> lastIndexByte s c = None.
Proof.
  induction s as [|a s IH]; cbn [no_byte lastIndexByte]; [reflexivity|].
  intros [Hne Hs]. rewrite (IH Hs).
  destruct (Ascii.eqb a c) eqn:E; [|reflexivity].
  apply Ascii.eqb_eq in E. contradiction.
Qed.

Lemma lastIndexByte_app (pre post : string) (c : ascii) :
  no_byte c post ->
  lastIndexByte (pre +:+ String c post) c = Some (String.length pre).
Proof.
  intros Hpost. induction pre as [|a pre IH].
  - rewrite app_empty_l. cbn [lastIndexByte String.length].
    rewrite (lastIndexByte_None _ _ Hpost). now rewrite Ascii.eqb_refl.
  - rewrite app_cons. cbn [lastIndexByte String.length]. now rewrite IH.
Qed.

Lemma stripPort_no_colon (host : string) :
  no_byte ":" host -> stripPort host = host.
Proof.
  intros H. unfold stripPort, LastIndex. now rewrite (lastIndexByte_None _ _ H).
Qed.

Lemma stripPort_colon (pre post : string) :
  no_byte ":" post -> stripPort (pre +:+ ":" +:+ post) = pre.
Proof.
  intros H. unfold stripPort, LastIndex.
  change (":" +:+ post) with (String ":" post).
  rewrite (lastIndexByte_app _ _ _ H).
  destruct (Z.eqb_spec (Z.of_nat (String.length pre)) (-1)) as [E|_]; [lia|].
  unfold slice. rewrite Nat2Z.id, Nat.sub_0_r. apply substring_prefix.
Qed.

Lemma extract_label (baseDomain host label : string) :
  stripPort host = label +:+ "." +:+ baseDomain ->
  extractSubdomain baseDomain host =
    if String.eqb label "" || String.eqb label baseDomain then ""%string else label.
Proof.
  intros H. unfold extractSubdomain. rewrite H.
  rewrite HasSuffix_app, TrimSuffix_app. reflexivity.
Qed.

Lemma extract_no_suffix (baseDomain host : string) :
  (forall label, stripPort host <> label +:+ "." +:+ baseDomain) ->
  extractSubdomain baseDomain host = ""%string.
Proof.
  intros H. unfold extractSubdomain.
  destruct (HasSuffix (stripPort host) ("." +:+ baseDomain)) eqn:E; [|reflexivity].
  apply HasSuffix_inv in E as [pre Hpre]. now destruct (H pre).
Qed.

Lemma base_has_no_suffix (baseDomain label : string) :
  baseDomain <> label +:+ "." +:+ baseDomain.
Proof.
  intros H. apply (f_equal String.length) in H.
  rewrite !length_app in H. cbn [String.length] in H. lia.
Qed.

(** C7 as the claim has it, refuted: the remainder ends with ["."] and the
    base domain and the label before it is not empty, and yet the extractor
    returns the empty result, because the label equals the base domain. *)
Lemma extractSubdomain_counterexample :
  exists baseDomain host label : string,
    stripPort host = label +:+ "." +:+ baseDomain
    /\ label <> ""%string
    /\ extractSubdomain baseDomain host <> label.
Proof.
  exists "syntra.dev"%string, "syntra.dev.syntra.dev:8080"%string, "syntra.dev"%string.
  vm_compute. repeat split; discriminate.
Qed.

Section WithCanonicalKeys.
Variable CanonicalMIMEHeaderKey : string -> string.

(** C7 (amended): [extractSubdomain] first strips what follows the last
    [":"] of the host; it returns the label in front of ["."] and the base
    domain exactly when the remainder has that suffix and the label is
    neither empty nor equal to the base domain; in every other case, the bare
    base domain among them, it returns the empty string, for which
    [ProxyHandler] answers 400. *)
Theorem extractSubdomain_spec (baseDomain host : string) :
  ((no_byte ":" host -> stripPort host = host)
   /\ (forall pre post, host = pre +:+ ":" +:+ post -> no_byte ":" post ->
       stripPort host = pre))
  /\ (forall label,
        stripPort host = label +:+ "." +:+ baseDomain ->
        label <> ""%string -> label <> baseDomain ->
        extractSubdomain baseDomain host = label)
  /\ (forall label,
        stripPort host = label +:+ "." +:+ baseDomain ->
        label = ""%string \/ label = baseDomain ->
        extractSubdomain baseDomain host = ""%string)
  /\ ((forall label, stripPort host <> label +:+ "." +:+ baseDomain) ->
      extractSubdomain baseDomain host = ""%string)
  /\ (stripPort host = baseDomain -> extractSubdomain baseDomain host = ""%string)
  /\ (extractSubdomain baseDomain host = ""%string ->
      forall tm c newRequestErr requestID writeErr env sel elapsed responseTime,
        fc_Host c = host ->
        ProxyHandler CanonicalMIMEHeaderKey baseDomain tm c newRequestErr requestID
          writeErr env sel elapsed responseTime
        = Some (tm, jsonError 400 "Invalid subdomain" None)).
Proof.
  repeat split.
  - apply stripPort_no_colon.
  - intros pre post -> Hpost. now apply stripPort_colon.
  - intros label Hh Hne Hbase. rewrite (extract_label _ _ _ Hh).
    apply String.eqb_neq in Hne, Hbase. now rewrite Hne, Hbase.
  - intros label Hh [-> | ->]; rewrite (extract_label _ _ _ Hh).
    + reflexivity.
    + rewrite String.eqb_refl. now rewrite orb_true_r.
  - apply extract_no_suffix.
  - intros Hh. apply extract_no_suffix. intros label. rewrite Hh.
    apply base_has_no_suffix.
  - intros Hempty tm c newRequestErr requestID writeErr env sel elapsed responseTime Hc.
    unfold ProxyHandler. rewrite Hc, Hempty. reflexivity.
Qed.

End WithCanonicalKeys.

Lemma extractSubdomain_spec_witness :
  stripPort "alice-abcd1234.syntra.dev:443" = "alice-abcd1234.syntra.dev"%string
  /\ extractSubdomain "syntra.dev" "alice-abcd1234.syntra.dev:443" = "alice-abcd1234"%string
  /\ extractSubdomain "syntra.dev" "syntra.dev.syntra.dev" = ""%string
  /\ extractSubdomain "syntra.dev" "syntra.dev" = ""%string.
Proof.
  pose proof (extractSubdomain_spec (fun k => k) "syntra.dev" "alice-abcd1234.syntra.dev:443")
    as (Hstrip & Hlabel & _).
  pose proof (extractSubdomain_spec (fun k => k) "syntra.dev" "syntra.dev.syntra.dev")
    as (_ & _ & Hguard & _).
  pose proof (extractSubdomain_spec (fun k => k) "syntra.dev" "syntra.dev")
    as (_ & _ & _ & _ & Hbare & _).
  split; [|split; [|split]].
  - apply (proj2 Hstrip "alice-abcd1234.syntra.dev" "443"); [reflexivity|].
    simpl. repeat split; discriminate.
  - apply (Hlabel "alice-abcd1234"%string); [reflexivity | discriminate | discriminate].
  - apply (Hguard "syntra.dev"%string); [reflexivity | now right].
  - apply Hbare. reflexivity.
Defined.

End ExtractFacts.

(** ** The store, the service and the REST handler *)

Module ServiceFacts.

Lemma filter_snd_length {K A} (P : A -> Prop) `{forall x, Decision (P x)}
  (l : list (K * A)) :
  length (filter P (l.*2)) = length (filter (λ kv : K * A, P kv.2) l).
Proof.
  induction l as [|[k a] l IH]; [reflexivity|].
  rewrite fmap_cons, !filter_cons. cbn [snd].
  destruct (decide (P a)); cbn [length]; now rewrite IH.
Qed.

Lemma GetTunnelsByUserID_elem (ms : MemoryStore) (userID : string) (l : list Tunnel) :
  Store.GetTunnelsByUserID ms userID = OK l ->
  forall t, t ∈ l <->
    (exists id, tunnels ms !! id = Some t)
    /\ Tunnel_UserID t = userID /\ Tunnel_Status t = TunnelStatusActive.
Proof.
  intros [= <-] t. rewrite list_elem_of_filter, list_elem_of_fmap. split.
  - intros [[Hu Hs] ([id t'] & -> & Hin)].
    apply elem_of_map_to_list in Hin. eauto.
  - intros ((id & Hid) & Hu & Hs). split; [done|].
    exists (id, t). split; [done|]. now apply elem_of_map_to_list.
Qed.

Lemma GetTunnelsByUserID_length (ms : MemoryStore) (userID : string) (l : list Tunnel) :
  Store.GetTunnelsByUserID ms userID = OK l ->
  length l = size (Store.active_of userID ms).
Proof.
  intros [= <-]. unfold Store.active_of.
  rewrite filter_snd_length, map_filter_alt.
  rewrite map_size_list_to_map; [reflexivity|].
  apply NoDup_fmap_fst.
  - intros k x y [_ Hx]%list_elem_of_filter [_ Hy]%list_elem_of_filter.
    apply elem_of_map_to_list in Hx, Hy. congruence.
  - apply NoDup_filter, NoDup_map_to_list.
Qed.

Lemma active_of_insert_inactive (ms : MemoryStore) (userID id : string) (t : Tunnel) :
  Tunnel_Status t <> TunnelStatusActive ->
  Store.active_of userID (mkMemoryStore (<[id := t]> (tunnels ms)))
  = Store.active_of userID (mkMemoryStore (delete id (tunnels ms))).
Proof.
  intros Hs. unfold Store.active_of. cbn [tunnels].
  apply map_filter_insert_False. cbn [snd]. tauto.
Qed.

(** C10: the per-user listing, through the service or the store, returns
    exactly the tunnels of the store that belong to the user and are active
    (as many as there are such entries), and a tunnel in any other status
    adds nothing to the count the creation cap is compared with. *)
Theorem GetUserTunnels_active_only (ms : MemoryStore) (userID : string) :
  exists l : list Tunnel,
    Service.GetUserTunnels ms userID = OK l
    /\ Store.GetTunnelsByUserID ms userID = OK l
    /\ (forall t, t ∈ l <->
          (exists id, tunnels ms !! id = Some t)
          /\ Tunnel_UserID t = userID /\ Tunnel_Status t = TunnelStatusActive)
    /\ (forall t, Tunnel_Status t <> TunnelStatusActive -> t ∉ l)
    /\ length l = size (Store.active_of userID ms)
    /\ (forall id t l',
          Tunnel_Status t <> TunnelStatusActive ->
          Store.GetTunnelsByUserID (mkMemoryStore (<[id := t]> (tunnels ms))) userID = OK l' ->
          length l' = size (Store.active_of userID (mkMemoryStore (delete id (tunnels ms))))).
Proof.
  destruct (Store.GetTunnelsByUserID ms userID) as [l|] eqn:E; [|discriminate].
  exists l. split; [exact E|]. split; [reflexivity|].
  split; [|split; [|split]].
  - now apply GetTunnelsByUserID_elem.
  - intros t Hs Hin. apply (GetTunnelsByUserID_elem ms userID l E) in Hin. tauto.
  - now apply GetTunnelsByUserID_length.
  - intros id t l' Hs El'. rewrite (GetTunnelsByUserID_length _ _ _ El').
    now rewrite active_of_insert_inactive.
Qed.

End ServiceFacts.

Module HandlerFacts.
Import ServiceFacts.

Lemma ValidatePort_None (port : Z) :
  ValidatePort port = None <-> (1 <= port <= 65535) /\ ~ In port restrictedPorts.
Proof.
  unfold ValidatePort.
  destruct (Z.ltb_spec port 1) as [Hlo|Hlo]; cbn [orb].
  { split; [discriminate | lia]. }
  destruct (Z.gtb_spec port 65535) as [Hhi|Hhi].
  { split; [discriminate | lia]. }
  destruct (existsb (Z.eqb port) restrictedPorts) eqn:E.
  - split; [discriminate|]. intros [_ Hnot]. exfalso. apply Hnot.
    apply existsb_exists in E as (x & Hin & Hx). apply Z.eqb_eq in Hx. now subst.
  - split; [|reflexivity]. intros _. split; [lia|]. intros Hin.
    assert (existsb (Z.eqb port) restrictedPorts = true) as E'.
    { apply existsb_exists. exists port. split; [exact Hin | apply Z.eqb_refl]. }
    congruence.
Qed.

Lemma cap_test (config : TunnelConfig) (ms : MemoryStore) (userID : string) :
  exists l, Store.GetTunnelsByUserID ms userID = OK l
            /\ Z.of_nat (length l) = Z.of_nat (size (Store.active_of userID ms)).
Proof.
  destruct (Store.GetTunnelsByUserID ms userID) as [l|] eqn:E; [|discriminate].
  exists l. split; [reflexivity|]. now rewrite (GetTunnelsByUserID_length _ _ _ E).
Qed.

Lemma create_reject (config : TunnelConfig) (ms : MemoryStore) (userID : string)
  (localPort : Z) (tunnelID random : string) (now : Z) :
  ValidatePort localPort = None ->
  Service.isPortAllowed config localPort = true ->
  MaxTunnelsPerUser config <= Z.of_nat (size (Store.active_of userID ms)) ->
  Handler.CreateTunnel config ms (OK (Handler.mkCreateTunnelRequest userID localPort))
    tunnelID random now
  = (ms, Handler.mkReply 500
           (Handler.ErrorBody "Failed to create tunnel"
              ("maximum number of tunnels (" +:+ pretty (MaxTunnelsPerUser config)
               +:+ ") exceeded for user"))).
Proof.
  intros Hvalid Hallowed Hcap.
  destruct (cap_test config ms userID) as (l & El & Hlen).
  unfold Handler.CreateTunnel, Service.CreateTunnel.
  cbn [Handler.Req_LocalPort Handler.Req_UserID].
  rewrite Hvalid, Hallowed, El. cbn [negb].
  destruct (Z.geb_spec (Z.of_nat (length l)) (MaxTunnelsPerUser config)); [|lia].
  reflexivity.
Qed.

Lemma create_accept (config : TunnelConfig) (ms : MemoryStore) (userID : string)
  (localPort : Z) (tunnelID random : string) (now : Z) :
  ValidatePort localPort = None ->
  Service.isPortAllowed config localPort = true ->
  Z.of_nat (size (Store.active_of userID ms)) < MaxTunnelsPerUser config ->
  tunnels ms !! tunnelID = None ->
  exists tunnel : Tunnel,
    Handler.CreateTunnel config ms
      (OK (Handler.mkCreateTunnelRequest userID localPort)) tunnelID random now
    = (mkMemoryStore (<[tunnelID := tunnel]> (tunnels ms)),
       Handler.mkReply 201 (Handler.CreatedBody tunnel "Tunnel created successfully"))
    /\ Tunnel_ID tunnel = tunnelID
    /\ Tunnel_UserID tunnel = userID
    /\ Tunnel_LocalPort tunnel = localPort
    /\ Tunnel_Status tunnel = TunnelStatusConnecting.
Proof.
  intros Hvalid Hallowed Hcap Hfresh.
  destruct (cap_test config ms userID) as (l & El & Hlen).
  unfold Handler.CreateTunnel, Service.CreateTunnel.
  cbn [Handler.Req_LocalPort Handler.Req_UserID].
  rewrite Hvalid, Hallowed, El. cbn [negb].
  destruct (Z.geb_spec (Z.of_nat (length l)) (MaxTunnelsPerUser config)); [lia|].
  unfold Store.CreateTunnel. cbn [Tunnel_ID]. rewrite Hfresh.
  eexists. split; [reflexivity|]. now repeat split.
Qed.

(** C4 as the claim has it, refuted: with [max_tunnels_per_user = 2], three
    consecutive creates for one user are all answered 201 while the earlier
    tunnels are still connecting, and 201, 201, 500 once they are active; in
    neither run is the third answer a 4xx. *)
Lemma create_cap_counterexample :
  (~ exists code : Z,
       400 <= code <= 499
       /\ fst (Handler.create_run Handler.config_cap2 false "alice" 3000 0
                 ["t1"; "t2"; "t3"]%string NewMemoryStore)
          = [201; 201; code])
  /\ (~ exists code : Z,
         400 <= code <= 499
         /\ fst (Handler.create_run Handler.config_cap2 true "alice" 3000 0
                   ["t1"; "t2"; "t3"]%string NewMemoryStore)
            = [201; 201; code]).
Proof.
  split; intros (code & Hrange & Hrun);
    vm_compute in Hrun; injection Hrun as <-; lia.
Qed.

(** C4 (amended): for a port that passes validation and is in the allowed
    list, a create call is answered 500 with the details
    "maximum number of tunnels (N) exceeded for user" whenever the user
    already has at least N = max_tunnels_per_user active tunnels in the
    store, and otherwise, when the generated tunnel id is not in the store
    yet, it is answered 201 and the new tunnel is stored in status
    connecting. With N = 2, three creates for one user, every tunnel active
    before the next create, are answered 201, 201 and 500. *)
Theorem create_cap (config : TunnelConfig) (ms : MemoryStore) (userID : string)
  (localPort : Z) (tunnelID random : string) (now : Z)
  (Hvalid : ValidatePort localPort = None)
  (Hallowed : Service.isPortAllowed config localPort = true) :
  (MaxTunnelsPerUser config <= Z.of_nat (size (Store.active_of userID ms)) ->
   Handler.CreateTunnel config ms (OK (Handler.mkCreateTunnelRequest userID localPort))
     tunnelID random now
   = (ms, Handler.mkReply 500
            (Handler.ErrorBody "Failed to create tunnel"
               ("maximum number of tunnels (" +:+ pretty (MaxTunnelsPerUser config)
                +:+ ") exceeded for user"))))
  /\ (Z.of_nat (size (Store.active_of userID ms)) < MaxTunnelsPerUser config ->
      tunnels ms !! tunnelID = None ->
      exists tunnel : Tunnel,
        Handler.CreateTunnel config ms
          (OK (Handler.mkCreateTunnelRequest userID localPort)) tunnelID random now
        = (mkMemoryStore (<[tunnelID := tunnel]> (tunnels ms)),
           Handler.mkReply 201 (Handler.CreatedBody tunnel "Tunnel created successfully"))
        /\ Tunnel_ID tunnel = tunnelID
        /\ Tunnel_UserID tunnel = userID
        /\ Tunnel_LocalPort tunnel = localPort
        /\ Tunnel_Status tunnel = TunnelStatusConnecting)
  /\ fst (Handler.create_run Handler.config_cap2 true "alice" 3000 0
            ["t1"; "t2"; "t3"]%string NewMemoryStore)
     = [201; 201; 500].
Proof.
  split; [|split].
  - now apply create_reject.
  - now apply create_accept.
  - vm_compute. reflexivity.
Qed.

Lemma create_cap_witness :
  Handler.reply_status
    (snd (Handler.CreateTunnel Handler.config_cap2 NewMemoryStore
            (OK (Handler.mkCreateTunnelRequest "alice" 3000)) "t1" "deadbeef" 0))
  = 201.
Proof.
  destruct (create_cap Handler.config_cap2 NewMemoryStore "alice" 3000 "t1" "deadbeef" 0
              ltac:(reflexivity) ltac:(reflexivity))
    as (_ & Hok & _).
  destruct Hok as (tunnel & Hrun & _).
  - vm_compute. reflexivity.
  - reflexivity.
  - rewrite Hrun. reflexivity.
Defined.

(** C8: [ValidatePort] rejects a port exactly when it lies outside
    [1, 65535] or is one of 22, 23, 25, 53, 80, 110, 143, 443, 993, 995; a
    create call with port 22 is answered 400 with the details
    "port 22 is restricted", with port 70000 it is answered 400, and port
    3000 passes validation and, under the default configuration, is answered
    201 as long as the user is below the cap and the tunnel id is new (as on
    the empty store). *)
Theorem port_validation (config : TunnelConfig) (ms : MemoryStore) (userID : string)
  (tunnelID random baseURL : string) (now : Z) :
  (forall port : Z,
     is_Some (ValidatePort port) <->
     (port < 1 \/ 65535 < port \/ In port [22; 23; 25; 53; 80; 110; 143; 443; 993; 995]))
  /\ Handler.CreateTunnel config ms (OK (Handler.mkCreateTunnelRequest userID 22))
       tunnelID random now
     = (ms, Handler.mkReply 400 (Handler.ErrorBody "Invalid port" "port 22 is restricted"))
  /\ Handler.CreateTunnel config ms (OK (Handler.mkCreateTunnelRequest userID 70000))
       tunnelID random now
     = (ms, Handler.mkReply 400
              (Handler.ErrorBody "Invalid port" "port must be between 1 and 65535"))
  /\ ValidatePort 3000 = None
  /\ (Z.of_nat (size (Store.active_of userID ms)) < 5 ->
      tunnels ms !! tunnelID = None ->
      Handler.reply_status
        (snd (Handler.CreateTunnel (GenerateTunnelConfig baseURL) ms
                (OK (Handler.mkCreateTunnelRequest userID 3000)) tunnelID random now))
      = 201)
  /\ Handler.reply_status
       (snd (Handler.CreateTunnel (GenerateTunnelConfig baseURL) NewMemoryStore
               (OK (Handler.mkCreateTunnelRequest userID 3000)) tunnelID random now))
     = 201.
Proof.
  assert (H3000 :
    forall ms', Z.of_nat (size (Store.active_of userID ms')) < 5 ->
      tunnels ms' !! tunnelID = None ->
      Handler.reply_status
        (snd (Handler.CreateTunnel (GenerateTunnelConfig baseURL) ms'
                (OK (Handler.mkCreateTunnelRequest userID 3000)) tunnelID random now))
      = 201).
  { intros ms' Hcap Hfresh.
    destruct (create_accept (GenerateTunnelConfig baseURL) ms' userID 3000 tunnelID
                random now) as (tunnel & -> & _); done. }
  split; [|split; [|split; [|split; [|split]]]].
  - intros port. split.
    + intros Hsome.
      destruct (Z.ltb_spec port 1); [now left|].
      destruct (Z.ltb_spec 65535 port); [now right; left|].
      right; right.
      destruct (In_dec Z.eq_dec port restrictedPorts) as [Hin|Hnot]; [exact Hin|].
      assert (ValidatePort port = None) as E by (apply ValidatePort_None; split; [lia|done]).
      rewrite E in Hsome. now destruct Hsome.
    + intros Hbad. destruct (ValidatePort port) eqn:E; [eauto|].
      apply ValidatePort_None in E as [Hrange Hnot]. exfalso.
      destruct Hbad as [?|[?|Hin]]; [lia | lia | now apply Hnot].
  - reflexivity.
  - reflexivity.
  - reflexivity.
  - apply H3000.
  - apply H3000; [|apply lookup_empty].
    unfold Store.active_of, NewMemoryStore. cbn [tunnels].
    rewrite map_filter_empty, map_size_empty. lia.
Qed.

Lemma port_validation_witness :
  Handler.reply_status
    (snd (Handler.CreateTunnel (GenerateTunnelConfig "https://api.syntra.dev")
            NewMemoryStore (OK (Handler.mkCreateTunnelRequest "alice" 3000))
            "t1" "deadbeef" 0))
  = 201.
Proof.
  destruct (port_validation Handler.config_cap2 NewMemoryStore "alice" "t1" "deadbeef"
              "https://api.syntra.dev" 0) as (_ & _ & _ & _ & Hok & _).
  apply Hok.
  - vm_compute. reflexivity.
  - reflexivity.
Defined.

Lemma GetUserTunnels_active_only_witness :
  exists l : list Tunnel,
    Service.GetUserTunnels
      (snd (Handler.create_run Handler.config_cap2 false "alice" 3000 0 ["t1"%string]
              NewMemoryStore)) "alice"
    = OK l
    /\ l = [].
Proof.
  destruct (GetUserTunnels_active_only
              (snd (Handler.create_run Handler.config_cap2 false "alice" 3000 0
                      ["t1"%string] NewMemoryStore)) "alice")
    as (l & Hl & _ & _ & Hnot & _).
  exists l. split; [exact Hl|].
  destruct l as [|t l]; [reflexivity|]. exfalso.
  vm_compute in Hl. injection Hl as Hl. discriminate.
Defined.

End HandlerFacts.

(** ** The dispatcher *)

Module DispatcherFacts.
Import Tunnels.

Lemma pending_delete_insert (requestID : string) (ch : chan) (conn : TunnelConnection) :
  pendingReqs conn !! requestID = None ->
  pending_delete requestID (pending_insert requestID ch conn) = conn.
Proof.
  intros Hfresh. destruct conn as [i u s lp snt ping cr pend c].
  unfold pending_delete, pending_insert, set_pendingReqs. cbn in *.
  now rewrite delete_insert_id.
Qed.

Lemma heap_delete_insert (h : gmap loc TunnelConnection) (p : loc)
  (requestID : string) (ch : chan) (conn : TunnelConnection) :
  h !! p = Some conn ->
  pendingReqs conn !! requestID = None ->
  alter (pending_delete requestID) p (alter (pending_insert requestID ch) p h) = h.
Proof.
  intros Hp Hfresh. apply map_eq. intros q.
  destruct (decide (p = q)) as [<-|Hne].
  - rewrite !lookup_alter_eq, Hp. cbn. now rewrite pending_delete_insert.
  - now rewrite !lookup_alter_ne.
Qed.

(** C2: in the send path of [ForwardRequest], for a correlation id that is
    not in the session's pending table, the slot is inserted under that id
    before the request frame is written; when the write fails the slot is
    removed again, the call returns an error, and the pending table (the
    whole session record) is as it was before the call; when the write
    succeeds the table holds the new slot and the frame is on the socket. *)
Theorem send_inserts_before_write (tm : TunnelManager) (subdomain : string)
  (req : HTTPRequest) (requestID : string) (writeErr : option string)
  (p : loc) (conn : TunnelConnection)
  (Hsub : subdomains tm !! subdomain = Some p)
  (Hconn : heap tm !! p = Some conn)
  (Hfresh : pendingReqs conn !! requestID = None) :
  let tm' := (ForwardRequest_send tm subdomain req requestID writeErr).1 in
  let result := (ForwardRequest_send tm subdomain req requestID writeErr).2 in
  let frame := requestFrame requestID req in
  match writeErr with
  | Some err =>
      trace tm' = trace tm ++ [EvPendingInsert p requestID; EvWrite p frame false;
                               EvPendingDelete p requestID]
      /\ result = Error ("failed to send request through tunnel: " +:+ err)
      /\ heap tm' = heap tm
      /\ heap tm' !! p = Some conn
  | None =>
      trace tm' = trace tm ++ [EvPendingInsert p requestID; EvWrite p frame true]
      /\ result = OK (p, fresh (dom (chans tm)))
      /\ (exists conn', heap tm' !! p = Some conn'
            /\ pendingReqs conn' = <[requestID := fresh (dom (chans tm))]> (pendingReqs conn)
            /\ Conn_sent conn' = Conn_sent conn ++ [frame])
      /\ chans tm' !! fresh (dom (chans tm)) = Some []
  end.
Proof.
  unfold ForwardRequest_send. rewrite Hsub.
  destruct writeErr as [err|]; cbn.
  - rewrite <- !app_assoc. cbn. split; [reflexivity|]. split; [reflexivity|].
    rewrite (heap_delete_insert _ _ _ _ _ Hconn Hfresh). now split.
  - rewrite <- !app_assoc. cbn. split; [reflexivity|]. split; [reflexivity|].
    split.
    + rewrite !lookup_alter_eq, Hconn. cbn. eexists. split; [reflexivity|]. now split.
    + apply lookup_insert_eq.
Qed.

Lemma send_inserts_before_write_witness :
  trace Scenario.tm_parked
  = [EvPendingInsert Scenario.p_alice "req-1";
     EvWrite Scenario.p_alice
       (requestFrame "req-1" (mkHTTPRequest "GET" "/ping" "" ∅ (Some ""%string) 0)) true].
Proof.
  pose proof (send_inserts_before_write Scenario.tm_alice "alice-abcd1234"
                (mkHTTPRequest "GET" "/ping" "" ∅ (Some ""%string) 0) "req-1" None
                Scenario.p_alice
                (mkTunnelConnection "tunnel-1" "alice" "alice-abcd1234" 0 [] 0 0 ∅ false)
                ltac:(vm_compute; reflexivity) ltac:(vm_compute; reflexivity)
                ltac:(reflexivity)) as H.
  cbv zeta in H. destruct H as (Htrace & _).
  exact Htrace.
Defined.

End DispatcherFacts.

Module ReplyFacts.
Import Tunnels.

Section WithCanonicalKeys.
Variable CanonicalMIMEHeaderKey : string -> string.

Lemma ProxyHandler_forward (baseDomain : string) (tm : TunnelManager) (c : FiberRequest)
  (requestID : string) (writeErr : option string)
  (env : TunnelManager -> TunnelManager) (sel : SelectCase) (elapsed responseTime : Z)
  (req : HTTPRequest) :
  extractSubdomain baseDomain (fc_Host c) <> ""%string ->
  fiberToHTTPRequest CanonicalMIMEHeaderKey c None = OK req ->
  ProxyHandler CanonicalMIMEHeaderKey baseDomain tm c None requestID writeErr env sel
    elapsed responseTime
  = match ForwardRequest CanonicalMIMEHeaderKey tm
            (extractSubdomain baseDomain (fc_Host c)) req requestID writeErr env sel
            elapsed with
    | None => None
    | Some (tm', result) => Some (tm', ProxyHandler_reply result responseTime)
    end.
Proof.
  intros Hhost Hreq. unfold ProxyHandler.
  apply String.eqb_neq in Hhost. now rewrite Hhost, Hreq.
Qed.

Lemma await_timeout (tm : TunnelManager) (p : loc) (requestID : string)
  (ch : chan) (elapsed : Z) :
  30 * Second <= elapsed ->
  ForwardRequest_await CanonicalMIMEHeaderKey tm p requestID ch CaseTimeout elapsed
  = Some (log (update_conn p (pending_delete requestID) tm)
            [EvPendingDelete p requestID],
          Error "tunnel request timeout").
Proof.
  intros H. unfold ForwardRequest_await.
  destruct (Z.geb_spec elapsed (30 * Second)); [reflexivity | lia].
Qed.

(** C5 (amended): when the agent has put no response on the slot and the
    30-second deadline has passed, the response case of the wait is not
    ready and the deadline case makes the public call answer 502 (the code
    has no 504) with the error "tunnel request timeout"; the slot of that
    correlation id is removed from the session's pending table, and both
    registry indices, the session's cancellation state and the store are
    left as they were, so the tunnel stays registered and active. *)
Theorem deadline_reply (baseDomain : string) (tm tm1 : TunnelManager) (c : FiberRequest)
  (requestID : string) (env : TunnelManager -> TunnelManager)
  (elapsed responseTime : Z) (req : HTTPRequest) (p : loc) (ch : chan)
  (Hhost : extractSubdomain baseDomain (fc_Host c) <> ""%string)
  (Hreq : fiberToHTTPRequest CanonicalMIMEHeaderKey c None = OK req)
  (Hsend : ForwardRequest_send tm (extractSubdomain baseDomain (fc_Host c)) req
             requestID None = (tm1, OK (p, ch)))
  (Hsilent : chans (env tm1) !! ch = Some [])
  (Hdeadline : 30 * Second <= elapsed) :
  ProxyHandler CanonicalMIMEHeaderKey baseDomain tm c None requestID None env
    CaseResponse elapsed responseTime = None
  /\ exists tm' : TunnelManager,
       ProxyHandler CanonicalMIMEHeaderKey baseDomain tm c None requestID None env
         CaseTimeout elapsed responseTime
       = Some (tm', jsonError 502 "Tunnel unavailable" (Some "tunnel request timeout"%string))
       /\ (forall conn, heap (env tm1) !! p = Some conn ->
             exists conn', heap tm' !! p = Some conn'
               /\ pendingReqs conn' = delete requestID (pendingReqs conn)
               /\ pendingReqs conn' !! requestID = None
               /\ cancelled conn' = cancelled conn)
       /\ connections tm' = connections (env tm1)
       /\ subdomains tm' = subdomains (env tm1)
       /\ store tm' = store (env tm1).
Proof.
  rewrite !(ProxyHandler_forward _ _ _ _ _ _ _ _ _ req Hhost Hreq).
  unfold ForwardRequest. rewrite Hsend. split.
  - unfold ForwardRequest_await. now rewrite Hsilent.
  - rewrite (await_timeout _ _ _ _ _ Hdeadline).
    eexists. split; [reflexivity|]. split; [|now repeat split].
    intros conn Hconn. cbn. rewrite lookup_alter_eq, Hconn. cbn.
    eexists. split; [reflexivity|]. cbn. split; [reflexivity|].
    split; [apply lookup_delete_eq | reflexivity].
Qed.

(** [buildHTTPResponse] never sets a body, so the reply built from its
    result has an empty one. *)
Lemma response_without_body (msg : TunnelMessage) (responseTime : Z) :
  exists resp : HTTPResponse,
    buildHTTPResponse CanonicalMIMEHeaderKey msg = OK resp
    /\ StatusCode resp
       = match Msg_Data msg !! "status_code"%string with
         | Some (JNumber statusCode) => go_int statusCode
         | _ => 200
         end
    /\ Resp_Body resp = None
    /\ fiber_status (ProxyHandler_reply (OK resp) responseTime) = StatusCode resp
    /\ fiber_body (ProxyHandler_reply (OK resp) responseTime) = RawBody "".
Proof. eexists. split; [reflexivity|]. now repeat split. Qed.

End WithCanonicalKeys.

(** C5 as the claim has it, refuted: on the silent agent the public call is
    answered 502 at the deadline, not 504. *)
Lemma deadline_counterexample :
  ~ (exists (tm' : TunnelManager) (reply : FiberResponse),
       ProxyHandler (fun key => key) "syntra.dev" Scenario.tm_alice
         Scenario.request_pong None "req-1" None Scenario.agent_silent CaseTimeout
         (30 * Second) (30 * Second)
       = Some (tm', reply)
       /\ fiber_status reply = 504).
Proof.
  intros (tm' & reply & Hrun & Hstatus).
  assert (Hcode :
    option_map (fun r : TunnelManager * FiberResponse => fiber_status r.2)
      (ProxyHandler (fun key => key) "syntra.dev" Scenario.tm_alice
         Scenario.request_pong None "req-1" None Scenario.agent_silent CaseTimeout
         (30 * Second) (30 * Second)) = Some 502) by (vm_compute; reflexivity).
  rewrite Hrun in Hcode. cbn in Hcode. congruence.
Qed.

Lemma deadline_reply_witness :
  exists tm' : TunnelManager,
    ProxyHandler (fun key => key) "syntra.dev" Scenario.tm_alice
      Scenario.request_pong None "req-1" None Scenario.agent_silent CaseTimeout
      (30 * Second) (30 * Second)
    = Some (tm', jsonError 502 "Tunnel unavailable" (Some "tunnel request timeout"%string))
    /\ connections tm' !! "tunnel-1"%string = Some Scenario.p_alice
    /\ subdomains tm' !! "alice-abcd1234"%string = Some Scenario.p_alice.
Proof.
  destruct (deadline_reply (fun key => key) "syntra.dev" Scenario.tm_alice
              (ForwardRequest_send Scenario.tm_alice "alice-abcd1234"
                 (mkHTTPRequest "POST" "/ping" ""
                    {[ "Content-Type"%string := ["text/plain"%string] ]}
                    (Some "pong"%string) 4) "req-1" None).1
              Scenario.request_pong "req-1" Scenario.agent_silent
              (30 * Second) (30 * Second)
              (mkHTTPRequest "POST" "/ping" ""
                 {[ "Content-Type"%string := ["text/plain"%string] ]}
                 (Some "pong"%string) 4)
              Scenario.p_alice 0%nat)
    as (_ & tm' & Hrun & _ & Hconns & Hsubs & _).
  - vm_compute. discriminate.
  - vm_compute. reflexivity.
  - vm_compute. reflexivity.
  - vm_compute. reflexivity.
  - vm_compute. discriminate.
  - exists tm'. split; [exact Hrun|].
    rewrite Hconns, Hsubs. split; vm_compute; reflexivity.
Defined.

(** C1, evaluated on the code: for every response frame,
    [buildHTTPResponse] takes the status code from [status_code] (200 when
    it is absent or not a number) and returns a response without a body, so
    the reply to the public client has that status code and an empty body,
    whatever the frame's [body] field holds. With the echo agent: the request
    carries the body "pong", the agent's response frame has status 200 and
    the body "pong", and the public client receives status 200 and an empty
    body. *)
Theorem echo_body_lost :
  (forall (canon : string -> string) (msg : TunnelMessage) (responseTime : Z),
     exists resp : HTTPResponse,
       buildHTTPResponse canon msg = OK resp
       /\ StatusCode resp
          = match Msg_Data msg !! "status_code"%string with
            | Some (JNumber statusCode) => go_int statusCode
            | _ => 200
            end
       /\ Resp_Body resp = None
       /\ fiber_status (ProxyHandler_reply (OK resp) responseTime) = StatusCode resp
       /\ fiber_body (ProxyHandler_reply (OK resp) responseTime) = RawBody "")
  /\ fc_Body Scenario.request_pong = "pong"%string
  /\ Msg_Data
       (Scenario.echo_agent
          (requestFrame "req-1"
             (mkHTTPRequest "POST" "/ping" "" ∅ (Some "pong"%string) 4)))
       !! "body"%string
     = Some (JString "pong")
  /\ option_map
       (fun r : TunnelManager * FiberResponse => (fiber_status r.2, fiber_body r.2))
       (ProxyHandler (fun key => key) "syntra.dev" Scenario.tm_alice
          Scenario.request_pong None "req-1" None
          (Scenario.agent_echoes Scenario.p_alice) CaseResponse 5000000 7000000)
     = Some (200, RawBody "").
Proof.
  split; [apply response_without_body|].
  split; [reflexivity|]. split; vm_compute; reflexivity.
Qed.

End ReplyFacts.

(** ** The registry *)

Module RegistryFacts.
Import Tunnels.

Lemma same_registry_refl (tm : TunnelManager) : same_registry tm tm.
Proof. now repeat split. Qed.

Lemma same_registry_trans (tm1 tm2 tm3 : TunnelManager) :
  same_registry tm1 tm2 -> same_registry tm2 tm3 -> same_registry tm1 tm3.
Proof.
  intros (Hc & Hs & Hh) (Hc' & Hs' & Hh'). split; [congruence|]. split; [congruence|].
  intros q. now rewrite Hh', Hh.
Qed.

Lemma same_registry_update (tm : TunnelManager) (p : loc)
  (f : TunnelConnection -> TunnelConnection) :
  (forall conn, keys (f conn) = keys conn) ->
  same_registry tm (update_conn p f tm).
Proof.
  intros Hf. split; [reflexivity|]. split; [reflexivity|].
  intros q. cbn. destruct (decide (p = q)) as [<-|Hne].
  - rewrite lookup_alter_eq. destruct (heap tm !! p); cbn; [now rewrite Hf | reflexivity].
  - now rewrite lookup_alter_ne.
Qed.

Lemma same_registry_log (tm : TunnelManager) (evs : list Event) :
  same_registry tm (log tm evs).
Proof. now repeat split. Qed.

Lemma same_registry_set_chans (tm : TunnelManager) c :
  same_registry tm (set_chans tm c).
Proof. now repeat split. Qed.

Lemma same_registry_set_store (tm : TunnelManager) (ms : MemoryStore) :
  same_registry tm (set_store tm ms).
Proof. now repeat split. Qed.

Create HintDb registry.
#[local] Hint Resolve same_registry_refl same_registry_update same_registry_log
  same_registry_set_chans same_registry_set_store : registry.

Lemma same_registry_WriteJSON (tm : TunnelManager) (p : loc) (msg : TunnelMessage)
  (writeErr : option string) :
  same_registry tm (WriteJSON p msg writeErr tm).
Proof.
  unfold WriteJSON. destruct writeErr.
  - auto with registry.
  - eapply same_registry_trans; [|apply same_registry_log].
    now apply same_registry_update.
Qed.

Lemma same_registry_handleResponse (tm tm' : TunnelManager) (p : loc)
  (msg : TunnelMessage) :
  handleResponse tm p msg = Some tm' -> same_registry tm tm'.
Proof.
  unfold handleResponse. intros H.
  destruct (heap tm !! p) as [conn|]; [|injection H as <-; auto with registry].
  destruct (pendingReqs conn !! Msg_ID msg) as [ch|];
    [|injection H as <-; auto with registry].
  destruct (chans tm !! ch) as [[|? ?]|]; try discriminate.
  injection H as <-.
  eapply same_registry_trans; [|apply same_registry_log].
  eapply same_registry_trans; [apply same_registry_set_chans|].
  now apply same_registry_update.
Qed.

Lemma same_registry_handleMessage (tm tm' : TunnelManager) (p : loc)
  (msg : TunnelMessage) (now : Z) (msgID : string) (writeErr : option string) :
  handleMessage tm p msg now msgID writeErr = Some tm' -> same_registry tm tm'.
Proof.
  unfold handleMessage. intros H.
  assert (H1 : same_registry tm (update_conn p (set_LastPing now) tm))
    by now apply same_registry_update.
  destruct (Msg_Type msg); try (injection H as <-; exact H1).
  - eapply same_registry_trans; [exact H1|].
    now apply same_registry_handleResponse in H.
  - injection H as <-. eapply same_registry_trans; [exact H1|].
    apply same_registry_WriteJSON.
Qed.

Lemma handleMessage_iteration (tm tm' : TunnelManager) (p : loc) (msg : TunnelMessage)
  (now : Z) (msgID : string) (writeErr : option string) :
  handleMessage tm p msg now msgID writeErr = Some tm' ->
  handleMessages_iteration tm p msg now msgID writeErr = (tm', true).
Proof.
  unfold handleMessage, handleMessages_iteration. intros H.
  destruct (Msg_Type msg); try (now injection H as <-).
  now rewrite H.
Qed.

Lemma same_registry_iteration (tm : TunnelManager) (p : loc) (msg : TunnelMessage)
  (now : Z) (msgID : string) (writeErr : option string) :
  same_registry tm (handleMessages_iteration tm p msg now msgID writeErr).1.
Proof.
  unfold handleMessages_iteration.
  assert (H1 : same_registry tm (update_conn p (set_LastPing now) tm))
    by now apply same_registry_update.
  destruct (Msg_Type msg); try exact H1.
  - destruct (handleResponse _ p msg) as [tm2|] eqn:H; [|exact H1].
    eapply same_registry_trans; [exact H1|].
    now apply same_registry_handleResponse in H.
  - eapply same_registry_trans; [exact H1|]. apply same_registry_WriteJSON.
Qed.

Lemma same_registry_send (tm : TunnelManager) (subdomain : string) (req : HTTPRequest)
  (requestID : string) (writeErr : option string) :
  same_registry tm (ForwardRequest_send tm subdomain req requestID writeErr).1.
Proof.
  unfold ForwardRequest_send.
  destruct (subdomains tm !! subdomain) as [p|]; [|apply same_registry_refl].
  set (tm1 := log _ [EvPendingInsert p requestID]).
  assert (H1 : same_registry tm tm1).
  { eapply same_registry_trans; [|apply same_registry_log].
    eapply same_registry_trans; [apply same_registry_set_chans|].
    now apply same_registry_update. }
  destruct writeErr as [err|]; cbn [fst].
  - eapply same_registry_trans; [exact H1|].
    eapply same_registry_trans; [apply same_registry_WriteJSON|].
    eapply same_registry_trans; [|apply same_registry_log].
    now apply same_registry_update.
  - eapply same_registry_trans; [exact H1|]. apply same_registry_WriteJSON.
Qed.

Lemma same_registry_await (canon : string -> string) (tm tm' : TunnelManager) (p : loc)
  (requestID : string) (ch : chan) (sel : SelectCase) (elapsed : Z)
  (result : res HTTPResponse) :
  ForwardRequest_await canon tm p requestID ch sel elapsed = Some (tm', result) ->
  same_registry tm tm'.
Proof.
  unfold ForwardRequest_await. intros H. destruct sel.
  - destruct (chans tm !! ch) as [[|? ?]|]; try discriminate.
    injection H as <- _. apply same_registry_set_chans.
  - destruct (elapsed >=? 30 * Second); [|discriminate].
    injection H as <- _.
    eapply same_registry_trans; [|apply same_registry_log].
    now apply same_registry_update.
Qed.

Lemma consistent_same (tm tm' : TunnelManager) :
  same_registry tm tm' -> registry_consistent tm -> registry_consistent tm'.
Proof.
  intros (Hc & Hs & Hh) [H1 H2]. split.
  - intros id p Hid. rewrite Hc in Hid. destruct (H1 id p Hid) as (conn & Hp & Hk & Hsub).
    specialize (Hh p). rewrite Hp in Hh.
    destruct (heap tm' !! p) as [conn'|]; [|discriminate].
    injection Hh as Hid' Hsub'. exists conn'. rewrite Hs. split; [reflexivity|].
    split; congruence.
  - intros sub p Hsub. rewrite Hs in Hsub.
    destruct (H2 sub p Hsub) as (conn & Hp & Hk & Hid).
    specialize (Hh p). rewrite Hp in Hh.
    destruct (heap tm' !! p) as [conn'|]; [|discriminate].
    injection Hh as Hid' Hsub'. exists conn'. rewrite Hc. split; [reflexivity|].
    split; congruence.
Qed.

Lemma consistent_remove (tm : TunnelManager) (id : string) (p : loc)
  (conn : TunnelConnection) :
  registry_consistent tm ->
  connections tm !! id = Some p ->
  heap tm !! p = Some conn ->
  registry_consistent
    (set_indices tm (delete id (connections tm))
       (delete (Conn_Subdomain conn) (subdomains tm))).
Proof.
  intros [H1 H2] Hid Hp.
  destruct (H1 id p Hid) as (conn0 & Hp0 & Hkey & Hsub).
  assert (conn0 = conn) as -> by congruence.
  split; cbn.
  - intros id' q Hq. apply lookup_delete_Some in Hq as [Hne Hq].
    destruct (H1 id' q Hq) as (c & Hc & Hcid & Hcsub).
    exists c. split; [exact Hc|]. split; [exact Hcid|].
    rewrite lookup_delete_ne; [exact Hcsub|].
    intros Heq. rewrite <- Heq in Hcsub.
    assert (q = p) as -> by congruence.
    assert (c = conn) as -> by congruence. congruence.
  - intros sub q Hq. apply lookup_delete_Some in Hq as [Hne Hq].
    destruct (H2 sub q Hq) as (c & Hc & Hcsub & Hcid).
    exists c. split; [exact Hc|]. split; [exact Hcsub|].
    rewrite lookup_delete_ne; [exact Hcid|].
    intros Heq. rewrite <- Heq in Hcid. rewrite <- Hkey in Hcid.
    assert (q = p) as -> by congruence.
    assert (c = conn) as -> by congruence. congruence.
Qed.

Lemma consistent_unregister (tm : TunnelManager) (connID : string) (now : Z) :
  registry_consistent tm -> registry_consistent (unregisterConnection tm connID now).
Proof.
  intros Hc. unfold unregisterConnection.
  destruct (connections tm !! connID) as [p|] eqn:Hid; [|exact Hc].
  destruct (heap tm !! p) as [conn|] eqn:Hp; [|exact Hc].
  eapply consistent_same; [apply same_registry_set_store|].
  apply (consistent_remove (update_conn p cancel tm) connID p (cancel conn)).
  - eapply consistent_same; [|exact Hc]. now apply same_registry_update.
  - exact Hid.
  - cbn. now rewrite lookup_alter_eq, Hp.
Qed.

Lemma consistent_cleanup_entry (tm : TunnelManager) (now : Z) (id : string) (p : loc) :
  registry_consistent tm ->
  connections tm !! id = Some p ->
  registry_consistent (cleanup_entry now tm (id, p)).
Proof.
  intros Hc Hid. unfold cleanup_entry. cbn [fst snd].
  destruct (heap tm !! p) as [conn|] eqn:Hp; [|exact Hc].
  destruct (now - LastPing conn >? 2 * Minute); [|exact Hc].
  apply (consistent_remove (update_conn p cancel tm) id p (cancel conn)).
  - eapply consistent_same; [|exact Hc]. now apply same_registry_update.
  - exact Hid.
  - cbn. now rewrite lookup_alter_eq, Hp.
Qed.

Lemma cleanup_entry_connections (tm : TunnelManager) (now : Z) (entry : string * loc)
  (id : string) :
  id <> entry.1 ->
  connections (cleanup_entry now tm entry) !! id = connections tm !! id.
Proof.
  intros Hne. unfold cleanup_entry.
  destruct (heap tm !! entry.2) as [conn|]; [|reflexivity].
  destruct (now - LastPing conn >? 2 * Minute); [|reflexivity].
  cbn. now rewrite lookup_delete_ne.
Qed.

Lemma consistent_cleanup_fold (now : Z) (l : list (string * loc)) (tm : TunnelManager) :
  registry_consistent tm ->
  NoDup (l.*1) ->
  (forall id p, (id, p) ∈ l -> connections tm !! id = Some p) ->
  registry_consistent (foldl (cleanup_entry now) tm l).
Proof.
  revert tm. induction l as [|[id p] l IH]; intros tm Hc Hnd Hin; [exact Hc|].
  cbn [foldl]. rewrite fmap_cons in Hnd. apply NoDup_cons in Hnd as [Hnotin Hnd].
  apply IH.
  - apply consistent_cleanup_entry; [exact Hc|]. apply Hin. left.
  - exact Hnd.
  - intros id' p' Hin'. rewrite cleanup_entry_connections.
    + apply Hin. now right.
    + cbn [fst]. intros ->. apply Hnotin.
      apply list_elem_of_fmap. now exists (id, p').
Qed.

Lemma consistent_cleanup (tm : TunnelManager) (now : Z) :
  registry_consistent tm -> registry_consistent (cleanupRoutine_tick tm now).
Proof.
  intros Hc. unfold cleanupRoutine_tick. apply consistent_cleanup_fold.
  - exact Hc.
  - apply NoDup_fst_map_to_list.
  - intros id p Hin. now apply elem_of_map_to_list in Hin.
Qed.


Lemma open_fresh (tm : TunnelManager) : heap tm !! fresh (dom (heap tm)) = None.
Proof. apply not_elem_of_dom, is_fresh. Qed.


Lemma consistent_open (tm : TunnelManager) (userID tunnelID uuid : string) (now : Z) :
  registry_consistent tm ->
  connections tm !! tunnelID = None ->
  subdomains tm !! generateSubdomain userID uuid = None ->
  registry_consistent (HandleWebSocket_open tm userID tunnelID uuid now).1.
Proof.
  intros [H1 H2] Hid Hsub. unfold HandleWebSocket_open. cbn [fst].
  pose proof (open_fresh tm) as Hfresh.
  set (p := fresh (dom (heap tm))) in *.
  unfold registerConnection. cbn [heap set_heap]. rewrite lookup_insert_eq.
  split; cbn.
  - intros id q Hq. apply lookup_insert_Some in Hq as [[<- <-]|[Hne Hq]].
    + eexists. rewrite lookup_insert_eq. split; [reflexivity|]. cbn.
      split; [reflexivity|]. apply lookup_insert_eq.
    + destruct (H1 id q Hq) as (c & Hc & Hcid & Hcsub).
      exists c. rewrite !lookup_insert_ne by congruence. now split.
  - intros sub q Hq. apply lookup_insert_Some in Hq as [[<- <-]|[Hne Hq]].
    + eexists. rewrite lookup_insert_eq. split; [reflexivity|]. cbn.
      split; [reflexivity|]. apply lookup_insert_eq.
    + destruct (H2 sub q Hq) as (c & Hc & Hcsub & Hcid).
      exists c. rewrite !lookup_insert_ne by congruence. now split.
Qed.

Lemma reachable_unused_consistent (tm : TunnelManager) :
  reachable_unused tm -> registry_consistent tm.
Proof.
  induction 1 as [ms | tm userID tunnelID uuid now _ IH [Hid Hsub]
                  | tm connID now _ IH | tm now _ IH
                  | tm p msg now msgID writeErr _ IH
                  | tm p msg writeErr _ IH
                  | tm subdomain req requestID writeErr _ IH
                  | canon tm tm' p requestID ch sel elapsed result _ IH Hawait
                  | tm ms _ IH].
  - split; intros k p Hk; cbn in Hk; now rewrite lookup_empty in Hk.
  - now apply consistent_open.
  - now apply consistent_unregister.
  - now apply consistent_cleanup.
  - eapply consistent_same; [|exact IH]. apply same_registry_iteration.
  - eapply consistent_same; [|exact IH]. apply same_registry_WriteJSON.
  - eapply consistent_same; [|exact IH]. apply same_registry_send.
  - eapply consistent_same; [|exact IH]. eapply same_registry_await, Hawait.
  - eapply consistent_same; [|exact IH]. apply same_registry_set_store.
Qed.


Lemma reachable_handshake (may_open : TunnelManager -> string -> string -> Prop)
  (tm : TunnelManager) (p : loc) (msgID : string) (writeErr : option string) (now : Z) :
  reachable_under may_open tm ->
  reachable_under may_open (HandleWebSocket_handshake tm p msgID writeErr now).
Proof.
  intros H. unfold HandleWebSocket_handshake.
  destruct (heap tm !! p) as [conn|]; [|exact H].
  destruct writeErr; [apply reach_unregister|]; now apply reach_write.
Qed.

Lemma reachable_heartbeat (may_open : TunnelManager -> string -> string -> Prop)
  (tm : TunnelManager) (p : loc) (now : Z) (msgID : string) (writeErr : option string) :
  reachable_under may_open tm ->
  reachable_under may_open (heartbeatLoop_tick tm p now msgID writeErr).
Proof.
  intros H. unfold heartbeatLoop_tick.
  destruct (heap tm !! p) as [conn|]; [|exact H].
  destruct (now - LastPing conn >? 60 * Second);
    [now apply reach_unregister | now apply reach_write].
Qed.

Lemma alice_reachable_unused : reachable_unused Scenario.tm_alice.
Proof. apply reach_open; [apply reach_new | split; reflexivity]. Qed.

Lemma alice_consistent : registry_consistent Scenario.tm_alice.
Proof. apply reachable_unused_consistent, alice_reachable_unused. Qed.

Lemma unregister_lookup (tm : TunnelManager) (connID : string) (now : Z) (p : loc)
  (conn : TunnelConnection) :
  connections tm !! connID = Some p ->
  heap tm !! p = Some conn ->
  connections (unregisterConnection tm connID now) !! connID = None
  /\ subdomains (unregisterConnection tm connID now) !! Conn_Subdomain conn = None
  /\ heap (unregisterConnection tm connID now) !! p = Some (cancel conn)
  /\ chans (unregisterConnection tm connID now) = chans tm.
Proof.
  intros Hid Hp. unfold unregisterConnection. rewrite Hid, Hp. cbn.
  rewrite !lookup_delete_eq, lookup_alter_eq, Hp. now repeat split.
Qed.




End RegistryFacts.

(** ** Teardown *)

Module TeardownFacts.
Import Tunnels.

Lemma torn_refl (tm : TunnelManager) : only_torn_down tm tm.
Proof.
  split; [reflexivity|]. split; [reflexivity|]. split; [|now split].
  intros q conn Hq. exists conn. now repeat split.
Qed.

Lemma torn_trans (tm1 tm2 tm3 : TunnelManager) :
  only_torn_down tm1 tm2 -> only_torn_down tm2 tm3 -> only_torn_down tm1 tm3.
Proof.
  intros (Hch & Hst & Hh & Hc & Hs) (Hch' & Hst' & Hh' & Hc' & Hs').
  split; [congruence|]. split; [congruence|]. split; [|split; auto].
  intros q conn Hq.
  destruct (Hh q conn Hq) as (c2 & Hq2 & Hp2 & Hl2 & Hsub2 & Hcan2).
  destruct (Hh' q c2 Hq2) as (c3 & Hq3 & Hp3 & Hl3 & Hsub3 & Hcan3).
  exists c3. split; [exact Hq3|]. repeat split; try congruence. auto.
Qed.

Lemma torn_remove (tm : TunnelManager) (p : loc) (id sub : string) :
  only_torn_down tm
    (set_indices (update_conn p cancel tm) (delete id (connections tm))
       (delete sub (subdomains tm))).
Proof.
  split; [reflexivity|]. split; [reflexivity|]. split; [|split]; cbn.
  - intros q conn Hq. destruct (decide (p = q)) as [<-|Hne].
    + rewrite lookup_alter_eq, Hq. cbn. eexists. split; [reflexivity|]. now repeat split.
    + rewrite lookup_alter_ne by done. exists conn. now repeat split.
  - intros id' Hid'. apply lookup_delete_None. now right.
  - intros sub' Hsub'. apply lookup_delete_None. now right.
Qed.

Lemma torn_cleanup_entry (tm : TunnelManager) (now : Z) (entry : string * loc) :
  only_torn_down tm (cleanup_entry now tm entry).
Proof.
  unfold cleanup_entry.
  destruct (heap tm !! entry.2) as [conn|]; [|apply torn_refl].
  destruct (now - LastPing conn >? 2 * Minute); [apply torn_remove | apply torn_refl].
Qed.

Lemma torn_cleanup_fold (now : Z) (l : list (string * loc)) (tm : TunnelManager) :
  only_torn_down tm (foldl (cleanup_entry now) tm l).
Proof.
  revert tm. induction l as [|entry l IH]; intros tm; [apply torn_refl|].
  cbn [foldl]. eapply torn_trans; [apply torn_cleanup_entry | apply IH].
Qed.

Lemma cleanup_fold_removes (now : Z) (l : list (string * loc)) (tm : TunnelManager)
  (id : string) (p : loc) (conn : TunnelConnection) :
  (id, p) ∈ l ->
  heap tm !! p = Some conn ->
  now - LastPing conn > 2 * Minute ->
  let tm' := foldl (cleanup_entry now) tm l in
  connections tm' !! id = None
  /\ subdomains tm' !! Conn_Subdomain conn = None
  /\ exists conn', heap tm' !! p = Some conn' /\ cancelled conn' = true.
Proof.
  cbn zeta. revert tm conn.
  induction l as [|entry l IH]; intros tm conn Hin Hp Hstale;
    [now apply elem_of_nil in Hin|].
  cbn [foldl]. apply elem_of_cons in Hin as [<-|Hin].
  - pose proof (torn_cleanup_fold now l (cleanup_entry now tm (id, p)))
      as (_ & _ & Hh & Hc & Hs).
    assert (Hstep : cleanup_entry now tm (id, p)
                    = set_indices (update_conn p cancel tm) (delete id (connections tm))
                        (delete (Conn_Subdomain conn) (subdomains tm))).
    { unfold cleanup_entry. cbn [fst snd]. rewrite Hp.
      destruct (Z.gtb_spec (now - LastPing conn) (2 * Minute)); [reflexivity | lia]. }
    rewrite Hstep in *. split; [|split].
    + apply Hc. cbn. apply lookup_delete_eq.
    + apply Hs. cbn. apply lookup_delete_eq.
    + destruct (Hh p (cancel conn)) as (c' & Hc' & _ & _ & _ & Hcan).
      { cbn. now rewrite lookup_alter_eq, Hp. }
      exists c'. split; [exact Hc' | now apply Hcan].
  - destruct (torn_cleanup_entry tm now entry) as (_ & _ & Hh & _).
    destruct (Hh p conn Hp) as (c1 & Hp1 & _ & Hl1 & Hsub1 & _).
    rewrite <- Hsub1. apply (IH _ c1 Hin Hp1). now rewrite Hl1.
Qed.

(** C3 as the claim has it, refuted: after either teardown of the session
    with one parked request, the pending table of the session still holds
    the slot of that request and nothing has been put on the slot's
    channel. *)
Lemma teardown_counterexample :
  (exists conn,
     heap (unregisterConnection Scenario.tm_parked "tunnel-1" Second)
       !! Scenario.p_alice = Some conn
     /\ pendingReqs conn !! "req-1"%string = Some 0%nat
     /\ chans (unregisterConnection Scenario.tm_parked "tunnel-1" Second) !! 0%nat
        = Some [])
  /\ (exists conn,
        heap (cleanupRoutine_tick Scenario.tm_parked (3 * Minute))
          !! Scenario.p_alice = Some conn
        /\ pendingReqs conn !! "req-1"%string = Some 0%nat
        /\ connections (cleanupRoutine_tick Scenario.tm_parked (3 * Minute))
             !! "tunnel-1"%string = None
        /\ chans (cleanupRoutine_tick Scenario.tm_parked (3 * Minute)) !! 0%nat
           = Some []).
Proof.
  split.
  - destruct (heap (unregisterConnection Scenario.tm_parked "tunnel-1" Second)
                !! Scenario.p_alice) as [conn|] eqn:E;
      [|vm_compute in E; discriminate].
    exists conn. vm_compute in E. injection E as <-. vm_compute. now repeat split.
  - destruct (heap (cleanupRoutine_tick Scenario.tm_parked (3 * Minute))
                !! Scenario.p_alice) as [conn|] eqn:E;
      [|vm_compute in E; discriminate].
    exists conn. vm_compute in E. injection E as <-. vm_compute. now repeat split.
Qed.

(** C3 (amended): session teardown, by explicit unregistration and by the
    stale-connection sweep, cancels the session and removes it from both
    registry indices, but completes no outstanding slot and leaves the
    session's pending table and every channel as they were; a caller waiting
    on a slot is released by its own 30-second deadline, with a timeout
    error, and that removes its slot. *)
Theorem teardown_leaves_pending (canon : string -> string) (tm : TunnelManager)
  (connID : string) (now : Z) (p : loc) (conn : TunnelConnection)
  (Hid : connections tm !! connID = Some p)
  (Hp : heap tm !! p = Some conn) :
  (exists conn',
     heap (unregisterConnection tm connID now) !! p = Some conn'
     /\ pendingReqs conn' = pendingReqs conn
     /\ cancelled conn' = true
     /\ chans (unregisterConnection tm connID now) = chans tm
     /\ connections (unregisterConnection tm connID now) !! connID = None
     /\ subdomains (unregisterConnection tm connID now) !! Conn_Subdomain conn = None)
  /\ (exists conn',
        heap (cleanupRoutine_tick tm now) !! p = Some conn'
        /\ pendingReqs conn' = pendingReqs conn
        /\ chans (cleanupRoutine_tick tm now) = chans tm
        /\ (now - LastPing conn > 2 * Minute ->
            cancelled conn' = true
            /\ connections (cleanupRoutine_tick tm now) !! connID = None
            /\ subdomains (cleanupRoutine_tick tm now) !! Conn_Subdomain conn = None))
  /\ (forall tm' requestID responseChan elapsed,
        tm' = unregisterConnection tm connID now \/ tm' = cleanupRoutine_tick tm now ->
        30 * Second <= elapsed ->
        exists tm'' conn'',
          ForwardRequest_await canon tm' p requestID responseChan CaseTimeout elapsed
          = Some (tm'', Error "tunnel request timeout")
          /\ heap tm'' !! p = Some conn''
          /\ pendingReqs conn'' = delete requestID (pendingReqs conn)).
Proof.
  destruct (RegistryFacts.unregister_lookup tm connID now p conn Hid Hp)
    as (Hu1 & Hu2 & Hu3 & Hu4).
  pose proof (torn_cleanup_fold now (map_to_list (connections tm)) tm)
    as (Hc1 & _ & Hc3 & _).
  fold (cleanupRoutine_tick tm now) in Hc1, Hc3.
  destruct (Hc3 p conn Hp) as (cc & Hcc & Hcpend & _).
  split; [|split].
  - exists (cancel conn). now repeat split.
  - exists cc. split; [exact Hcc|]. split; [exact Hcpend|]. split; [exact Hc1|].
    intros Hstale.
    destruct (cleanup_fold_removes now (map_to_list (connections tm)) tm connID p conn)
      as (Hr1 & Hr2 & c' & Hc' & Hcan); [now apply elem_of_map_to_list | exact Hp | exact Hstale |].
    fold (cleanupRoutine_tick tm now) in Hr1, Hr2, Hc'.
    assert (c' = cc) as -> by congruence. now repeat split.
  - intros tm' requestID ch elapsed Htm' Hdeadline.
    rewrite (ReplyFacts.await_timeout canon _ _ _ _ _ Hdeadline).
    destruct Htm' as [-> | ->].
    + exists (log (update_conn p (pending_delete requestID)
                     (unregisterConnection tm connID now))
                [EvPendingDelete p requestID]),
             (pending_delete requestID (cancel conn)).
      split; [reflexivity|]. split; [|reflexivity].
      cbn. now rewrite lookup_alter_eq, Hu3.
    + exists (log (update_conn p (pending_delete requestID) (cleanupRoutine_tick tm now))
                [EvPendingDelete p requestID]),
             (pending_delete requestID cc).
      split; [reflexivity|]. split.
      * cbn. now rewrite lookup_alter_eq, Hcc.
      * cbn. now rewrite Hcpend.
Qed.

Lemma teardown_leaves_pending_witness :
  exists conn',
    heap (unregisterConnection Scenario.tm_parked "tunnel-1" Second) !! Scenario.p_alice
    = Some conn'
    /\ pendingReqs conn' = {[ "req-1"%string := 0%nat ]}
    /\ cancelled conn' = true.
Proof.
  destruct (teardown_leaves_pending (fun key => key) Scenario.tm_parked "tunnel-1" Second
              Scenario.p_alice
              (mkTunnelConnection "tunnel-1" "alice" "alice-abcd1234" 0
                 [requestFrame "req-1" (mkHTTPRequest "GET" "/ping" "" ∅ (Some ""%string) 0)]
                 0 0 {[ "req-1"%string := 0%nat ]} false))
    as ((conn' & Hheap & Hpend & Hcan & _) & _).
  - vm_compute. reflexivity.
  - vm_compute. reflexivity.
  - exists conn'. split; [exact Hheap|]. split; [exact Hpend | exact Hcan].
Defined.

End TeardownFacts.

(** ** More on the store *)

Module StoreOpsFacts.
Import StoreOps.

(** X1: a tunnel stored under an id that is not yet in the store is what
    [GetTunnel] then returns for that id, every other id reads as before;
    storing under an id that is taken is refused and changes nothing. *)
Theorem store_create_get (ms : MemoryStore) (tunnel : Tunnel) :
  (tunnels ms !! Tunnel_ID tunnel = None ->
   (Store.CreateTunnel ms tunnel).2 = None
   /\ Store.GetTunnel (Store.CreateTunnel ms tunnel).1 (Tunnel_ID tunnel) = OK tunnel
   /\ forall id, id <> Tunnel_ID tunnel ->
        Store.GetTunnel (Store.CreateTunnel ms tunnel).1 id = Store.GetTunnel ms id)
  /\ (is_Some (tunnels ms !! Tunnel_ID tunnel) ->
      Store.CreateTunnel ms tunnel
      = (ms, Some ("tunnel with ID " +:+ Tunnel_ID tunnel +:+ " already exists"))).
Proof.
  unfold Store.CreateTunnel, Store.GetTunnel. split.
  - intros Hfresh. rewrite Hfresh. cbn. rewrite lookup_insert_eq.
    split; [reflexivity|]. split; [reflexivity|].
    intros id Hne. now rewrite lookup_insert_ne.
  - intros [t Ht]. now rewrite Ht.
Qed.

Lemma store_create_get_witness :
  Store.GetTunnel
    (Store.CreateTunnel NewMemoryStore
       (mkTunnel "t1" "alice" 3000 "url" TunnelStatusConnecting 0 0 10 None)).1 "t1"
  = OK (mkTunnel "t1" "alice" 3000 "url" TunnelStatusConnecting 0 0 10 None).
Proof.
  apply (proj1 (store_create_get NewMemoryStore
                  (mkTunnel "t1" "alice" 3000 "url" TunnelStatusConnecting 0 0 10 None))).
  reflexivity.
Defined.

(** X2: deleting a stored tunnel succeeds, after which [GetTunnel] fails for
    its id and reads every other id as before; deleting an id that is not in
    the store is an error and changes nothing. *)
Theorem store_delete (ms : MemoryStore) (tunnelID : string) :
  (is_Some (tunnels ms !! tunnelID) ->
   (DeleteTunnel ms tunnelID).2 = None
   /\ Store.GetTunnel (DeleteTunnel ms tunnelID).1 tunnelID
      = Error (not_found tunnelID)
   /\ forall id, id <> tunnelID ->
        Store.GetTunnel (DeleteTunnel ms tunnelID).1 id = Store.GetTunnel ms id)
  /\ (tunnels ms !! tunnelID = None ->
      DeleteTunnel ms tunnelID = (ms, Some (not_found tunnelID))).
Proof.
  unfold DeleteTunnel, Store.GetTunnel. split.
  - intros [t Ht]. rewrite Ht. cbn. rewrite lookup_delete_eq.
    split; [reflexivity|]. split; [reflexivity|].
    intros id Hne. now rewrite lookup_delete_ne.
  - intros Hnone. now rewrite Hnone.
Qed.

Lemma store_delete_witness :
  (DeleteTunnel Scenario.ms_alice "t1").2 = None
  /\ Store.GetTunnel (DeleteTunnel Scenario.ms_alice "t1").1 "t1" = Error (not_found "t1")
  /\ DeleteTunnel (DeleteTunnel Scenario.ms_alice "t1").1 "t1"
     = ((DeleteTunnel Scenario.ms_alice "t1").1, Some (not_found "t1")).
Proof.
  destruct (proj1 (store_delete Scenario.ms_alice "t1")) as (Hok & Hgone & _).
  - exists Scenario.tunnel_t1. vm_compute. reflexivity.
  - split; [exact Hok|]. split; [exact Hgone|].
    apply (proj2 (store_delete (DeleteTunnel Scenario.ms_alice "t1").1 "t1")).
    vm_compute. reflexivity.
Defined.

Lemma cleanup_fold_gone (now : Z) (l : list (string * Tunnel)) (m : gmap string Tunnel)
  (id : string) :
  m !! id = None -> foldl (cleanup_step now) m l !! id = None.
Proof.
  revert m. induction l as [|entry l IH]; intros m Hm; [exact Hm|].
  cbn [foldl]. apply IH. unfold cleanup_step.
  destruct (decide (expired now entry.2)); [|exact Hm].
  apply lookup_delete_None. now right.
Qed.

Lemma cleanup_fold_expired (now : Z) (l : list (string * Tunnel)) (m : gmap string Tunnel)
  (id : string) (t : Tunnel) :
  (id, t) ∈ l -> expired now t -> foldl (cleanup_step now) m l !! id = None.
Proof.
  revert m. induction l as [|entry l IH]; intros m Hin Hexp;
    [now apply elem_of_nil in Hin|].
  cbn [foldl]. apply elem_of_cons in Hin as [<-|Hin]; [|now apply IH].
  apply cleanup_fold_gone. unfold cleanup_step. cbn [fst snd].
  destruct (decide (expired now t)); [apply lookup_delete_eq | contradiction].
Qed.

Lemma cleanup_fold_kept (now : Z) (l : list (string * Tunnel)) (m : gmap string Tunnel)
  (id : string) :
  (forall t, (id, t) ∈ l -> ~ expired now t) ->
  foldl (cleanup_step now) m l !! id = m !! id.
Proof.
  revert m. induction l as [|[id' t'] l IH]; intros m Hl; [reflexivity|].
  cbn [foldl]. rewrite IH by (intros t Ht; apply Hl; now right).
  unfold cleanup_step. cbn [fst snd].
  destruct (decide (expired now t')) as [Hexp|]; [|reflexivity].
  apply lookup_delete_ne. intros ->. apply (Hl t'); [left | exact Hexp].
Qed.

Lemma cleanup_lookup (ms : MemoryStore) (now : Z) (id : string) :
  tunnels (CleanupExpiredTunnels ms now).1 !! id
  = match tunnels ms !! id with
    | Some t => if decide (expired now t) then None else Some t
    | None => None
    end.
Proof.
  unfold CleanupExpiredTunnels. cbn [fst tunnels].
  destruct (tunnels ms !! id) as [t|] eqn:Hid.
  - destruct (decide (expired now t)) as [Hexp|Hlive].
    + apply (cleanup_fold_expired now _ _ id t); [|exact Hexp].
      now apply elem_of_map_to_list.
    + rewrite cleanup_fold_kept; [exact Hid|].
      intros t' Hin. apply elem_of_map_to_list in Hin. congruence.
  - now apply cleanup_fold_gone.
Qed.

(** X3: [CleanupExpiredTunnels] never fails and leaves exactly the tunnels
    that are not expired at that time, each unchanged; right after it
    [GetExpiredTunnels] finds nothing. *)
Theorem cleanup_removes_exactly_expired (ms : MemoryStore) (now : Z) :
  (CleanupExpiredTunnels ms now).2 = None
  /\ tunnels (CleanupExpiredTunnels ms now).1
     = filter (λ kv : string * Tunnel, ¬ expired now kv.2) (tunnels ms)
  /\ (forall id t,
        tunnels (CleanupExpiredTunnels ms now).1 !! id = Some t
        <-> tunnels ms !! id = Some t /\ now <= Tunnel_ExpiresAt t)
  /\ GetExpiredTunnels (CleanupExpiredTunnels ms now).1 now = OK [].
Proof.
  assert (Hiff : forall id t,
            tunnels (CleanupExpiredTunnels ms now).1 !! id = Some t
            <-> tunnels ms !! id = Some t /\ now <= Tunnel_ExpiresAt t).
  { intros id t. rewrite cleanup_lookup. unfold expired.
    destruct (tunnels ms !! id) as [t0|]; [|split; [discriminate | intros [? _]; discriminate]].
    destruct (decide (Tunnel_ExpiresAt t0 < now)).
    - split; [discriminate|]. intros [[= ->] ?]. lia.
    - split; [intros [= ->]; split; [reflexivity | lia] | now intros [? _]]. }
  split; [reflexivity|]. split; [|split; [exact Hiff|]].
  - apply map_eq. intros id. apply option_eq. intros t.
    rewrite Hiff, map_lookup_filter_Some. unfold expired. cbn [snd].
    split; intros [? ?]; (split; [assumption | lia]).
  - unfold GetExpiredTunnels. f_equal.
    destruct (filter (expired now) _) as [|t l] eqn:E; [reflexivity|]. exfalso.
    assert (Hin : t ∈ t :: l) by left. rewrite <- E in Hin.
    apply list_elem_of_filter in Hin as [Hexp Hin].
    apply list_elem_of_fmap in Hin as ([id t'] & -> & Hin).
    apply elem_of_map_to_list, Hiff in Hin as [_ Hlive].
    unfold expired in Hexp. cbn [snd] in Hexp. lia.
Qed.

End StoreOpsFacts.

(** ** More on the service and its handlers *)

Module ServiceOpsFacts.
Import ServiceFacts.

Lemma create_ok_inv (config : TunnelConfig) (ms ms' : MemoryStore) (userID : string)
  (localPort : Z) (tunnelID random : string) (now : Z) (tunnel : Tunnel) :
  Service.CreateTunnel config ms userID localPort tunnelID random now = (ms', OK tunnel) ->
  Service.isPortAllowed config localPort = true
  /\ Z.of_nat (size (Store.active_of userID ms)) < MaxTunnelsPerUser config
  /\ tunnels ms !! tunnelID = None
  /\ ms' = mkMemoryStore (<[tunnelID := tunnel]> (tunnels ms))
  /\ tunnel = mkTunnel tunnelID userID localPort
                (Service.generatePublicURL config random tunnelID)
                TunnelStatusConnecting now now (now + TunnelExpiration config)
                (Some emptyAnalytics).
Proof.
  unfold Service.CreateTunnel.
  destruct (Service.isPortAllowed config localPort); cbn [negb]; [|discriminate].
  destruct (Store.GetTunnelsByUserID ms userID) as [l|] eqn:El; [|discriminate].
  rewrite (GetTunnelsByUserID_length _ _ _ El).
  destruct (Z.geb_spec (Z.of_nat (size (Store.active_of userID ms)))
              (MaxTunnelsPerUser config)); [discriminate|].
  unfold Store.CreateTunnel. cbn [Tunnel_ID].
  destruct (tunnels ms !! tunnelID) eqn:Hid; [discriminate|].
  intros [= <- <-]. now repeat split.
Qed.

(** X4: [TerminateTunnel] on a stored tunnel that is not terminated sets its
    status to terminated (its identity, user, port and expiry are kept), after
    which the tunnel is no longer in the user's listing; a second call fails
    with "tunnel is already terminated" and an unknown id fails with
    "tunnel not found", both leaving the store unchanged. *)
Theorem terminate_once (ms : MemoryStore) (tunnelID : string) (now : Z) :
  (forall t, tunnels ms !! tunnelID = Some t ->
     Tunnel_Status t <> TunnelStatusTerminated ->
     exists t',
       ServiceOps.TerminateTunnel ms tunnelID now
       = (mkMemoryStore (<[tunnelID := t']> (tunnels ms)), None)
       /\ Tunnel_Status t' = TunnelStatusTerminated
       /\ Tunnel_ID t' = Tunnel_ID t /\ Tunnel_UserID t' = Tunnel_UserID t
       /\ Tunnel_LocalPort t' = Tunnel_LocalPort t
       /\ Tunnel_ExpiresAt t' = Tunnel_ExpiresAt t
       /\ (forall userID l,
             Service.GetUserTunnels (ServiceOps.TerminateTunnel ms tunnelID now).1 userID
             = OK l -> t' ∉ l)
       /\ forall now',
            ServiceOps.TerminateTunnel (ServiceOps.TerminateTunnel ms tunnelID now).1
              tunnelID now'
            = ((ServiceOps.TerminateTunnel ms tunnelID now).1,
               Some "tunnel is already terminated"%string))
  /\ (tunnels ms !! tunnelID = None ->
      ServiceOps.TerminateTunnel ms tunnelID now
      = (ms, Some ("tunnel not found: " +:+ StoreOps.not_found tunnelID))).
Proof.
  split.
  - intros t Ht Hstatus.
    assert (Hrun : ServiceOps.TerminateTunnel ms tunnelID now
              = (mkMemoryStore
                   (<[tunnelID :=
                        mkTunnel (Tunnel_ID t) (Tunnel_UserID t) (Tunnel_LocalPort t)
                          (Tunnel_PublicURL t) TunnelStatusTerminated (Tunnel_CreatedAt t)
                          now (Tunnel_ExpiresAt t) (Tunnel_Analytics t)]> (tunnels ms)),
                 None)).
    { unfold ServiceOps.TerminateTunnel, Store.GetTunnel, Store.UpdateTunnelStatus.
      rewrite Ht. now destruct (decide (Tunnel_Status t = TunnelStatusTerminated)). }
    eexists. split; [exact Hrun|]. rewrite Hrun. cbn [fst].
    split; [reflexivity|]. do 4 (split; [reflexivity|]). split.
    + intros userID l Hl Hin.
      apply (GetTunnelsByUserID_elem _ _ _ Hl) in Hin as (_ & _ & Hactive).
      discriminate.
    + intros now'. unfold ServiceOps.TerminateTunnel, Store.GetTunnel. cbn [tunnels].
      now rewrite lookup_insert_eq.
  - intros Hnone. unfold ServiceOps.TerminateTunnel, Store.GetTunnel. now rewrite Hnone.
Qed.

Lemma terminate_once_witness :
  (exists t',
     ServiceOps.TerminateTunnel Scenario.ms_alice "t1" 5
     = (mkMemoryStore (<["t1"%string := t']> (tunnels Scenario.ms_alice)), None)
     /\ Tunnel_Status t' = TunnelStatusTerminated
     /\ Tunnel_UserID t' = "alice"%string)
  /\ ServiceOps.TerminateTunnel (ServiceOps.TerminateTunnel Scenario.ms_alice "t1" 5).1 "t1" 6
     = ((ServiceOps.TerminateTunnel Scenario.ms_alice "t1" 5).1,
        Some "tunnel is already terminated"%string)
  /\ ServiceOps.TerminateTunnel NewMemoryStore "t1" 0
     = (NewMemoryStore, Some ("tunnel not found: " +:+ StoreOps.not_found "t1")).
Proof.
  destruct (proj1 (terminate_once Scenario.ms_alice "t1" 5) Scenario.tunnel_t1)
    as (t' & Hrun & Hstatus & _ & Huser & _ & _ & _ & Hsecond).
  - vm_compute. reflexivity.
  - discriminate.
  - split; [exists t'; now repeat split|]. split; [apply Hsecond|].
    apply (proj2 (terminate_once NewMemoryStore "t1" 0)). reflexivity.
Defined.

(** X5: once [establishTunnel] has run for a tunnel that [CreateTunnel] has
    just created, the tunnel is stored in status active, the user's listing
    contains it, and the user's count of active tunnels (the one the cap is
    compared with) has grown by one. *)
Theorem established_tunnel_counts (config : TunnelConfig) (ms ms1 : MemoryStore)
  (userID : string) (localPort : Z) (tunnelID random : string) (now now' : Z)
  (tunnel : Tunnel)
  (Hcreate : Service.CreateTunnel config ms userID localPort tunnelID random now
             = (ms1, OK tunnel)) :
  exists tunnel',
    tunnels (Service.establishTunnel ms1 tunnelID now') !! tunnelID = Some tunnel'
    /\ Tunnel_Status tunnel' = TunnelStatusActive
    /\ Tunnel_UserID tunnel' = userID
    /\ (exists l, Service.GetUserTunnels (Service.establishTunnel ms1 tunnelID now') userID
                  = OK l /\ tunnel' ∈ l)
    /\ size (Store.active_of userID (Service.establishTunnel ms1 tunnelID now'))
       = S (size (Store.active_of userID ms)).
Proof.
  apply create_ok_inv in Hcreate as (_ & _ & Hfresh & -> & ->).
  unfold Service.establishTunnel, Store.UpdateTunnelStatus. cbn [tunnels].
  rewrite lookup_insert_eq. cbn.
  rewrite insert_insert_eq.
  eexists. split; [apply lookup_insert_eq|]. cbn.
  split; [reflexivity|]. split; [reflexivity|]. split.
  - eexists. split; [reflexivity|].
    apply list_elem_of_filter. split; [now split|].
    apply list_elem_of_fmap. eexists (tunnelID, _). split; [reflexivity|].
    apply elem_of_map_to_list, lookup_insert_eq.
  - unfold Store.active_of. cbn [tunnels].
    rewrite map_filter_insert_True by now split.
    apply map_size_insert_None. apply map_lookup_filter_None. now left.
Qed.

Lemma established_tunnel_counts_witness :
  size (Store.active_of "alice"
          (Service.establishTunnel
             (Service.CreateTunnel Handler.config_cap2 NewMemoryStore "alice" 3000
                "t1" "deadbeef" 0).1 "t1" 2))
  = 1%nat.
Proof.
  destruct (established_tunnel_counts Handler.config_cap2 NewMemoryStore
              (Service.CreateTunnel Handler.config_cap2 NewMemoryStore "alice" 3000
                 "t1" "deadbeef" 0).1
              "alice" 3000 "t1" "deadbeef" 0 2
              (mkTunnel "t1" "alice" 3000 "https://api.syntra.dev/deadbeef/t1"
                 TunnelStatusConnecting 0 0 (24 * Hour) (Some emptyAnalytics)))
    as (t' & _ & _ & _ & _ & Hsize).
  - vm_compute. reflexivity.
  - rewrite Hsize. reflexivity.
Defined.

(** X6: with a non-empty allow-list, [CreateTunnel] refuses every port that
    is not on it with "port N is not allowed" and leaves the store as it is;
    so under the default configuration a create call is answered 201 only
    for the ports 3000, 3001, 4000, 5000, 8000, 8080, 8081 and 9000, and any
    other port that passes [ValidatePort] is answered 500. *)
Theorem only_allowed_ports (config : TunnelConfig) (ms : MemoryStore) (userID : string)
  (localPort : Z) (tunnelID random baseURL : string) (now : Z) :
  (AllowedPorts config <> [] -> ~ In localPort (AllowedPorts config) ->
   Service.CreateTunnel config ms userID localPort tunnelID random now
   = (ms, Error ("port " +:+ pretty localPort +:+ " is not allowed")))
  /\ (Handler.reply_status
        (Handler.CreateTunnel (GenerateTunnelConfig baseURL) ms
           (OK (Handler.mkCreateTunnelRequest userID localPort)) tunnelID random now).2
      = 201 ->
      In localPort [3000; 3001; 4000; 5000; 8000; 8080; 8081; 9000])
  /\ (ValidatePort localPort = None ->
      ~ In localPort [3000; 3001; 4000; 5000; 8000; 8080; 8081; 9000] ->
      Handler.CreateTunnel (GenerateTunnelConfig baseURL) ms
        (OK (Handler.mkCreateTunnelRequest userID localPort)) tunnelID random now
      = (ms, Handler.mkReply 500
               (Handler.ErrorBody "Failed to create tunnel"
                  ("port " +:+ pretty localPort +:+ " is not allowed")))).
Proof.
  assert (Hreject : forall cfg, AllowedPorts cfg <> [] -> ~ In localPort (AllowedPorts cfg) ->
            Service.isPortAllowed cfg localPort = false).
  { intros cfg Hne Hnot. unfold Service.isPortAllowed.
    destruct (AllowedPorts cfg) as [|a l] eqn:E; [congruence|].
    cbn [length]. destruct (Z.eqb_spec (Z.of_nat (S (length l))) 0); [lia|].
    destruct (existsb (Z.eqb localPort) (a :: l)) eqn:Hex; [|reflexivity].
    apply existsb_exists in Hex as (x & Hin & Hx). apply Z.eqb_eq in Hx. now subst. }
  split; [|split].
  - intros Hne Hnot. unfold Service.CreateTunnel. now rewrite (Hreject config Hne Hnot).
  - intros H201.
    destruct (In_dec Z.eq_dec localPort [3000; 3001; 4000; 5000; 8000; 8080; 8081; 9000])
      as [Hin|Hnot]; [exact Hin|]. exfalso.
    unfold Handler.CreateTunnel, Service.CreateTunnel in H201.
    cbn [Handler.Req_LocalPort Handler.Req_UserID] in H201.
    destruct (ValidatePort localPort); [discriminate|].
    rewrite (Hreject (GenerateTunnelConfig baseURL)) in H201; [discriminate | discriminate | exact Hnot].
  - intros Hvalid Hnot. unfold Handler.CreateTunnel, Service.CreateTunnel.
    cbn [Handler.Req_LocalPort Handler.Req_UserID].
    rewrite Hvalid, (Hreject (GenerateTunnelConfig baseURL)); [reflexivity | discriminate | exact Hnot].
Qed.

Lemma only_allowed_ports_witness :
  Handler.CreateTunnel (GenerateTunnelConfig "https://api.syntra.dev") NewMemoryStore
    (OK (Handler.mkCreateTunnelRequest "alice" 1234)) "t1" "deadbeef" 0
  = (NewMemoryStore,
     Handler.mkReply 500
       (Handler.ErrorBody "Failed to create tunnel" "port 1234 is not allowed")).
Proof.
  apply (proj2 (proj2 (only_allowed_ports Handler.config_cap2 NewMemoryStore "alice" 1234
                         "t1" "deadbeef" "https://api.syntra.dev" 0))).
  - reflexivity.
  - simpl. intros H. repeat (destruct H as [H|H]; [discriminate|]). exact H.
Defined.

(** X7: a tunnel created at [now] is still in the store after an expiry
    cleanup at time [later] exactly when [later] is not past
    [now + TunnelExpiration]. *)
Theorem created_tunnel_lifetime (config : TunnelConfig) (ms ms1 : MemoryStore)
  (userID : string) (localPort : Z) (tunnelID random : string) (now later : Z)
  (tunnel : Tunnel)
  (Hcreate : Service.CreateTunnel config ms userID localPort tunnelID random now
             = (ms1, OK tunnel)) :
  tunnels (ServiceOps.CleanupExpiredTunnels ms1 later).1 !! tunnelID = Some tunnel
  <-> later <= now + TunnelExpiration config.
Proof.
  apply create_ok_inv in Hcreate as (_ & _ & _ & -> & ->).
  unfold ServiceOps.CleanupExpiredTunnels. rewrite StoreOpsFacts.cleanup_lookup.
  cbn [tunnels]. rewrite lookup_insert_eq. unfold StoreOps.expired. cbn [Tunnel_ExpiresAt].
  destruct (decide (now + TunnelExpiration config < later)).
  - split; [discriminate | lia].
  - split; [lia | reflexivity].
Qed.

Lemma created_tunnel_lifetime_witness :
  tunnels (ServiceOps.CleanupExpiredTunnels
             (Service.CreateTunnel Handler.config_cap2 NewMemoryStore "alice" 3000
                "t1" "deadbeef" 0).1 (25 * Hour)).1 !! "t1"%string
  <> Some (mkTunnel "t1" "alice" 3000 "https://api.syntra.dev/deadbeef/t1"
             TunnelStatusConnecting 0 0 (24 * Hour) (Some emptyAnalytics)).
Proof.
  intros H.
  apply (created_tunnel_lifetime Handler.config_cap2 NewMemoryStore
           (Service.CreateTunnel Handler.config_cap2 NewMemoryStore "alice" 3000
              "t1" "deadbeef" 0).1 "alice" 3000 "t1" "deadbeef" 0 (25 * Hour)
           (mkTunnel "t1" "alice" 3000 "https://api.syntra.dev/deadbeef/t1"
              TunnelStatusConnecting 0 0 (24 * Hour) (Some emptyAnalytics))) in H.
  - vm_compute in H. apply H. reflexivity.
  - vm_compute. reflexivity.
Defined.

End ServiceOpsFacts.

Module AnalyticsFacts.
Import ServiceOps.

Lemma wrap64_small (x : Z) : - 2 ^ 63 <= x < 2 ^ 63 -> wrap64 x = x.
Proof.
  intros H. unfold wrap64.
  change (2 ^ 64) with (2 * 2 ^ 63). rewrite Z.mod_small; lia.
Qed.

Lemma wrap64_add_l (x y : Z) : wrap64 (wrap64 x + y) = wrap64 (x + y).
Proof.
  unfold wrap64. f_equal.
  replace ((x + 2 ^ 63) mod 2 ^ 64 - 2 ^ 63 + y + 2 ^ 63)
    with ((x + 2 ^ 63) mod 2 ^ 64 + y) by lia.
  rewrite Zplus_mod_idemp_l. f_equal. lia.
Qed.

Lemma count_le_length {A} (dec : forall x y : A, {x = y} + {x <> y}) (l : list A) (x : A) :
  (count_occ dec l x <= length l)%nat.
Proof.
  induction l as [|a l IH]; cbn; [lia|]. destruct (dec a x); lia.
Qed.

Lemma count_snoc {A} (dec : forall x y : A, {x = y} + {x <> y}) (l : list A) (a x : A) :
  count_occ dec (l ++ [a]) x
  = (count_occ dec l x + if dec a x then 1 else 0)%nat.
Proof. rewrite count_occ_app. cbn. now destruct (dec a x). Qed.

Lemma update_analytics_found (ms : MemoryStore) (tunnelID : string) (o : Observation)
  (now : Z) (t : Tunnel) :
  tunnels ms !! tunnelID = Some t ->
  UpdateTunnelAnalytics ms tunnelID o now
  = (mkMemoryStore
       (<[tunnelID :=
            StoreOps.set_Analytics
              (Some (record_observation o now (default emptyAnalytics (Tunnel_Analytics t))))
              now t]> (tunnels ms)),
     None).
Proof.
  intros Ht. unfold UpdateTunnelAnalytics, Store.GetTunnel, StoreOps.UpdateTunnelAnalytics.
  now rewrite Ht.
Qed.

(** The bytes a list of observations adds up to. *)
Lemma bytes_snoc (l : list Z) (b : Z) :
  foldr Z.add 0 (l ++ [b]) = foldr Z.add 0 l + b.
Proof. induction l as [|a l IH]; cbn; [lia|]. rewrite IH. lia. Qed.

(** X8: after the service has recorded a list of observed requests (fewer
    than 2^63) for a stored tunnel whose analytics were fresh, the tunnel's
    request count is the number of observations, its response times are
    theirs in order, each status-code and endpoint counter is the number of
    observations with that code or endpoint, and the byte count is their sum
    (as a wrapping 64-bit integer); the tunnel keeps its status and every
    other tunnel is untouched. *)
Theorem analytics_after_recording (ms : MemoryStore) (tunnelID : string) (now : Z)
  (observations : list Observation) (t : Tunnel)
  (Ht : tunnels ms !! tunnelID = Some t)
  (Hfresh : Tunnel_Analytics t = Some emptyAnalytics)
  (Hlen : Z.of_nat (length observations) < 2 ^ 63) :
  exists t' a,
    tunnels (record_all tunnelID now ms observations) !! tunnelID = Some t'
    /\ Tunnel_Analytics t' = Some a
    /\ RequestCount a = Z.of_nat (length observations)
    /\ ResponseTimes a = map obs_responseTime observations
    /\ (forall code,
          default 0 (StatusCodes a !! code)
          = Z.of_nat (count_occ Z.eq_dec (map obs_statusCode observations) code))
    /\ (forall endpoint,
          default 0 (Endpoints a !! endpoint)
          = Z.of_nat (count_occ string_dec (map obs_endpoint observations) endpoint))
    /\ BytesTransferred a
       = wrap64 (foldr Z.add 0 (map obs_bytesTransferred observations))
    /\ Tunnel_Status t' = Tunnel_Status t
    /\ forall id, id <> tunnelID ->
         tunnels (record_all tunnelID now ms observations) !! id = tunnels ms !! id.
Proof.
  induction observations as [|o obs IH] using rev_ind.
  - exists t, emptyAnalytics. cbn. now repeat split.
  - rewrite length_app in Hlen. cbn [length] in Hlen.
    destruct IH as (t1 & a & Ht1 & Ha & Hcount & Htimes & Hcodes & Hends & Hbytes
                    & Hstatus & Hothers); [lia|].
    unfold record_all in *. rewrite foldl_snoc.
    rewrite (update_analytics_found _ _ _ _ _ Ht1). cbn [fst tunnels].
    rewrite lookup_insert_eq, Ha. cbn [default]; unfold id.
    eexists _, _. split; [reflexivity|].
    split; [reflexivity|].
    cbn [record_observation RequestCount ResponseTimes StatusCodes Endpoints
         BytesTransferred StoreOps.set_Analytics Tunnel_Status].
    split; [|split; [|split; [|split; [|split; [|split]]]]].
    + rewrite Hcount, length_app. cbn [length]. rewrite wrap64_small; lia.
    + rewrite Htimes, map_app. reflexivity.
    + intros code. rewrite map_app. cbn [map]. rewrite count_snoc.
      pose proof (count_le_length Z.eq_dec (map obs_statusCode obs) code) as Hle.
      rewrite length_map in Hle.
      destruct (Z.eq_dec (obs_statusCode o) code) as [<-|Hne].
      * rewrite lookup_insert_eq. cbn [default]; unfold id. rewrite Hcodes.
        rewrite wrap64_small; lia.
      * rewrite lookup_insert_ne by exact Hne. rewrite Hcodes. lia.
    + intros endpoint. rewrite map_app. cbn [map]. rewrite count_snoc.
      pose proof (count_le_length string_dec (map obs_endpoint obs) endpoint) as Hle.
      rewrite length_map in Hle.
      destruct (string_dec (obs_endpoint o) endpoint) as [<-|Hne].
      * rewrite lookup_insert_eq. cbn [default]; unfold id. rewrite Hends.
        rewrite wrap64_small; lia.
      * rewrite lookup_insert_ne by exact Hne. rewrite Hends. lia.
    + rewrite Hbytes, map_app. cbn [map]. rewrite bytes_snoc. apply wrap64_add_l.
    + exact Hstatus.
    + intros id Hne. rewrite lookup_insert_ne by congruence. now apply Hothers.
Qed.

Lemma analytics_after_recording_witness :
  exists t' a,
    tunnels (record_all "t1" 5
               (Service.CreateTunnel Handler.config_cap2 NewMemoryStore "alice" 3000
                  "t1" "deadbeef" 0).1
               [mkObservation 200 7 "/ping" 4; mkObservation 404 9 "/nope" 0;
                mkObservation 200 8 "/ping" 4]) !! "t1"%string = Some t'
    /\ Tunnel_Analytics t' = Some a
    /\ RequestCount a = 3
    /\ default 0 (StatusCodes a !! 200) = 2.
Proof.
  destruct (analytics_after_recording
              (Service.CreateTunnel Handler.config_cap2 NewMemoryStore "alice" 3000
                 "t1" "deadbeef" 0).1 "t1" 5
              [mkObservation 200 7 "/ping" 4; mkObservation 404 9 "/nope" 0;
               mkObservation 200 8 "/ping" 4]
              (mkTunnel "t1" "alice" 3000 "https://api.syntra.dev/deadbeef/t1"
                 TunnelStatusConnecting 0 0 (24 * Hour) (Some emptyAnalytics)))
    as (t' & a & Ht' & Ha & Hcount & _ & Hcodes & _).
  - vm_compute. reflexivity.
  - reflexivity.
  - vm_compute. reflexivity.
  - exists t', a. split; [exact Ht'|]. split; [exact Ha|].
    split; [exact Hcount | apply Hcodes].
Defined.

End AnalyticsFacts.

Module HandlerOpsFacts.

Lemma handler_create_inv (config : TunnelConfig) (ms ms' : MemoryStore)
  (req : Handler.CreateTunnelRequest) (tunnelID random : string) (now : Z)
  (tunnel : Tunnel) (message : string) :
  Handler.CreateTunnel config ms (OK req) tunnelID random now
  = (ms', Handler.mkReply 201 (Handler.CreatedBody tunnel message)) ->
  Service.CreateTunnel config ms (Handler.Req_UserID req) (Handler.Req_LocalPort req)
    tunnelID random now = (ms', OK tunnel).
Proof.
  unfold Handler.CreateTunnel.
  destruct (ValidatePort (Handler.Req_LocalPort req)); [discriminate|].
  destruct (Service.CreateTunnel config ms (Handler.Req_UserID req)
              (Handler.Req_LocalPort req) tunnelID random now) as [ms1 [t|err]].
  - now intros [= -> -> _].
  - discriminate.
Qed.

Lemma terminate_run (ms : MemoryStore) (tunnelID : string) (t : Tunnel) (now : Z) :
  tunnels ms !! tunnelID = Some t ->
  Tunnel_Status t <> TunnelStatusTerminated ->
  ServiceOps.TerminateTunnel ms tunnelID now
  = (mkMemoryStore
       (<[tunnelID := StoreOps.set_Status TunnelStatusTerminated now t]> (tunnels ms)),
     None).
Proof.
  intros Ht Hstatus.
  unfold ServiceOps.TerminateTunnel, Store.GetTunnel, Store.UpdateTunnelStatus.
  rewrite Ht. now destruct (decide (Tunnel_Status t = TunnelStatusTerminated)).
Qed.

Lemma terminate_again (ms : MemoryStore) (tunnelID : string) (t : Tunnel) (now : Z) :
  tunnels ms !! tunnelID = Some t ->
  Tunnel_Status t = TunnelStatusTerminated ->
  ServiceOps.TerminateTunnel ms tunnelID now
  = (ms, Some "tunnel is already terminated"%string).
Proof.
  intros Ht Hstatus. unfold ServiceOps.TerminateTunnel, Store.GetTunnel.
  rewrite Ht. now destruct (decide (Tunnel_Status t = TunnelStatusTerminated)).
Qed.

Lemma establish_run (ms : MemoryStore) (tunnelID : string) (t : Tunnel) (now : Z) :
  tunnels ms !! tunnelID = Some t ->
  Service.establishTunnel ms tunnelID now
  = mkMemoryStore (<[tunnelID := StoreOps.set_Status TunnelStatusActive now t]> (tunnels ms)).
Proof.
  intros Ht. unfold Service.establishTunnel, Store.UpdateTunnelStatus. now rewrite Ht.
Qed.

Lemma handler_terminate (ms : MemoryStore) (tunnelID : string) (now : Z) :
  tunnelID <> ""%string ->
  HandlerOps.TerminateTunnel ms tunnelID now
  = match ServiceOps.TerminateTunnel ms tunnelID now with
    | (ms', Some err) =>
        (ms', HandlerOps.mkReply 500
                (HandlerOps.Failure "Failed to terminate tunnel" (Some err)))
    | (ms', None) =>
        (ms', HandlerOps.mkReply 200 (HandlerOps.Message "Tunnel terminated successfully"))
    end.
Proof.
  intros Hid. apply String.eqb_neq in Hid. unfold HandlerOps.TerminateTunnel.
  now rewrite Hid.
Qed.

(** X9: the tunnel a create call answered with 201 is what [GET /:tunnelId]
    then answers with 200 for its id, in status connecting until the
    goroutine [establishTunnel] that the create call started has run and in
    status active from then on; an id that is not stored is answered 404.
    [DELETE /:tunnelId] answers 200 for that tunnel the first time. What a
    second one answers depends on when the goroutine runs: 500 with "tunnel
    is already terminated" when it ran before the first [DELETE] or has not
    run yet; but when it runs between the two it sets the terminated tunnel
    to active again, and the second [DELETE] is answered 200 as well. An id
    that is not stored is answered 500 (not 404). *)
Theorem get_and_terminate_replies (config : TunnelConfig) (ms ms' : MemoryStore)
  (req : Handler.CreateTunnelRequest) (tunnelID random : string)
  (now established now1 now2 : Z) (tunnel : Tunnel) (message : string)
  (Hid : tunnelID <> ""%string)
  (Hcreate : Handler.CreateTunnel config ms (OK req) tunnelID random now
             = (ms', Handler.mkReply 201 (Handler.CreatedBody tunnel message))) :
  let terminated :=
    HandlerOps.mkReply 200 (HandlerOps.Message "Tunnel terminated successfully") in
  let already :=
    HandlerOps.mkReply 500
      (HandlerOps.Failure "Failed to terminate tunnel"
         (Some "tunnel is already terminated"%string)) in
  (HandlerOps.GetTunnel ms' tunnelID = HandlerOps.mkReply 200 (HandlerOps.TunnelData tunnel)
   /\ Tunnel_Status tunnel = TunnelStatusConnecting
   /\ HandlerOps.GetTunnel (Service.establishTunnel ms' tunnelID established) tunnelID
      = HandlerOps.mkReply 200
          (HandlerOps.TunnelData (StoreOps.set_Status TunnelStatusActive established tunnel))
   /\ HandlerOps.GetTunnel ms tunnelID
      = HandlerOps.mkReply 404
          (HandlerOps.Failure "Tunnel not found" (Some (StoreOps.not_found tunnelID))))
  /\ (let ms1 := Service.establishTunnel ms' tunnelID established in
      let ms2 := (HandlerOps.TerminateTunnel ms1 tunnelID now1).1 in
      (HandlerOps.TerminateTunnel ms1 tunnelID now1).2 = terminated
      /\ (HandlerOps.TerminateTunnel ms2 tunnelID now2).2 = already)
  /\ (let ms1 := (HandlerOps.TerminateTunnel ms' tunnelID now1).1 in
      let ms2 := (HandlerOps.TerminateTunnel ms1 tunnelID now2).1 in
      (HandlerOps.TerminateTunnel ms' tunnelID now1).2 = terminated
      /\ (HandlerOps.TerminateTunnel ms1 tunnelID now2).2 = already
      /\ Store.GetTunnel (Service.establishTunnel ms2 tunnelID established) tunnelID
         = OK (StoreOps.set_Status TunnelStatusActive established
                 (StoreOps.set_Status TunnelStatusTerminated now1 tunnel)))
  /\ (let ms1 := (HandlerOps.TerminateTunnel ms' tunnelID now1).1 in
      let ms2 := Service.establishTunnel ms1 tunnelID established in
      (HandlerOps.TerminateTunnel ms' tunnelID now1).2 = terminated
      /\ Store.GetTunnel ms2 tunnelID
         = OK (StoreOps.set_Status TunnelStatusActive established
                 (StoreOps.set_Status TunnelStatusTerminated now1 tunnel))
      /\ (HandlerOps.TerminateTunnel ms2 tunnelID now2).2 = terminated)
  /\ HandlerOps.TerminateTunnel ms tunnelID now1
     = (ms, HandlerOps.mkReply 500
              (HandlerOps.Failure "Failed to terminate tunnel"
                 (Some ("tunnel not found: " +:+ StoreOps.not_found tunnelID)))).
Proof.
  apply handler_create_inv, ServiceOpsFacts.create_ok_inv in Hcreate
    as (_ & _ & Hfresh & -> & Htunnel).
  assert (Hconnecting : Tunnel_Status tunnel = TunnelStatusConnecting) by now subst tunnel.
  clear Htunnel. cbn zeta.
  assert (Hstored : tunnels (mkMemoryStore (<[tunnelID := tunnel]> (tunnels ms))) !! tunnelID
                    = Some tunnel) by apply lookup_insert_eq.
  rewrite !handler_terminate by exact Hid.
  rewrite (establish_run _ _ _ established Hstored).
  rewrite (terminate_run _ _ _ now1 Hstored) by congruence.
  cbn [fst snd tunnels].
  rewrite (terminate_run _ tunnelID (StoreOps.set_Status TunnelStatusActive established tunnel)
             now1) by (try apply lookup_insert_eq; discriminate).
  cbn [fst snd tunnels].
  rewrite (terminate_again _ tunnelID
             (StoreOps.set_Status TunnelStatusTerminated now1
                (StoreOps.set_Status TunnelStatusActive established tunnel)) now2)
    by (try apply lookup_insert_eq; reflexivity).
  rewrite (terminate_again _ tunnelID (StoreOps.set_Status TunnelStatusTerminated now1 tunnel)
             now2) by (try apply lookup_insert_eq; reflexivity).
  cbn [fst snd tunnels].
  rewrite (establish_run _ tunnelID (StoreOps.set_Status TunnelStatusTerminated now1 tunnel)
             established) by apply lookup_insert_eq.
  rewrite (terminate_run _ tunnelID
             (StoreOps.set_Status TunnelStatusActive established
                (StoreOps.set_Status TunnelStatusTerminated now1 tunnel)) now2)
    by (try apply lookup_insert_eq; discriminate).
  cbn [fst snd tunnels].
  unfold HandlerOps.GetTunnel, ServiceOps.GetTunnel, Store.GetTunnel. cbn [tunnels].
  apply String.eqb_neq in Hid. rewrite Hid, !lookup_insert_eq, Hfresh.
  split; [now repeat split|]. split; [now split|]. split; [now repeat split|].
  split; [now repeat split|].
  unfold ServiceOps.TerminateTunnel, Store.GetTunnel. now rewrite Hfresh.
Qed.

Lemma get_and_terminate_replies_witness :
  let created :=
    (Handler.CreateTunnel Handler.config_cap2 NewMemoryStore
       (OK (Handler.mkCreateTunnelRequest "alice" 3000)) "t1" "deadbeef" 0).1 in
  HandlerOps.status
    (HandlerOps.TerminateTunnel
       (HandlerOps.TerminateTunnel (Service.establishTunnel created "t1" 2) "t1" 3).1
       "t1" 4).2
  = 500
  /\ HandlerOps.status
       (HandlerOps.TerminateTunnel
          (Service.establishTunnel (HandlerOps.TerminateTunnel created "t1" 1).1 "t1" 2)
          "t1" 4).2
     = 200.
Proof.
  cbn zeta. split.
  - destruct (get_and_terminate_replies Handler.config_cap2 NewMemoryStore
                (Handler.CreateTunnel Handler.config_cap2 NewMemoryStore
                   (OK (Handler.mkCreateTunnelRequest "alice" 3000)) "t1" "deadbeef" 0).1
                (Handler.mkCreateTunnelRequest "alice" 3000) "t1" "deadbeef" 0 2 3 4
                (mkTunnel "t1" "alice" 3000 "https://api.syntra.dev/deadbeef/t1"
                   TunnelStatusConnecting 0 0 (24 * Hour) (Some emptyAnalytics))
                "Tunnel created successfully")
      as (_ & (_ & Htwice) & _).
    + discriminate.
    + vm_compute. reflexivity.
    + rewrite Htwice. reflexivity.
  - destruct (get_and_terminate_replies Handler.config_cap2 NewMemoryStore
                (Handler.CreateTunnel Handler.config_cap2 NewMemoryStore
                   (OK (Handler.mkCreateTunnelRequest "alice" 3000)) "t1" "deadbeef" 0).1
                (Handler.mkCreateTunnelRequest "alice" 3000) "t1" "deadbeef" 0 2 1 4
                (mkTunnel "t1" "alice" 3000 "https://api.syntra.dev/deadbeef/t1"
                   TunnelStatusConnecting 0 0 (24 * Hour) (Some emptyAnalytics))
                "Tunnel created successfully")
      as (_ & _ & _ & (_ & _ & Hagain) & _).
    + discriminate.
    + vm_compute. reflexivity.
    + rewrite Hagain. reflexivity.
Defined.

End HandlerOpsFacts.

(** ** Health, statistics and the sweep *)

Module ProxyOpsFacts.
Import Tunnels ProxyOps.

Lemma active_conns_elem (tm : TunnelManager) (conn : TunnelConnection) :
  conn ∈ active_conns tm
  <-> exists id p, connections tm !! id = Some p /\ heap tm !! p = Some conn.
Proof.
  unfold active_conns, GetActiveConnections. rewrite list_elem_of_omap. split.
  - intros ([id p] & Hin & Hp). apply elem_of_map_to_list in Hin. eauto.
  - intros (id & p & Hid & Hp). exists (id, p). split; [|exact Hp].
    now apply elem_of_map_to_list.
Qed.

Lemma active_conn_routed (tm : TunnelManager) (conn : TunnelConnection) :
  registry_consistent tm ->
  conn ∈ active_conns tm ->
  exists p, subdomains tm !! Conn_Subdomain conn = Some p /\ heap tm !! p = Some conn.
Proof.
  intros [H1 _] Hin. apply active_conns_elem in Hin as (id & p & Hid & Hp).
  destruct (H1 id p Hid) as (c & Hc & _ & Hsub).
  assert (c = conn) as -> by congruence. eauto.
Qed.

Lemma routed_conn_active (tm : TunnelManager) (sub : string) (p : loc) :
  registry_consistent tm ->
  subdomains tm !! sub = Some p ->
  exists conn, heap tm !! p = Some conn /\ Conn_Subdomain conn = sub
               /\ conn ∈ active_conns tm.
Proof.
  intros [_ H2] Hsub. destruct (H2 sub p Hsub) as (c & Hc & Hcs & Hid).
  exists c. split; [exact Hc|]. split; [exact Hcs|].
  apply active_conns_elem. eauto.
Qed.

Lemma health_scan (tm : TunnelManager) (subdomain : string) (now : Z) :
  HealthCheck tm subdomain now = OK true
  <-> exists id p conn,
        connections tm !! id = Some p /\ heap tm !! p = Some conn
        /\ Conn_Subdomain conn = subdomain /\ now - LastPing conn < 2 * Minute.
Proof.
  unfold HealthCheck. split.
  - destruct (existsb _ (active_conns tm)) eqn:Hex; [intros _|discriminate].
    apply existsb_exists in Hex as (conn & Hin & Hf).
    apply andb_prop in Hf as [Hsub Hrecent]. apply String.eqb_eq in Hsub.
    apply list_elem_of_In, active_conns_elem in Hin as (id & p & Hid & Hp).
    exists id, p, conn. unfold recent in Hrecent. apply Z.ltb_lt in Hrecent. now repeat split.
  - intros (id & p & conn & Hid & Hp & Hsub & Hrecent).
    assert (existsb (λ c, String.eqb (Conn_Subdomain c) subdomain && recent now c)
              (active_conns tm) = true) as ->; [|reflexivity].
    apply existsb_exists. exists conn. split.
    + apply list_elem_of_In, active_conns_elem. eauto.
    + apply andb_true_intro. split; [now apply String.eqb_eq|].
      unfold recent. now apply Z.ltb_lt.
Qed.

Lemma health_verdicts (tm : TunnelManager) (subdomain : string) (now : Z) :
  HealthCheck tm subdomain now <> OK true ->
  HealthCheck tm subdomain now = Error "tunnel not found or unhealthy".
Proof.
  unfold HealthCheck. now destruct (existsb _ (active_conns tm)).
Qed.

Lemma health_cases (tm : TunnelManager) (subdomain : string) (now : Z) :
  registry_consistent tm ->
  match subdomains tm !! subdomain with
  | Some p =>
      exists conn,
        heap tm !! p = Some conn
        /\ HealthCheck tm subdomain now
           = (if now - LastPing conn <? 2 * Minute
              then OK true
              else Error "tunnel not found or unhealthy")
  | None => HealthCheck tm subdomain now = Error "tunnel not found or unhealthy"
  end.
Proof.
  intros Hc.
  destruct (subdomains tm !! subdomain) as [p|] eqn:Hsub.
  - destruct (routed_conn_active tm subdomain p Hc Hsub) as (conn & Hp & Hcs & Hin).
    exists conn. split; [exact Hp|].
    apply active_conns_elem in Hin as (id & q & Hid & Hq).
    destruct (Z.ltb_spec (now - LastPing conn) (2 * Minute)) as [Hlt|Hge].
    + apply health_scan. exists id, q, conn. now repeat split.
    + apply health_verdicts. intros H.
      apply health_scan in H as (id' & p' & c & Hid' & Hp' & Hcsub & Hrecent).
      assert (Hin' : c ∈ active_conns tm) by (apply active_conns_elem; eauto).
      destruct (active_conn_routed tm c Hc Hin') as (p2 & Hsub2 & Hp2).
      rewrite Hcsub in Hsub2. assert (c = conn) as -> by congruence. lia.
  - apply health_verdicts. intros H.
    apply health_scan in H as (id' & p' & c & Hid' & Hp' & Hcsub & _).
    assert (Hin' : c ∈ active_conns tm) by (apply active_conns_elem; eauto).
    destruct (active_conn_routed tm c Hc Hin') as (p2 & Hsub2 & _). congruence.
Qed.

(** X10: the health check of a subdomain scans the id index and does not
    consult the subdomain index: it answers healthy exactly when some
    session of the id index carries the subdomain and received a frame less
    than two minutes ago, and fails with "tunnel not found or unhealthy"
    otherwise; the handler answers 200 in the first case and 404 in the
    other. In a state whose two indices agree the verdict is that of the
    session the subdomain routes to: healthy exactly when that session
    received a frame less than two minutes ago, an error when the subdomain
    is not registered. *)
Theorem health_scans_id_index (tm : TunnelManager) (subdomain : string) (now : Z) :
  (HealthCheck tm subdomain now = OK true
   <-> exists id p conn,
         connections tm !! id = Some p /\ heap tm !! p = Some conn
         /\ Conn_Subdomain conn = subdomain /\ now - LastPing conn < 2 * Minute)
  /\ (HealthCheck tm subdomain now <> OK true ->
      HealthCheck tm subdomain now = Error "tunnel not found or unhealthy")
  /\ (registry_consistent tm ->
      match subdomains tm !! subdomain with
      | Some p =>
          exists conn,
            heap tm !! p = Some conn
            /\ HealthCheck tm subdomain now
               = (if now - LastPing conn <? 2 * Minute
                  then OK true
                  else Error "tunnel not found or unhealthy")
      | None => HealthCheck tm subdomain now = Error "tunnel not found or unhealthy"
      end)
  /\ (subdomain <> ""%string ->
      HealthCheck_status tm subdomain now
      = match HealthCheck tm subdomain now with OK _ => 200 | Error _ => 404 end).
Proof.
  split; [apply health_scan|]. split; [apply health_verdicts|].
  split; [apply health_cases|].
  intros Hne. unfold HealthCheck_status. apply String.eqb_neq in Hne. now rewrite Hne.
Qed.

Lemma health_scans_id_index_witness :
  HealthCheck Scenario.tm_alice "alice-abcd1234" Minute = OK true
  /\ HealthCheck Scenario.tm_alice "alice-abcd1234" (2 * Minute)
     = Error "tunnel not found or unhealthy"
  /\ HealthCheck_status Scenario.tm_alice "alice-abcd1234" (2 * Minute) = 404
  /\ subdomains (unregisterConnection Scenario.tm_two "tunnel-2" 2)
       !! "alice-abcd1234"%string = None
  /\ HealthCheck (unregisterConnection Scenario.tm_two "tunnel-2" 2) "alice-abcd1234" Minute
     = OK true.
Proof.
  assert (E : subdomains Scenario.tm_alice !! "alice-abcd1234"%string = Some 0%nat)
    by (vm_compute; reflexivity).
  split; [|split; [|split; [|split]]].
  - destruct (health_scans_id_index Scenario.tm_alice "alice-abcd1234" Minute)
      as (_ & _ & H & _).
    specialize (H RegistryFacts.alice_consistent). rewrite E in H.
    destruct H as (conn & Hp & ->). vm_compute in Hp. injection Hp as <-. reflexivity.
  - destruct (health_scans_id_index Scenario.tm_alice "alice-abcd1234" (2 * Minute))
      as (_ & _ & H & _).
    specialize (H RegistryFacts.alice_consistent). rewrite E in H.
    destruct H as (conn & Hp & ->). vm_compute in Hp. injection Hp as <-. reflexivity.
  - destruct (health_scans_id_index Scenario.tm_alice "alice-abcd1234" (2 * Minute))
      as (_ & _ & _ & ->); [vm_compute; reflexivity | discriminate].
  - vm_compute. reflexivity.
  - apply (proj1 (health_scans_id_index (unregisterConnection Scenario.tm_two "tunnel-2" 2)
                    "alice-abcd1234" Minute)).
    exists "tunnel-1"%string, 0%nat,
      (mkTunnelConnection "tunnel-1" "alice" "alice-abcd1234" 0 [] 0 0 ∅ false).
    vm_compute. now repeat split.
Defined.

Lemma stats_loop_found (conns : list TunnelConnection) (subdomain : string) (now : Z)
  (stats : Stats) :
  GetTunnelStats_loop conns subdomain now = OK stats ->
  exists conn, conn ∈ conns /\ Conn_Subdomain conn = subdomain
               /\ stats = stats_of now conn.
Proof.
  unfold GetTunnelStats_loop.
  destruct (find _ conns) as [conn|] eqn:Hfind; [|discriminate].
  intros [= <-]. apply find_some in Hfind as [Hin Hsub].
  apply String.eqb_eq in Hsub. apply list_elem_of_In in Hin. eauto.
Qed.

Lemma stats_loop_none (conns : list TunnelConnection) (subdomain : string) (now : Z)
  (err : string) :
  GetTunnelStats_loop conns subdomain now = Error err ->
  err = "tunnel not found"%string
  /\ forall conn, conn ∈ conns -> Conn_Subdomain conn <> subdomain.
Proof.
  unfold GetTunnelStats_loop.
  destruct (find _ conns) as [conn|] eqn:Hfind; [discriminate|].
  intros [= <-]. split; [reflexivity|]. intros conn Hin.
  apply list_elem_of_In in Hin. apply (find_none _ _ Hfind) in Hin.
  now apply String.eqb_neq.
Qed.

(** X11: the statistics of a subdomain are taken from the id index, not from
    the subdomain index: in whatever order the loop visits the sessions of
    the id index, the call answers with the statistics of a session of that
    index that carries the subdomain (its ids, port, creation time and last
    ping, the uptime since creation, and whether its last frame is less than
    two minutes old), and fails with "tunnel not found", which the handler
    answers with 404, exactly when no session of the id index carries it. In
    a state whose two indices agree, the statistics are those of the session
    the subdomain routes to, and the call fails for a subdomain that is not
    registered. *)
Theorem stats_from_id_index (tm : TunnelManager) (subdomain : string) (now : Z)
  (conns : list TunnelConnection)
  (Horder : conns ≡ₚ active_conns tm) :
  (forall stats,
     GetTunnelStats_loop conns subdomain now = OK stats ->
     exists id p conn,
       connections tm !! id = Some p /\ heap tm !! p = Some conn
       /\ Conn_Subdomain conn = subdomain
       /\ stats = mkStats (Conn_ID conn) (Conn_UserID conn) subdomain
                    (Conn_LocalPort conn) (Conn_CreatedAt conn) (LastPing conn)
                    ((now - Conn_CreatedAt conn) # 1000000000)
                    (now - LastPing conn <? 2 * Minute))
  /\ (forall err,
        GetTunnelStats_loop conns subdomain now = Error err ->
        err = "tunnel not found"%string
        /\ forall id p conn,
             connections tm !! id = Some p -> heap tm !! p = Some conn ->
             Conn_Subdomain conn <> subdomain)
  /\ (registry_consistent tm ->
      match subdomains tm !! subdomain with
      | Some p =>
          exists conn,
            heap tm !! p = Some conn
            /\ GetTunnelStats_loop conns subdomain now
               = OK (mkStats (Conn_ID conn) (Conn_UserID conn) subdomain
                       (Conn_LocalPort conn) (Conn_CreatedAt conn) (LastPing conn)
                       ((now - Conn_CreatedAt conn) # 1000000000)
                       (now - LastPing conn <? 2 * Minute))
            /\ connections tm !! Conn_ID conn = Some p
      | None => GetTunnelStats_loop conns subdomain now = Error "tunnel not found"
      end)
  /\ GetTunnelStats tm subdomain now = GetTunnelStats_loop (active_conns tm) subdomain now
  /\ (subdomain <> ""%string ->
      GetStats_status tm subdomain now
      = match GetTunnelStats tm subdomain now with OK _ => 200 | Error _ => 404 end).
Proof.
  assert (Hfound : forall stats,
            GetTunnelStats_loop conns subdomain now = OK stats ->
            exists id p conn,
              connections tm !! id = Some p /\ heap tm !! p = Some conn
              /\ Conn_Subdomain conn = subdomain
              /\ stats = mkStats (Conn_ID conn) (Conn_UserID conn) subdomain
                           (Conn_LocalPort conn) (Conn_CreatedAt conn) (LastPing conn)
                           ((now - Conn_CreatedAt conn) # 1000000000)
                           (now - LastPing conn <? 2 * Minute)).
  { intros stats H. apply stats_loop_found in H as (conn & Hin & Hsub & ->).
    rewrite Horder in Hin. apply active_conns_elem in Hin as (id & p & Hid & Hp).
    exists id, p, conn. unfold stats_of, recent. rewrite Hsub. now repeat split. }
  assert (Hnone : forall err,
            GetTunnelStats_loop conns subdomain now = Error err ->
            err = "tunnel not found"%string
            /\ forall id p conn,
                 connections tm !! id = Some p -> heap tm !! p = Some conn ->
                 Conn_Subdomain conn <> subdomain).
  { intros err H. apply stats_loop_none in H as [-> Hall]. split; [reflexivity|].
    intros id p conn Hid Hp. apply Hall. rewrite Horder. apply active_conns_elem. eauto. }
  split; [exact Hfound|]. split; [exact Hnone|].
  split; [|split; [reflexivity|]].
  - intros Hc. destruct (subdomains tm !! subdomain) as [p|] eqn:Hsub.
    + destruct (routed_conn_active tm subdomain p Hc Hsub) as (conn & Hp & Hcs & Hin).
      exists conn. split; [exact Hp|]. split.
      * destruct (GetTunnelStats_loop conns subdomain now) as [stats|err] eqn:Hrun.
        -- destruct (Hfound stats eq_refl) as (id & q & c & Hid & Hq & Hcsub & ->).
           assert (Hcin : c ∈ active_conns tm) by (apply active_conns_elem; eauto).
           destruct (active_conn_routed tm c Hc Hcin) as (p' & Hsub' & Hp').
           rewrite Hcsub in Hsub'. assert (c = conn) as -> by congruence. reflexivity.
        -- destruct (Hnone err eq_refl) as [_ Hall].
           apply active_conns_elem in Hin as (id & q & Hid & Hq).
           now destruct (Hall id q conn Hid Hq).
      * destruct Hc as [_ H2]. destruct (H2 _ _ Hsub) as (c & Hc' & _ & Hid). congruence.
    + destruct (GetTunnelStats_loop conns subdomain now) as [stats|err] eqn:Hrun.
      * destruct (Hfound stats eq_refl) as (id & q & c & Hid & Hq & Hcsub & _).
        assert (Hcin : c ∈ active_conns tm) by (apply active_conns_elem; eauto).
        destruct (active_conn_routed tm c Hc Hcin) as (p' & Hsub' & _). congruence.
      * now destruct (Hnone err eq_refl) as [-> _].
  - intros Hne. unfold GetStats_status. apply String.eqb_neq in Hne. now rewrite Hne.
Qed.

Lemma stats_from_id_index_witness :
  GetTunnelStats Scenario.tm_alice "alice-abcd1234" Minute
  = OK (mkStats "tunnel-1" "alice" "alice-abcd1234" 0 0 0 (Minute # 1000000000) true)
  /\ GetStats_status Scenario.tm_alice "alice-abcd1234" Minute = 200
  /\ GetTunnelStats Scenario.tm_alice "nobody-00000000" Minute = Error "tunnel not found"
  /\ (exists stats id p conn,
        GetTunnelStats_loop (reverse (active_conns Scenario.tm_two)) "alice-abcd1234" Minute
        = OK stats
        /\ stat_tunnel_id stats = "tunnel-2"%string
        /\ connections Scenario.tm_two !! id = Some p
        /\ heap Scenario.tm_two !! p = Some conn
        /\ stat_tunnel_id stats = Conn_ID conn)
  /\ (exists stats id p conn,
        GetTunnelStats Scenario.tm_two "alice-abcd1234" Minute = OK stats
        /\ stat_tunnel_id stats = "tunnel-1"%string
        /\ connections Scenario.tm_two !! id = Some p
        /\ heap Scenario.tm_two !! p = Some conn
        /\ stat_tunnel_id stats = Conn_ID conn).
Proof.
  split; [|split; [|split; [|split]]].
  - destruct (stats_from_id_index Scenario.tm_alice "alice-abcd1234" Minute
                (active_conns Scenario.tm_alice)) as (_ & _ & H & -> & _); [reflexivity|].
    specialize (H RegistryFacts.alice_consistent).
    assert (E : subdomains Scenario.tm_alice !! "alice-abcd1234"%string = Some 0%nat)
      by (vm_compute; reflexivity).
    rewrite E in H. destruct H as (conn & Hp & -> & _).
    vm_compute in Hp. injection Hp as <-. reflexivity.
  - destruct (stats_from_id_index Scenario.tm_alice "alice-abcd1234" Minute
                (active_conns Scenario.tm_alice)) as (_ & _ & _ & _ & ->);
      [reflexivity | vm_compute; reflexivity | discriminate].
  - destruct (stats_from_id_index Scenario.tm_alice "nobody-00000000" Minute
                (active_conns Scenario.tm_alice)) as (_ & _ & H & -> & _); [reflexivity|].
    specialize (H RegistryFacts.alice_consistent).
    assert (E : subdomains Scenario.tm_alice !! "nobody-00000000"%string = None)
      by (vm_compute; reflexivity).
    rewrite E in H. exact H.
  - destruct (stats_from_id_index Scenario.tm_two "alice-abcd1234" Minute
                (reverse (active_conns Scenario.tm_two))) as (Hfound & _);
      [apply reverse_Permutation|].
    assert (Hrun : GetTunnelStats_loop (reverse (active_conns Scenario.tm_two))
                     "alice-abcd1234" Minute
                   = OK (mkStats "tunnel-2" "alice" "alice-abcd1234" 0 1 1
                           ((Minute - 1) # 1000000000) true))
      by (vm_compute; reflexivity).
    destruct (Hfound _ Hrun) as (id & p & conn & Hid & Hp & _ & Hstats).
    eexists _, id, p, conn. split; [exact Hrun|]. split; [reflexivity|].
    split; [exact Hid|]. split; [exact Hp|]. now rewrite Hstats.
  - destruct (stats_from_id_index Scenario.tm_two "alice-abcd1234" Minute
                (active_conns Scenario.tm_two)) as (Hfound & _ & _ & Heq & _);
      [reflexivity|].
    assert (Hrun : GetTunnelStats_loop (active_conns Scenario.tm_two)
                     "alice-abcd1234" Minute
                   = OK (mkStats "tunnel-1" "alice" "alice-abcd1234" 0 0 0
                           (Minute # 1000000000) true))
      by (vm_compute; reflexivity).
    destruct (Hfound _ Hrun) as (id & p & conn & Hid & Hp & _ & Hstats).
    eexists _, id, p, conn. rewrite Heq. split; [exact Hrun|]. split; [reflexivity|].
    split; [exact Hid|]. split; [exact Hp|]. now rewrite Hstats.
Defined.

Lemma cleanup_entry_heap_back (now : Z) (tm : TunnelManager) (entry : string * loc)
  (q : loc) (c1 : TunnelConnection) :
  heap (cleanup_entry now tm entry) !! q = Some c1 ->
  exists c, heap tm !! q = Some c /\ LastPing c1 = LastPing c
            /\ Conn_Subdomain c1 = Conn_Subdomain c.
Proof.
  unfold cleanup_entry.
  destruct (heap tm !! entry.2) as [conn|] eqn:Hp; [|eauto].
  destruct (now - LastPing conn >? 2 * Minute); [|eauto].
  cbn. intros H. destruct (decide (entry.2 = q)) as [<-|Hne].
  - rewrite lookup_alter_eq, Hp in H. injection H as <-. eauto.
  - rewrite lookup_alter_ne in H by exact Hne. eauto.
Qed.

Lemma cleanup_fold_keeps (now : Z) (l : list (string * loc)) (tm : TunnelManager)
  (id : string) :
  (forall p conn, (id, p) ∈ l -> heap tm !! p = Some conn ->
     now - LastPing conn <= 2 * Minute) ->
  connections (foldl (cleanup_entry now) tm l) !! id = connections tm !! id.
Proof.
  revert tm. induction l as [|[id' p'] l IH]; intros tm Hlive; [reflexivity|].
  cbn [foldl]. rewrite IH.
  - destruct (decide (id = id')) as [<-|Hne].
    + unfold cleanup_entry. cbn [fst snd].
      destruct (heap tm !! p') as [conn|] eqn:Hp; [|reflexivity].
      specialize (Hlive p' conn ltac:(left) Hp).
      destruct (Z.gtb_spec (now - LastPing conn) (2 * Minute)); [lia | reflexivity].
    + now apply RegistryFacts.cleanup_entry_connections.
  - intros p c1 Hin Hc1.
    apply cleanup_entry_heap_back in Hc1 as (c & Hc & -> & _).
    apply (Hlive p c); [now right | exact Hc].
Qed.

Lemma cleanup_fold_sub (now : Z) (l : list (string * loc)) (tm : TunnelManager)
  (id : string) (p : loc) :
  connections (foldl (cleanup_entry now) tm l) !! id = Some p ->
  connections tm !! id = Some p.
Proof.
  revert tm. induction l as [|entry l IH]; intros tm H; [exact H|].
  cbn [foldl] in H. apply IH in H. unfold cleanup_entry in H.
  destruct (heap tm !! entry.2) as [conn|]; [|exact H].
  destruct (now - LastPing conn >? 2 * Minute); [|exact H].
  cbn in H. now apply lookup_delete_Some in H as [_ H].
Qed.

Lemma sweep_connections (tm : TunnelManager) (now : Z) (id : string) (p : loc) :
  connections (cleanupRoutine_tick tm now) !! id = Some p
  <-> connections tm !! id = Some p
      /\ forall conn, heap tm !! p = Some conn -> now - LastPing conn <= 2 * Minute.
Proof.
  unfold cleanupRoutine_tick. split.
  - intros H. pose proof (cleanup_fold_sub _ _ _ _ _ H) as Hid.
    split; [exact Hid|]. intros conn Hp.
    destruct (Z.le_gt_cases (now - LastPing conn) (2 * Minute)) as [Hle|Hgt]; [exact Hle|].
    exfalso.
    destruct (TeardownFacts.cleanup_fold_removes now (map_to_list (connections tm)) tm
                id p conn) as (Hnone & _); [now apply elem_of_map_to_list | exact Hp | lia |].
    congruence.
  - intros (Hid & Hle). rewrite cleanup_fold_keeps; [exact Hid|].
    intros p' conn' Hin Hp'. apply elem_of_map_to_list in Hin.
    assert (p' = p) as -> by congruence. now apply Hle.
Qed.

Lemma cleanup_entry_subdomains (now : Z) (tm : TunnelManager) (entry : string * loc)
  (sub : string) (p : loc) :
  subdomains (cleanup_entry now tm entry) !! sub = Some p
  <-> subdomains tm !! sub = Some p
      /\ forall conn, heap tm !! entry.2 = Some conn -> Conn_Subdomain conn = sub ->
           now - LastPing conn <= 2 * Minute.
Proof.
  unfold cleanup_entry.
  destruct (heap tm !! entry.2) as [conn|] eqn:Hp.
  - destruct (Z.gtb_spec (now - LastPing conn) (2 * Minute)) as [Hstale|Hlive].
    + cbn [subdomains set_indices]. rewrite lookup_delete_Some. split.
      * intros [Hne Hsub]. split; [exact Hsub|]. intros c [= <-] Hc. contradiction.
      * intros [Hsub Hall]. split; [|exact Hsub]. intros Heq.
        specialize (Hall conn eq_refl Heq). lia.
    + split; [|now intros [? _]]. intros Hsub. split; [exact Hsub|].
      now intros c [= <-] _.
  - split; [|now intros [? _]]. intros Hsub. split; [exact Hsub|]. discriminate.
Qed.

Lemma cleanup_entry_heap_forth (now : Z) (tm : TunnelManager) (entry : string * loc)
  (q : loc) (c : TunnelConnection) :
  heap tm !! q = Some c ->
  exists c1, heap (cleanup_entry now tm entry) !! q = Some c1
             /\ LastPing c1 = LastPing c /\ Conn_Subdomain c1 = Conn_Subdomain c.
Proof.
  intros Hq.
  destruct (TeardownFacts.torn_cleanup_entry tm now entry) as (_ & _ & Hh & _).
  destruct (Hh q c Hq) as (c1 & Hq1 & _ & Hping & Hsub & _). eauto.
Qed.

Lemma cleanup_fold_subdomains (now : Z) (l : list (string * loc)) (tm : TunnelManager)
  (sub : string) (p : loc) :
  subdomains (foldl (cleanup_entry now) tm l) !! sub = Some p
  <-> subdomains tm !! sub = Some p
      /\ forall id q conn, (id, q) ∈ l -> heap tm !! q = Some conn ->
           Conn_Subdomain conn = sub -> now - LastPing conn <= 2 * Minute.
Proof.
  revert tm. induction l as [|entry l IH]; intros tm.
  - cbn [foldl]. split; [|now intros [? _]]. intros H. split; [exact H|].
    intros id q conn Hin. now apply elem_of_nil in Hin.
  - cbn [foldl]. rewrite IH, cleanup_entry_subdomains. split.
    + intros [[Hsub Hentry] Hrest]. split; [exact Hsub|].
      intros id q conn Hin Hq Hcs. apply elem_of_cons in Hin as [<-|Hin].
      * now apply (Hentry conn).
      * destruct (cleanup_entry_heap_forth now tm entry q conn Hq)
          as (c1 & Hq1 & Hping & Hsub1).
        rewrite <- Hping. apply (Hrest id q c1 Hin Hq1). congruence.
    + intros [Hsub Hall]. split; [split; [exact Hsub|]|].
      * intros conn Hp Hcs. apply (Hall entry.1 entry.2 conn); [|exact Hp|exact Hcs].
        destruct entry. left.
      * intros id q c1 Hin Hq1 Hcs.
        apply cleanup_entry_heap_back in Hq1 as (c & Hq & -> & Hsub1).
        apply (Hall id q c); [now right | exact Hq | congruence].
Qed.

Lemma sweep_subdomains (tm : TunnelManager) (now : Z) (sub : string) (p : loc) :
  subdomains (cleanupRoutine_tick tm now) !! sub = Some p
  <-> subdomains tm !! sub = Some p
      /\ forall id q conn, connections tm !! id = Some q -> heap tm !! q = Some conn ->
           Conn_Subdomain conn = sub -> now - LastPing conn <= 2 * Minute.
Proof.
  unfold cleanupRoutine_tick. rewrite cleanup_fold_subdomains.
  split; intros [Hsub Hall]; (split; [exact Hsub|]); intros id q conn Hin;
    apply (Hall id q conn); now apply elem_of_map_to_list.
Qed.

(** X12: one tick of the cleanup sweep keeps in the id index exactly the
    entries whose session received a frame at most two minutes ago, and keeps
    in the subdomain index exactly the entries whose subdomain no stale
    session of the id index carries (the entry of a subdomain goes when a
    stale session carries it, whichever session the entry points at). The
    tick never touches the store, so the tunnel of a swept session keeps the
    status it had there. In a state whose two indices agree, they agree after
    the tick as well, and an entry of the subdomain index is kept exactly
    when the session it routes to is not stale. *)
Theorem sweep_keeps_live_sessions (tm : TunnelManager) (now : Z) :
  (forall id p,
     connections (cleanupRoutine_tick tm now) !! id = Some p
     <-> connections tm !! id = Some p
         /\ forall conn, heap tm !! p = Some conn -> now - LastPing conn <= 2 * Minute)
  /\ (forall sub p,
        subdomains (cleanupRoutine_tick tm now) !! sub = Some p
        <-> subdomains tm !! sub = Some p
            /\ forall id q conn,
                 connections tm !! id = Some q -> heap tm !! q = Some conn ->
                 Conn_Subdomain conn = sub -> now - LastPing conn <= 2 * Minute)
  /\ store (cleanupRoutine_tick tm now) = store tm
  /\ (registry_consistent tm ->
      registry_consistent (cleanupRoutine_tick tm now)
      /\ forall sub p,
           subdomains (cleanupRoutine_tick tm now) !! sub = Some p
           <-> subdomains tm !! sub = Some p
               /\ exists conn, heap tm !! p = Some conn
                               /\ now - LastPing conn <= 2 * Minute).
Proof.
  pose proof (TeardownFacts.torn_cleanup_fold now (map_to_list (connections tm)) tm)
    as (_ & Hstore & _).
  fold (cleanupRoutine_tick tm now) in Hstore.
  split; [intros id p; apply sweep_connections|].
  split; [intros sub p; apply sweep_subdomains|].
  split; [exact Hstore|].
  intros Hc. split; [now apply RegistryFacts.consistent_cleanup|].
  destruct Hc as [H1 H2]. intros sub p. rewrite sweep_subdomains. split.
  - intros [Hsub Hall]. split; [exact Hsub|].
    destruct (H2 sub p Hsub) as (conn & Hp & Hcs & Hid).
    exists conn. split; [exact Hp|]. now apply (Hall (Conn_ID conn) p conn).
  - intros (Hsub & conn & Hp & Hle). split; [exact Hsub|].
    intros id q c Hid Hq Hcs.
    destruct (H1 id q Hid) as (c' & Hq' & _ & Hsub').
    assert (c' = c) as -> by congruence. rewrite Hcs in Hsub'.
    assert (q = p) as -> by congruence. assert (c = conn) as -> by congruence.
    exact Hle.
Qed.

Lemma sweep_keeps_live_sessions_witness :
  connections (cleanupRoutine_tick Scenario.tm_alice (3 * Minute)) !! "tunnel-1"%string
  <> Some Scenario.p_alice
  /\ subdomains (cleanupRoutine_tick Scenario.tm_alice (2 * Minute))
       !! "alice-abcd1234"%string
     = Some Scenario.p_alice
  /\ connections (cleanupRoutine_tick Scenario.tm_two (2 * Minute + 1)) !! "tunnel-2"%string
     = Some 1%nat
  /\ subdomains (cleanupRoutine_tick Scenario.tm_two (2 * Minute + 1))
       !! "alice-abcd1234"%string
     <> Some 1%nat.
Proof.
  assert (H0 : forall conn, heap Scenario.tm_two !! 0%nat = Some conn -> LastPing conn = 0).
  { intros conn H. vm_compute in H. now injection H as <-. }
  assert (H1 : forall conn, heap Scenario.tm_two !! 1%nat = Some conn -> LastPing conn = 1).
  { intros conn H. vm_compute in H. now injection H as <-. }
  split; [|split; [|split]].
  - intros H.
    apply (proj1 (sweep_keeps_live_sessions Scenario.tm_alice (3 * Minute))) in H
      as [_ Hle].
    specialize (Hle (mkTunnelConnection "tunnel-1" "alice" "alice-abcd1234" 0 [] 0 0 ∅ false)
                  ltac:(vm_compute; reflexivity)).
    vm_compute in Hle. now apply Hle.
  - destruct (sweep_keeps_live_sessions Scenario.tm_alice (2 * Minute))
      as (_ & _ & _ & Hnice).
    destruct (Hnice RegistryFacts.alice_consistent) as [_ Hsubs].
    apply Hsubs. split; [vm_compute; reflexivity|].
    exists (mkTunnelConnection "tunnel-1" "alice" "alice-abcd1234" 0 [] 0 0 ∅ false).
    split; [vm_compute; reflexivity | vm_compute; discriminate].
  - apply (proj1 (sweep_keeps_live_sessions Scenario.tm_two (2 * Minute + 1))).
    split; [vm_compute; reflexivity|].
    intros conn Hp. rewrite (H1 conn Hp). vm_compute. discriminate.
  - intros H.
    destruct (sweep_keeps_live_sessions Scenario.tm_two (2 * Minute + 1))
      as (_ & Hsubs & _).
    apply Hsubs in H as [_ Hall].
    specialize (Hall "tunnel-1"%string 0%nat
                  (mkTunnelConnection "tunnel-1" "alice" "alice-abcd1234" 0 [] 0 0 ∅ false)
                  ltac:(vm_compute; reflexivity) ltac:(vm_compute; reflexivity) eq_refl).
    vm_compute in Hall. now apply Hall.
Defined.

Lemma iteration_refreshes (tm : TunnelManager) (p : loc) (msg : TunnelMessage)
  (now : Z) (msgID : string) (writeErr : option string) (conn : TunnelConnection) :
  heap tm !! p = Some conn ->
  exists conn', heap (handleMessages_iteration tm p msg now msgID writeErr).1 !! p
                = Some conn'
                /\ LastPing conn' = now
                /\ Conn_Subdomain conn' = Conn_Subdomain conn.
Proof.
  unfold handleMessages_iteration. intros Hp.
  set (tm1 := update_conn p (set_LastPing now) tm) in *.
  assert (Hp1 : heap tm1 !! p = Some (set_LastPing now conn))
    by (cbn; now rewrite lookup_alter_eq, Hp).
  destruct (Msg_Type msg); try (cbn [fst]; eauto).
  - unfold handleResponse. rewrite Hp1.
    destruct (pendingReqs (set_LastPing now conn) !! Msg_ID msg) as [ch|];
      [|cbn [fst]; eauto].
    destruct (chans tm1 !! ch) as [[|? ?]|]; try (cbn [fst]; eauto).
    cbn. rewrite !lookup_alter_eq, Hp. cbn. eauto.
  - unfold handleHeartbeat, WriteJSON. destruct writeErr; [cbn [fst]; eauto|].
    cbn. rewrite !lookup_alter_eq, Hp. cbn. eauto.
Qed.

(** X13: every frame the read loop decodes from a session of the id index,
    of whatever type, and whether or not its handling gets to its end (the
    channel send of a response may block), sets the session's last ping to
    the time of the frame before anything else; so the health check of the
    session's subdomain answers healthy at any time less than two minutes
    after the frame. *)
Theorem frame_makes_healthy (tm : TunnelManager) (id : string) (p : loc)
  (conn : TunnelConnection) (msg : TunnelMessage) (now later : Z) (msgID : string)
  (writeErr : option string)
  (Hid : connections tm !! id = Some p)
  (Hp : heap tm !! p = Some conn)
  (Hlater : later - now < 2 * Minute) :
  (exists conn',
     heap (handleMessages_iteration tm p msg now msgID writeErr).1 !! p = Some conn'
     /\ LastPing conn' = now)
  /\ HealthCheck (handleMessages_iteration tm p msg now msgID writeErr).1
       (Conn_Subdomain conn) later
     = OK true
  /\ (forall tm', handleMessage tm p msg now msgID writeErr = Some tm' ->
        HealthCheck tm' (Conn_Subdomain conn) later = OK true).
Proof.
  destruct (iteration_refreshes tm p msg now msgID writeErr conn Hp)
    as (conn' & Hp' & Hping & Hsub).
  assert (Hhealthy : HealthCheck (handleMessages_iteration tm p msg now msgID writeErr).1
                       (Conn_Subdomain conn) later = OK true).
  { apply health_scan. exists id, p, conn'.
    destruct (RegistryFacts.same_registry_iteration tm p msg now msgID writeErr)
      as (Hc & _). rewrite Hc. split; [exact Hid|]. split; [exact Hp'|].
    split; [exact Hsub|]. lia. }
  split; [eauto|]. split; [exact Hhealthy|].
  intros tm' Hmsg. apply RegistryFacts.handleMessage_iteration in Hmsg.
  now rewrite Hmsg in Hhealthy.
Qed.

Lemma frame_makes_healthy_witness :
  HealthCheck
    (handleMessages_iteration Scenario.tm_parked 0%nat
       (mkTunnelMessage "req-1" MessageTypeResponse ∅ ∅) (10 * Minute) "hb" None).1
    "alice-abcd1234" (11 * Minute)
  = OK true
  /\ (handleMessages_iteration Scenario.tm_parked 0%nat
        (mkTunnelMessage "req-1" MessageTypeResponse ∅ ∅) (10 * Minute) "hb" None).2
     = true
  /\ HealthCheck
       (handleMessages_iteration Scenario.tm_blocked 0%nat
          (mkTunnelMessage "req-1" MessageTypeResponse ∅ ∅) (10 * Minute) "hb" None).1
       "alice-abcd1234" (11 * Minute)
     = OK true
  /\ (handleMessages_iteration Scenario.tm_blocked 0%nat
        (mkTunnelMessage "req-1" MessageTypeResponse ∅ ∅) (10 * Minute) "hb" None).2
     = false.
Proof.
  split; [|split; [reflexivity|split; [|reflexivity]]].
  - destruct (frame_makes_healthy Scenario.tm_parked "tunnel-1" 0%nat
                (mkTunnelConnection "tunnel-1" "alice" "alice-abcd1234" 0
                   [requestFrame "req-1" (mkHTTPRequest "GET" "/ping" "" ∅ (Some ""%string) 0)]
                   0 0 (<["req-1"%string := 0%nat]> ∅) false)
                (mkTunnelMessage "req-1" MessageTypeResponse ∅ ∅) (10 * Minute)
                (11 * Minute) "hb" None) as (_ & H & _).
    + vm_compute. reflexivity.
    + vm_compute. reflexivity.
    + vm_compute. reflexivity.
    + exact H.
  - destruct (frame_makes_healthy Scenario.tm_blocked "tunnel-1" 0%nat
                (mkTunnelConnection "tunnel-1" "alice" "alice-abcd1234" 0
                   [requestFrame "req-1" (mkHTTPRequest "GET" "/ping" "" ∅ (Some ""%string) 0)]
                   0 0 (<["req-1"%string := 0%nat]> ∅) false)
                (mkTunnelMessage "req-1" MessageTypeResponse ∅ ∅) (10 * Minute)
                (11 * Minute) "hb" None) as (_ & H & _).
    + vm_compute. reflexivity.
    + vm_compute. reflexivity.
    + vm_compute. reflexivity.
    + exact H.
Defined.

End ProxyOpsFacts.

(** ** More on the dispatcher *)

Module DeliveryFacts.
Import Tunnels.

Section WithCanonicalKeys.
Variable CanonicalMIMEHeaderKey : string -> string.

(** X14: a request is forwarded on a registered session under a correlation
    id that is not pending, and while the caller waits the read loop decodes
    a response frame with that id: the caller gets the response built from
    that frame whatever time has elapsed, the slot is gone from the pending
    table (which is as it was before the request), its channel is empty
    again, and no other channel has changed. *)
Theorem response_reaches_caller (tm : TunnelManager) (subdomain : string)
  (req : HTTPRequest) (requestID : string) (p : loc) (conn : TunnelConnection)
  (msg : TunnelMessage) (now : Z) (msgID : string) (hbErr : option string) (elapsed : Z)
  (Hsub : subdomains tm !! subdomain = Some p)
  (Hconn : heap tm !! p = Some conn)
  (Hfresh : pendingReqs conn !! requestID = None)
  (Hid : Msg_ID msg = requestID)
  (Htype : Msg_Type msg = MessageTypeResponse) :
  exists tm' conn',
    ForwardRequest CanonicalMIMEHeaderKey tm subdomain req requestID None
      (fun tm1 => default tm1 (handleMessage tm1 p msg now msgID hbErr))
      CaseResponse elapsed
    = Some (tm', buildHTTPResponse CanonicalMIMEHeaderKey msg)
    /\ heap tm' !! p = Some conn'
    /\ pendingReqs conn' = pendingReqs conn
    /\ LastPing conn' = now
    /\ chans tm' !! fresh (dom (chans tm)) = Some []
    /\ forall ch, ch <> fresh (dom (chans tm)) -> chans tm' !! ch = chans tm !! ch.
Proof.
  unfold ForwardRequest, ForwardRequest_send. rewrite Hsub. cbn [WriteJSON].
  set (ch := fresh (dom (chans tm))).
  set (frame := requestFrame requestID req).
  set (tm2 := log (update_conn p (written frame) _) _).
  assert (Hp2 : heap tm2 !! p
                = Some (written frame (pending_insert requestID ch conn)))
    by (cbn; now rewrite !lookup_alter_eq, Hconn).
  assert (Hch2 : chans tm2 = <[ch := []]> (chans tm)) by reflexivity.
  assert (Hrun : handleMessage tm2 p msg now msgID hbErr
                 = Some (log
                           (update_conn p (pending_delete requestID)
                              (set_chans (update_conn p (set_LastPing now) tm2)
                                 (<[ch := [msg]]> (<[ch := []]> (chans tm)))))
                           [EvPendingDelete p requestID])).
  { unfold handleMessage. rewrite Htype. unfold handleResponse.
    cbn [heap update_conn set_heap]. rewrite lookup_alter_eq, Hp2.
    cbn [fmap option_fmap option_map pendingReqs set_LastPing written pending_insert
         set_pendingReqs].
    rewrite Hid, lookup_insert_eq. cbn [chans update_conn set_heap].
    rewrite Hch2, lookup_insert_eq. reflexivity. }
  rewrite Hrun. cbn [default from_option id].
  unfold ForwardRequest_await. cbn [chans log set_chans update_conn set_heap].
  rewrite lookup_insert_eq.
  eexists _, _. split; [reflexivity|]. cbn [heap set_chans log update_conn set_heap].
  split; [|split; [|split; [|split]]].
  - rewrite !lookup_alter_eq, Hp2. reflexivity.
  - cbn. now apply delete_insert_id.
  - reflexivity.
  - cbn. apply lookup_insert_eq.
  - intros ch' Hne. cbn. now rewrite !lookup_insert_ne by congruence.
Qed.

(** X15: a response is delivered at most once. A response frame whose id is
    not pending on the session changes nothing; so a frame handled a second
    time changes nothing, and neither does a frame that arrives after the
    deadline has removed the slot of its request. *)
Theorem response_delivered_once (tm : TunnelManager) (p : loc) (msg : TunnelMessage) :
  (forall conn, heap tm !! p = Some conn -> pendingReqs conn !! Msg_ID msg = None ->
     handleResponse tm p msg = Some tm)
  /\ (forall tm1, handleResponse tm p msg = Some tm1 -> handleResponse tm1 p msg = Some tm1)
  /\ (forall responseChan elapsed tm1 result,
        ForwardRequest_await CanonicalMIMEHeaderKey tm p (Msg_ID msg) responseChan
          CaseTimeout elapsed = Some (tm1, result) ->
        handleResponse tm1 p msg = Some tm1).
Proof.
  split; [|split].
  - intros conn Hp Hnone. unfold handleResponse. now rewrite Hp, Hnone.
  - intros tm1 H. unfold handleResponse in H.
    destruct (heap tm !! p) as [conn|] eqn:Hp.
    + destruct (pendingReqs conn !! Msg_ID msg) as [ch|] eqn:Hpend.
      * destruct (chans tm !! ch) as [[|? ?]|]; try discriminate.
        injection H as <-. unfold handleResponse. cbn.
        rewrite lookup_alter_eq, Hp. cbn. now rewrite lookup_delete_eq.
      * injection H as <-. unfold handleResponse. now rewrite Hp, Hpend.
    + injection H as <-. unfold handleResponse. now rewrite Hp.
  - intros ch elapsed tm1 result H. unfold ForwardRequest_await in H.
    destruct (elapsed >=? 30 * Second); [|discriminate].
    injection H as <- _. unfold handleResponse. cbn. rewrite lookup_alter_eq.
    destruct (heap tm !! p) as [conn|]; [|reflexivity].
    cbn. now rewrite lookup_delete_eq.
Qed.

(** X16: a request for a subdomain that the subdomain index does not hold is
    answered 502 (not 404) with "no active tunnel for subdomain: ..."
    whatever else happens, and the manager is left exactly as it was. *)
Theorem unknown_subdomain_is_bad_gateway (baseDomain : string) (tm : TunnelManager)
  (c : FiberRequest) (requestID : string) (writeErr : option string)
  (env : TunnelManager -> TunnelManager) (sel : SelectCase) (elapsed responseTime : Z)
  (Hhost : extractSubdomain baseDomain (fc_Host c) <> ""%string)
  (Hunknown : subdomains tm !! extractSubdomain baseDomain (fc_Host c) = None) :
  ProxyHandler CanonicalMIMEHeaderKey baseDomain tm c None requestID writeErr env sel
    elapsed responseTime
  = Some (tm, jsonError 502 "Tunnel unavailable"
                (Some ("no active tunnel for subdomain: "
                       +:+ extractSubdomain baseDomain (fc_Host c)))).
Proof.
  unfold ProxyHandler. apply String.eqb_neq in Hhost. rewrite Hhost.
  cbn [fiberToHTTPRequest]. unfold ForwardRequest, ForwardRequest_send.
  now rewrite Hunknown.
Qed.

End WithCanonicalKeys.

Lemma response_reaches_caller_witness :
  exists tm',
    ForwardRequest (fun key => key) Scenario.tm_alice "alice-abcd1234"
      (mkHTTPRequest "GET" "/ping" "" ∅ (Some ""%string) 0) "req-1" None
      (fun tm1 => default tm1
         (handleMessage tm1 0%nat
            (mkTunnelMessage "req-1" MessageTypeResponse
               {[ "status_code"%string := JNumber (inject_Z 404) ]} ∅) 1 "hb" None))
      CaseResponse 0
    = Some (tm', OK (mkHTTPResponse 404 ∅ None)).
Proof.
  destruct (response_reaches_caller (fun key => key) Scenario.tm_alice "alice-abcd1234"
              (mkHTTPRequest "GET" "/ping" "" ∅ (Some ""%string) 0) "req-1" 0%nat
              (mkTunnelConnection "tunnel-1" "alice" "alice-abcd1234" 0 [] 0 0 ∅ false)
              (mkTunnelMessage "req-1" MessageTypeResponse
                 {[ "status_code"%string := JNumber (inject_Z 404) ]} ∅)
              1 "hb" None 0)
    as (tm' & conn' & Hrun & _).
  - vm_compute. reflexivity.
  - vm_compute. reflexivity.
  - reflexivity.
  - reflexivity.
  - reflexivity.
  - exists tm'. rewrite Hrun. f_equal.
Defined.

Lemma response_delivered_once_witness :
  handleResponse Scenario.tm_parked 0%nat Scenario.response_req1
  = Some Scenario.tm_delivered
  /\ chans Scenario.tm_parked !! 0%nat = Some []
  /\ chans Scenario.tm_delivered !! 0%nat = Some [Scenario.response_req1]
  /\ handleResponse Scenario.tm_delivered 0%nat Scenario.response_req1
     = Some Scenario.tm_delivered
  /\ ForwardRequest_await (fun key => key) Scenario.tm_parked 0%nat "req-1" 0%nat
       CaseTimeout (30 * Second)
     = Some (Scenario.tm_timed_out, Error "tunnel request timeout")
  /\ handleResponse Scenario.tm_timed_out 0%nat Scenario.response_req1
     = Some Scenario.tm_timed_out
  /\ handleResponse Scenario.tm_alice 0%nat Scenario.response_req1
     = Some Scenario.tm_alice.
Proof.
  assert (Hdelivered : handleResponse Scenario.tm_parked 0%nat Scenario.response_req1
                       = Some Scenario.tm_delivered) by (vm_compute; reflexivity).
  assert (Htimeout : ForwardRequest_await (fun key => key) Scenario.tm_parked 0%nat
                       (Msg_ID Scenario.response_req1) 0%nat CaseTimeout (30 * Second)
                     = Some (Scenario.tm_timed_out, Error "tunnel request timeout"))
    by (vm_compute; reflexivity).
  destruct (response_delivered_once (fun key => key) Scenario.tm_parked 0%nat
              Scenario.response_req1) as (_ & Hduplicate & Hlate).
  split; [exact Hdelivered|]. split; [vm_compute; reflexivity|].
  split; [vm_compute; reflexivity|].
  split; [exact (Hduplicate _ Hdelivered)|].
  split; [exact Htimeout|].
  split; [exact (Hlate _ _ _ _ Htimeout)|].
  apply (proj1 (response_delivered_once (fun key => key) Scenario.tm_alice 0%nat
                  Scenario.response_req1)
           (mkTunnelConnection "tunnel-1" "alice" "alice-abcd1234" 0 [] 0 0 ∅ false)).
  - vm_compute. reflexivity.
  - reflexivity.
Defined.

Lemma unknown_subdomain_is_bad_gateway_witness :
  ProxyHandler (fun key => key) "syntra.dev" Scenario.tm_alice
    (mkFiberRequest "GET" "nobody-00000000.syntra.dev" "/" "" [] "")
    None "req-1" None Scenario.agent_silent CaseResponse 0 0
  = Some (Scenario.tm_alice,
          jsonError 502 "Tunnel unavailable"
            (Some "no active tunnel for subdomain: nobody-00000000"%string)).
Proof.
  rewrite (unknown_subdomain_is_bad_gateway (fun key => key) "syntra.dev"
             Scenario.tm_alice
             (mkFiberRequest "GET" "nobody-00000000.syntra.dev" "/" "" [] "")
             "req-1" None Scenario.agent_silent CaseResponse 0 0).
  - reflexivity.
  - vm_compute. discriminate.
  - vm_compute. reflexivity.
Defined.

End DeliveryFacts.

(** ** Frames, subdomains and the session's tunnel record *)

Module SessionFacts.
Import GoStrings GoStringsFacts Tunnels.

Lemma substring_all (s : string) : substring 0 (String.length s) s = s.
Proof.
  rewrite <- (app_empty_r s) at 2. apply substring_prefix.
Qed.

Lemma readBody_all (content : string) : readBody (len content) content = content.
Proof.
  unfold readBody, len. rewrite Nat2Z.id, substring_all, Nat.sub_diag.
  cbn [repeat string_of_list_ascii]. apply app_empty_r.
Qed.

Section WithCanonicalKeys.
Variable CanonicalMIMEHeaderKey : string -> string.

(** The values [http.Header.Add] has collected under a key. *)
Lemma added_headers (headers : list (string * string)) (key : string) :
  foldl (λ header (kv : string * string),
           <[CanonicalMIMEHeaderKey kv.1 :=
               default [] (header !! CanonicalMIMEHeaderKey kv.1) ++ [kv.2]]> header)
    (∅ : gmap string (list string)) headers !! key
  = match (filter (λ kv : string * string, CanonicalMIMEHeaderKey kv.1 = key) headers).*2 with
    | [] => None
    | values => Some values
    end.
Proof.
  induction headers as [|[k v] headers IH] using rev_ind; [apply lookup_empty|].
  rewrite foldl_snoc, filter_app, fmap_app. cbn [fst snd].
  destruct (decide (CanonicalMIMEHeaderKey k = key)) as [<-|Hne].
  - rewrite lookup_insert_eq, IH, filter_cons_True by reflexivity.
    cbn [fmap list_fmap filter list_filter snd].
    destruct ((filter _ headers).*2) as [|x xs]; reflexivity.
  - rewrite lookup_insert_ne by exact Hne. rewrite IH, filter_cons_False by exact Hne.
    rewrite filter_nil, fmap_nil, app_nil_r. reflexivity.
Qed.

(** X17: the request frame built for a public request carries the given
    correlation id, the type "request", the method of the request, the path
    and the raw query of the URL of the [*http.Request] that
    [http.NewRequest] built (the path as that parse gives it, with its
    percent escapes decoded, not the text the client sent), the whole request
    body as a string, and for every canonical header name the first value
    the request has for it. *)
Theorem request_frame_carries_request (c : FiberRequest) (requestID : string)
  (req : HTTPRequest)
  (Hreq : fiberToHTTPRequest CanonicalMIMEHeaderKey c None = OK req) :
  Msg_ID (requestFrame requestID req) = requestID
  /\ Msg_Type (requestFrame requestID req) = MessageTypeRequest
  /\ Msg_Data (requestFrame requestID req) !! "method"%string = Some (JString (fc_Method c))
  /\ Msg_Data (requestFrame requestID req) !! "path"%string = Some (JString (URL_Path req))
  /\ Msg_Data (requestFrame requestID req) !! "query"%string
     = Some (JString (URL_RawQuery req))
  /\ Msg_Data (requestFrame requestID req) !! "body"%string = Some (JString (fc_Body c))
  /\ forall key,
       Msg_Headers (requestFrame requestID req) !! key
       = head (filter (λ kv : string * string, CanonicalMIMEHeaderKey kv.1 = key)
                 (fc_Headers c)).*2.
Proof.
  injection Hreq as <-. unfold requestFrame.
  cbn [Msg_ID Msg_Type Msg_Data Msg_Headers Req_Body ContentLength Method URL_Path
       URL_RawQuery Req_Header].
  rewrite readBody_all.
  split; [reflexivity|]. split; [reflexivity|].
  split; [now rewrite lookup_insert_ne, lookup_insert_eq by discriminate|].
  split; [now rewrite !lookup_insert_ne, lookup_insert_eq by discriminate|].
  split; [now rewrite !lookup_insert_ne, lookup_insert_eq by discriminate|].
  split; [apply lookup_insert_eq|].
  intros key. rewrite lookup_omap, added_headers.
  destruct ((filter _ (fc_Headers c)).*2); reflexivity.
Qed.

End WithCanonicalKeys.

Lemma request_frame_carries_request_witness :
  Msg_Data (requestFrame "req-1"
              (mkHTTPRequest "POST" "/ping" ""
                 {[ "Content-Type"%string := ["text/plain"%string] ]}
                 (Some "pong"%string) 4)) !! "body"%string
  = Some (JString "pong").
Proof.
  destruct (request_frame_carries_request (fun key => key) Scenario.request_pong "req-1"
              (mkHTTPRequest "POST" "/ping" ""
                 {[ "Content-Type"%string := ["text/plain"%string] ]}
                 (Some "pong"%string) 4))
    as (_ & _ & _ & _ & _ & Hbody & _).
  - vm_compute. reflexivity.
  - exact Hbody.
Defined.

Lemma substring_length (n : nat) (s : string) :
  (n <= String.length s)%nat -> String.length (substring 0 n s) = n.
Proof.
  revert s. induction n as [|n IH]; intros s Hn.
  - now rewrite substring_0_0.
  - destruct s as [|a s]; cbn [String.length] in Hn; [lia|].
    cbn [substring String.length]. rewrite IH; [reflexivity | lia].
Qed.

(** X18: the subdomain generated for a user is the user id, a dash and the
    first eight characters of the UUID; two generated subdomains (from UUIDs
    of at least eight characters) are equal only if the user ids are equal
    and the UUIDs start with the same eight characters, so sessions of
    different users never share a subdomain. *)
Theorem generateSubdomain_separates_users (user1 user2 uuid1 uuid2 : string)
  (Hlen1 : (8 <= String.length uuid1)%nat)
  (Hlen2 : (8 <= String.length uuid2)%nat) :
  String.length (generateSubdomain user1 uuid1) = (String.length user1 + 9)%nat
  /\ (generateSubdomain user1 uuid1 = generateSubdomain user2 uuid2 ->
      user1 = user2 /\ slice uuid1 0 8 = slice uuid2 0 8).
Proof.
  unfold generateSubdomain, slice. rewrite Nat.sub_0_r.
  pose proof (substring_length 8 uuid1 Hlen1) as H1.
  pose proof (substring_length 8 uuid2 Hlen2) as H2.
  split.
  - rewrite !length_app, H1. cbn [String.length]. lia.
  - intros Heq.
    assert (Hl : String.length user1 = String.length user2).
    { apply (f_equal String.length) in Heq. rewrite !length_app, H1, H2 in Heq. lia. }
    assert (Hu : user1 = user2).
    { rewrite <- (substring_prefix user1 ("-" +:+ substring 0 8 uuid1)).
      rewrite Heq, Hl. apply substring_prefix. }
    split; [exact Hu|]. subst user2.
    apply String.app_inj in Heq. now injection Heq.
Qed.

Lemma generateSubdomain_separates_users_witness :
  String.length (generateSubdomain "alice" "abcd1234-5678-4abc-9def-0123456789ab")
  = 14%nat.
Proof.
  apply (proj1 (generateSubdomain_separates_users "alice" "alice"
                  "abcd1234-5678-4abc-9def-0123456789ab"
                  "abcd1234-5678-4abc-9def-0123456789ab"
                  ltac:(vm_compute; lia) ltac:(vm_compute; lia))).
Defined.

(** X19: unregistering is idempotent (a second call for the same id changes
    nothing, as does a call for an id that is not registered), and when the
    store holds a tunnel under the id of a registered session, unregistering
    sets that tunnel's status to terminated. *)
Theorem unregister_idempotent (tm : TunnelManager) (connID : string) (now now' : Z) :
  unregisterConnection (unregisterConnection tm connID now) connID now'
  = unregisterConnection tm connID now
  /\ (connections tm !! connID = None -> unregisterConnection tm connID now = tm)
  /\ (forall p conn t,
        connections tm !! connID = Some p -> heap tm !! p = Some conn ->
        tunnels (store tm) !! connID = Some t ->
        exists t', tunnels (store (unregisterConnection tm connID now)) !! connID = Some t'
                   /\ Tunnel_Status t' = TunnelStatusTerminated
                   /\ Tunnel_UserID t' = Tunnel_UserID t).
Proof.
  split; [|split].
  - unfold unregisterConnection at 2 3.
    destruct (connections tm !! connID) as [p|] eqn:Hid.
    + destruct (heap tm !! p) as [conn|] eqn:Hp.
      * unfold unregisterConnection. cbn [connections set_store set_indices].
        now rewrite lookup_delete_eq.
      * unfold unregisterConnection. now rewrite Hid, Hp.
    + unfold unregisterConnection. now rewrite Hid.
  - intros Hnone. unfold unregisterConnection. now rewrite Hnone.
  - intros p conn t Hid Hp Ht. unfold unregisterConnection, Store.UpdateTunnelStatus.
    rewrite Hid, Hp, Ht. cbn. eexists. rewrite lookup_insert_eq.
    split; [reflexivity|]. now split.
Qed.

Lemma unregister_idempotent_witness :
  exists t',
    tunnels (store (unregisterConnection Scenario.tm_alice "tunnel-1" Second))
      !! "tunnel-1"%string = Some t'
    /\ Tunnel_Status t' = TunnelStatusTerminated.
Proof.
  destruct (unregister_idempotent Scenario.tm_alice "tunnel-1" Second Second)
    as (_ & _ & Hstore).
  destruct (Hstore 0%nat
              (mkTunnelConnection "tunnel-1" "alice" "alice-abcd1234" 0 [] 0 0 ∅ false)
              (mkTunnel "tunnel-1" "alice" 0 "https://alice-abcd1234.syntra.dev"
                 TunnelStatusActive 0 0 (24 * Hour) (Some emptyAnalytics)))
    as (t' & Ht' & Hstatus & _).
  - vm_compute. reflexivity.
  - vm_compute. reflexivity.
  - vm_compute. reflexivity.
  - exists t'. now split.
Defined.

(** X20: a session opened under a tunnel id that the store does not hold
    yet puts an active tunnel of that user into the store, so the user's
    count of active tunnels (which the creation cap is compared with) grows
    by one; unregistering the session takes the count back to what it
    was. *)
Theorem session_counts_toward_cap (tm : TunnelManager) (userID tunnelID uuid : string)
  (now now' : Z)
  (Hnew : tunnels (store tm) !! tunnelID = None) :
  let tm1 := (HandleWebSocket_open tm userID tunnelID uuid now).1 in
  (exists t, tunnels (store tm1) !! tunnelID = Some t
             /\ Tunnel_Status t = TunnelStatusActive /\ Tunnel_UserID t = userID)
  /\ size (Store.active_of userID (store tm1)) = S (size (Store.active_of userID (store tm)))
  /\ size (Store.active_of userID (store (unregisterConnection tm1 tunnelID now')))
     = size (Store.active_of userID (store tm)).
Proof.
  cbn zeta. unfold HandleWebSocket_open. cbn [fst].
  set (p := fresh (dom (heap tm))).
  set (conn := mkTunnelConnection tunnelID userID _ 0 [] now now ∅ false).
  set (t := mkTunnel tunnelID userID 0 (publicURL (Conn_Subdomain conn)) TunnelStatusActive
              now now (now + 24 * Hour) (Some emptyAnalytics)).
  assert (Hreg : registerConnection (set_heap tm (<[p := conn]> (heap tm))) p now
                 = set_store
                     (set_indices (set_heap tm (<[p := conn]> (heap tm)))
                        (<[tunnelID := p]> (connections tm))
                        (<[Conn_Subdomain conn := p]> (subdomains tm)))
                     (mkMemoryStore (<[tunnelID := t]> (tunnels (store tm))))).
  { unfold registerConnection. cbn [heap set_heap]. rewrite lookup_insert_eq.
    unfold Store.CreateTunnel. cbn [Tunnel_ID store set_heap Conn_ID conn]. now rewrite Hnew. }
  rewrite Hreg. cbn [store set_store tunnels].
  assert (Hfilter : filter (λ kv : string * Tunnel,
                              Tunnel_UserID kv.2 = userID
                              ∧ Tunnel_Status kv.2 = TunnelStatusActive)
                      (tunnels (store tm)) !! tunnelID = None)
    by (apply map_lookup_filter_None; now left).
  split; [|split].
  - exists t. rewrite lookup_insert_eq. now repeat split.
  - unfold Store.active_of. cbn [tunnels].
    rewrite map_filter_insert_True by now split.
    now apply map_size_insert_None.
  - unfold unregisterConnection. cbn [connections set_store set_indices heap set_heap].
    rewrite !lookup_insert_eq. cbn [store set_store update_conn set_indices set_heap].
    unfold Store.UpdateTunnelStatus. cbn [tunnels]. rewrite lookup_insert_eq.
    cbn [fst]. unfold Store.active_of. cbn [tunnels].
    rewrite insert_insert_eq, map_filter_insert_False by (cbn; intros [_ ?]; discriminate).
    rewrite delete_id by exact Hnew. reflexivity.
Qed.

Lemma session_counts_toward_cap_witness :
  size (Store.active_of "alice" (store Scenario.tm_alice)) = 1%nat.
Proof.
  destruct (session_counts_toward_cap (NewTunnelManager NewMemoryStore) "alice"
              "tunnel-1" "abcd1234-5678-4abc-9def-0123456789ab" 0 0)
    as (_ & Hsize & _).
  - reflexivity.
  - exact Hsize.
Defined.

End SessionFacts.

(** ** More on the tester *)

Module TesterSuiteFacts.
Import GoStrings GoStringsFacts Tester TesterFacts TesterSuite.

Lemma occurs_length (sub text : string) :
  occurs_in sub text -> (String.length sub <= String.length text)%nat.
Proof. intros (pre & post & ->). rewrite !length_app. lia. Qed.

Lemma occurs_same_length (sub text : string) :
  occurs_in sub text -> String.length sub = String.length text -> text = sub.
Proof.
  intros (pre & post & ->) Hlen. rewrite !length_app in Hlen.
  destruct pre; [|cbn [String.length] in Hlen; lia].
  destruct post; [|cbn [String.length] in Hlen; lia].
  rewrite app_empty_l. apply app_empty_r.
Qed.

Lemma contains_iff (text sub : string) :
  contains text sub = true <-> sub <> ""%string /\ occurs_in sub text.
Proof.
  unfold contains. split.
  - intros H. apply andb_prop in H as [H Hbody]. apply andb_prop in H as [_ Hsub].
    assert (Hne : sub <> ""%string).
    { intros ->. vm_compute in Hsub. discriminate. }
    split; [exact Hne|].
    apply orb_prop in Hbody as [Heq|Hfind].
    + apply String.eqb_eq in Heq as ->. exists ""%string, ""%string.
      now rewrite app_empty_l, app_empty_r.
    + apply andb_prop in Hfind as [_ Hfind]. now apply findSubstring_occurs.
  - intros [Hne Hocc]. pose proof (occurs_length _ _ Hocc) as Hle.
    assert (Htext : text <> ""%string).
    { intros ->. destruct sub; [congruence | cbn [String.length] in Hle; lia]. }
    rewrite (len_pos _ Htext), (len_pos _ Hne). cbn [andb].
    destruct (String.eqb_spec text sub) as [_|Hdiff]; [reflexivity|]. cbn [orb].
    apply andb_true_intro. split.
    + apply Z.gtb_lt. unfold len.
      destruct (Nat.eq_dec (String.length sub) (String.length text)) as [Heq|Hneq].
      * now destruct Hdiff; apply occurs_same_length.
      * lia.
    + now apply findSubstring_occurs.
Qed.

(** X21: [contains text sub] holds exactly when [sub] is not empty and
    occurs in [text]; in particular it never holds for an empty [sub], for an
    empty [text], or for a [text] shorter than [sub]. *)
Theorem contains_is_nonempty_substring (text sub : string) :
  (contains text sub = true <-> sub <> ""%string /\ occurs_in sub text)
  /\ contains text "" = false
  /\ contains "" sub = false
  /\ ((String.length text < String.length sub)%nat -> contains text sub = false).
Proof.
  split; [apply contains_iff|]. split; [|split].
  - unfold contains. now rewrite andb_false_r.
  - reflexivity.
  - intros Hlt. destruct (contains text sub) eqn:E; [|reflexivity].
    apply contains_iff in E as [_ Hocc]. apply occurs_length in Hocc. lia.
Qed.

Lemma contains_is_nonempty_substring_witness :
  contains "ok" "status: ok" = false.
Proof.
  apply (proj2 (proj2 (proj2 (contains_is_nonempty_substring "ok" "status: ok")))).
  vm_compute. lia.
Defined.

(** X22: a test result is valid exactly when its status code is the
    expected one, every expected header is among the result's headers with
    the same value, and every expected fragment is a non-empty string that
    occurs in the body; so an empty expected fragment makes every result
    invalid. *)
Theorem validateTestResult_spec (result : TestResult) (expected : ExpectedResult) :
  (validateTestResult result expected = true
   <-> res_StatusCode result = exp_StatusCode expected
       /\ exp_Headers expected ⊆ res_Headers result
       /\ Forall (λ fragment, fragment <> ""%string /\ occurs_in fragment (res_Body result))
            (exp_BodyContains expected))
  /\ (""%string ∈ exp_BodyContains expected -> validateTestResult result expected = false).
Proof.
  assert (Hiff : validateTestResult result expected = true
     <-> res_StatusCode result = exp_StatusCode expected
         /\ exp_Headers expected ⊆ res_Headers result
         /\ Forall (λ fragment, fragment <> ""%string /\ occurs_in fragment (res_Body result))
              (exp_BodyContains expected)).
  { unfold validateTestResult.
    destruct (Z.eqb_spec (res_StatusCode result) (exp_StatusCode expected)) as [Hs|Hs];
      cbn [negb]; [|split; [discriminate | tauto]].
    assert (Hh : forallb
                   (λ kv : string * string,
                      match res_Headers result !! kv.1 with
                      | Some actualValue => String.eqb actualValue kv.2
                      | None => false
                      end) (map_to_list (exp_Headers expected)) = true
                 <-> exp_Headers expected ⊆ res_Headers result).
    { rewrite forallb_forall, map_subseteq_spec. split.
      - intros H k v Hk. specialize (H (k, v)). cbn [fst snd] in H.
        destruct (res_Headers result !! k) as [a|].
        + f_equal. apply String.eqb_eq, H. now apply list_elem_of_In, elem_of_map_to_list.
        + discriminate H. now apply list_elem_of_In, elem_of_map_to_list.
      - intros H [k v] Hin. apply list_elem_of_In, elem_of_map_to_list in Hin.
        cbn [fst snd]. rewrite (H k v Hin). apply String.eqb_refl. }
    assert (Hb : forallb (contains (res_Body result)) (exp_BodyContains expected) = true
                 <-> Forall (λ fragment, fragment <> ""%string
                                         /\ occurs_in fragment (res_Body result))
                       (exp_BodyContains expected)).
    { rewrite forallb_forall, Forall_forall. split.
      - intros H x Hx. apply contains_iff, H. now apply list_elem_of_In.
      - intros H x Hx. apply contains_iff, H. now apply list_elem_of_In. }
    destruct (forallb _ (map_to_list (exp_Headers expected))); cbn [negb].
    - rewrite Hb. split; [intros ?; repeat split; [assumption | now apply Hh | assumption]
                         | now intros (_ & _ & ?)].
    - split; [discriminate|]. intros (_ & Hsub & _). apply Hh in Hsub. discriminate. }
  split; [exact Hiff|].
  intros Hin. apply not_true_is_false. intros E.
  apply Hiff in E as (_ & _ & Hall). rewrite Forall_forall in Hall.
  now destruct (Hall _ Hin).
Qed.

Lemma validateTestResult_spec_witness :
  validateTestResult
    (mkTestResult "health-check" false 200 5 ∅ "pong" "" 0)
    (mkExpectedResult 200 ∅ ["pong"; ""]%string)
  = false.
Proof.
  apply (proj2 (validateTestResult_spec
                  (mkTestResult "health-check" false 200 5 ∅ "pong" "" 0)
                  (mkExpectedResult 200 ∅ ["pong"; ""]%string))).
  cbn. right. left.
Defined.

Lemma executeTestCase_id (testCase : TestCase) (now : Z) (exchange : Exchange) :
  TestCaseID (executeTestCase testCase now exchange) = tc_ID testCase.
Proof. now destruct exchange. Qed.

Lemma run_ids (exchanges : nat -> Z * Exchange) (cases : list TestCase) :
  TestCaseID <$> imap (λ i testCase,
                         executeTestCase testCase (exchanges i).1 (exchanges i).2) cases
  = tc_ID <$> cases.
Proof.
  revert exchanges. induction cases as [|tc cases IH]; intros exchanges; [reflexivity|].
  cbn [imap fmap list_fmap]. rewrite executeTestCase_id. f_equal.
  apply (IH (λ i, exchanges (S i))).
Qed.

Lemma passed_cons (r : TestResult) (results : list TestResult) :
  passed (r :: results) = (if Success r then 1 else 0) + passed results.
Proof.
  unfold passed. rewrite filter_cons.
  destruct (Success r); [rewrite decide_True by reflexivity
                        | rewrite decide_False by discriminate];
    cbn [length]; lia.
Qed.

Lemma tally_fold (results : list TestResult) (e : TestExecution) :
  0 <= PassedTests e -> 0 <= FailedTests e ->
  PassedTests e + FailedTests e + Z.of_nat (length results) < 2 ^ 63 ->
  Results (foldl tally e results) = Results e ++ results
  /\ PassedTests (foldl tally e results) = PassedTests e + passed results
  /\ FailedTests (foldl tally e results)
     = FailedTests e + (Z.of_nat (length results) - passed results)
  /\ exec_ID (foldl tally e results) = exec_ID e
  /\ SuiteID (foldl tally e results) = SuiteID e
  /\ TunnelID (foldl tally e results) = TunnelID e
  /\ StartTime (foldl tally e results) = StartTime e
  /\ TotalTests (foldl tally e results) = TotalTests e.
Proof.
  revert e. induction results as [|r results IH]; intros e HP HF Hbound.
  - unfold passed. cbn. rewrite app_nil_r. repeat split; lia.
  - cbn [foldl length] in *.
    assert (Hpr : 0 <= passed results <= Z.of_nat (length results)).
    { unfold passed. pose proof (length_filter (λ r, Success r = true) results). lia. }
    destruct (IH (tally e r)) as (HR & HPs & HFs & H1 & H2 & H3 & H4 & H5).
    + cbn. destruct (Success r); [rewrite AnalyticsFacts.wrap64_small|]; lia.
    + cbn. destruct (Success r); [|rewrite AnalyticsFacts.wrap64_small]; lia.
    + cbn. destruct (Success r); rewrite AnalyticsFacts.wrap64_small; lia.
    + rewrite HR, HPs, HFs, H1, H2, H3, H4, H5, passed_cons.
      cbn [tally Results PassedTests FailedTests exec_ID SuiteID TunnelID StartTime
           TotalTests].
      rewrite <- List.app_assoc. cbn [app]. split; [reflexivity|].
      destruct (Success r); rewrite AnalyticsFacts.wrap64_small by lia;
        repeat split; lia.
Qed.

(** X23: running a stored suite (of fewer than 2^63 test cases) returns a
    completed execution that the store then holds under its id: it has one
    result per test case, in order and with the test case's id, its total is
    the number of test cases, its passed count is the number of successful
    results, and passed plus failed is the total. Running a suite that is
    not stored fails and leaves the store unchanged. *)
Theorem suite_run_tallies (ms : MemoryStore) (suiteID tunnelURL executionID : string)
  (startTime endTime : Z) (exchanges : nat -> Z * Exchange) :
  (forall suite,
     testSuites ms !! suiteID = Some suite ->
     Z.of_nat (length (TestCases suite)) < 2 ^ 63 ->
     exists e,
       ExecuteTestSuite ms suiteID tunnelURL executionID startTime endTime exchanges
       = (mkMemoryStore (testSuites ms) (<[executionID := e]> (executions ms)), OK e)
       /\ GetTestExecution
            (ExecuteTestSuite ms suiteID tunnelURL executionID startTime endTime
               exchanges).1 executionID = OK e
       /\ exec_Status e = StatusCompleted
       /\ length (Results e) = length (TestCases suite)
       /\ TestCaseID <$> Results e = tc_ID <$> TestCases suite
       /\ TotalTests e = Z.of_nat (length (TestCases suite))
       /\ PassedTests e = passed (Results e)
       /\ PassedTests e + FailedTests e = TotalTests e)
  /\ (testSuites ms !! suiteID = None ->
      ExecuteTestSuite ms suiteID tunnelURL executionID startTime endTime exchanges
      = (ms, Error ("failed to get test suite: test suite with ID " +:+ suiteID
                    +:+ " not found"))).
Proof.
  split.
  - intros suite Hsuite Hlen. unfold ExecuteTestSuite, GetTestSuite. rewrite Hsuite.
    set (results := imap _ (TestCases suite)).
    set (e0 := mkTestExecution executionID suiteID _ StatusRunning [] startTime 0 0 0 0 _).
    assert (Hrl : length results = length (TestCases suite)) by apply length_imap.
    destruct (tally_fold results e0) as (HR & HP & HF & H1 & _ & _ & _ & H5);
      [cbn; lia | cbn; lia | cbn; lia |].
    unfold UpdateTestExecution, SaveTestExecution.
    cbn [exec_ID executions testSuites]. rewrite H1. cbn [exec_ID e0].
    rewrite lookup_insert_eq, insert_insert_eq.
    eexists. split; [reflexivity|]. cbn [fst].
    unfold GetTestExecution. cbn [executions]. rewrite lookup_insert_eq.
    split; [reflexivity|]. cbn [exec_Status Results TotalTests PassedTests FailedTests].
    rewrite HR, HP, HF, H5. cbn [Results PassedTests FailedTests TotalTests e0 app].
    split; [reflexivity|]. split; [exact Hrl|]. split; [apply run_ids|].
    split; [reflexivity|]. split; lia.
  - intros Hnone. unfold ExecuteTestSuite, GetTestSuite. now rewrite Hnone.
Qed.

Lemma suite_run_tallies_witness :
  (exists e,
     (ExecuteTestSuite store_demo "suite-1" "https://t.syntra.dev" "exec_1" 0 9
        exchanges_demo).2 = OK e
     /\ GetTestExecution
          (ExecuteTestSuite store_demo "suite-1" "https://t.syntra.dev" "exec_1" 0 9
             exchanges_demo).1 "exec_1" = OK e
     /\ exec_Status e = StatusCompleted
     /\ TestCaseID <$> Results e = ["case-1"; "case-2"]%string
     /\ Success <$> Results e = [true; false]
     /\ TotalTests e = 2 /\ PassedTests e = 1 /\ FailedTests e = 1)
  /\ ExecuteTestSuite store_demo "suite-2" "https://t.syntra.dev" "exec_2" 0 9
       exchanges_demo
     = (store_demo,
        Error "failed to get test suite: test suite with ID suite-2 not found").
Proof.
  split.
  - destruct (proj1 (suite_run_tallies store_demo "suite-1" "https://t.syntra.dev" "exec_1"
                       0 9 exchanges_demo) suite_demo)
      as (e & Hrun & Hget & Hstatus & _ & Hids & Htotal & Hpassed & Hsum).
    + vm_compute. reflexivity.
    + vm_compute. reflexivity.
    + assert (Hsuccess : Success <$> Results e = [true; false]).
      { assert (He : (ExecuteTestSuite store_demo "suite-1" "https://t.syntra.dev" "exec_1"
                        0 9 exchanges_demo).2 = OK e) by now rewrite Hrun.
        vm_compute in He. injection He as <-. reflexivity. }
      assert (Hone : PassedTests e = 1).
      { rewrite Hpassed. unfold passed.
        destruct (Results e) as [|r1 [|r2 [|r3 rest]]]; try discriminate.
        injection Hsuccess as H1 H2.
        rewrite filter_cons_True by exact H1.
        rewrite filter_cons_False by (rewrite H2; discriminate). reflexivity. }
      exists e. split; [now rewrite Hrun|]. split; [exact Hget|].
      split; [exact Hstatus|]. split; [exact Hids|]. split; [exact Hsuccess|].
      split; [exact Htotal|]. split; [exact Hone|]. cbn in Htotal. lia.
  - apply (proj2 (suite_run_tallies store_demo "suite-2" "https://t.syntra.dev" "exec_2"
                    0 9 exchanges_demo)).
    vm_compute. reflexivity.
Defined.

End TesterSuiteFacts.

(** ** The session's life: handshake, heartbeats, reply headers *)

Module LifecycleFacts.
Import GoStrings GoStringsFacts Tunnels.

Lemma no_byte_app (c : ascii) (s t : string) :
  no_byte c s -> no_byte c t -> no_byte c (s +:+ t).
Proof.
  intros Hs Ht. induction s as [|a s IH]; [exact Ht|].
  rewrite app_cons. cbn [no_byte] in *. destruct Hs as [Ha Hs]. split; [exact Ha | now apply IH].
Qed.

Lemma generated_not_base (userID uuid : string) :
  (8 <= String.length uuid)%nat ->
  generateSubdomain userID uuid <> ""%string
  /\ generateSubdomain userID uuid <> "syntra.dev"%string.
Proof.
  intros Hlen. unfold generateSubdomain, slice. rewrite Nat.sub_0_r.
  pose proof (SessionFacts.substring_length 8 uuid Hlen) as H8.
  split; intros H; apply (f_equal String.length) in H as Hl;
    rewrite !length_app, H8 in Hl; cbn [String.length] in Hl; [lia|].
  destruct userID as [|a [|b userID]]; cbn [String.length] in Hl; try lia.
  rewrite app_cons, app_empty_l in H. discriminate H.
Qed.

Lemma open_state (tm : TunnelManager) (userID tunnelID uuid : string) (now : Z) :
  let r := HandleWebSocket_open tm userID tunnelID uuid now in
  heap r.1 !! r.2
  = Some (mkTunnelConnection tunnelID userID (generateSubdomain userID uuid) 0 []
            now now ∅ false)
  /\ connections r.1 !! tunnelID = Some r.2
  /\ subdomains r.1 !! generateSubdomain userID uuid = Some r.2.
Proof.
  cbn zeta. unfold HandleWebSocket_open. cbn [fst snd].
  unfold registerConnection. cbn [heap set_heap]. rewrite lookup_insert_eq.
  cbn. now rewrite !lookup_insert_eq.
Qed.

(** X24: after a session is opened and its handshake written, the last frame
    on the socket is a handshake naming the tunnel id, the subdomain and the
    public URL https://<subdomain>.syntra.dev; for a user id and UUID without
    a colon, the host of that URL is mapped back to the session's subdomain
    by the reverse proxy of base domain syntra.dev, where the subdomain
    index holds the session. When the handshake write fails, the session is
    unregistered again. *)
Theorem advertised_url_routes_back (tm : TunnelManager) (userID tunnelID uuid : string)
  (now : Z) (msgID err : string)
  (Huser : no_byte ":" userID)
  (Huuid : no_byte ":" (slice uuid 0 8))
  (Hlen : (8 <= String.length uuid)%nat) :
  let r := HandleWebSocket_open tm userID tunnelID uuid now in
  let subdomain := generateSubdomain userID uuid in
  let host := subdomain +:+ ".syntra.dev" in
  (exists conn frame,
     heap (HandleWebSocket_handshake r.1 r.2 msgID None now) !! r.2 = Some conn
     /\ last (Conn_sent conn) = Some frame
     /\ Msg_Type frame = MessageTypeHandshake
     /\ Msg_Data frame !! "tunnel_id"%string = Some (JString tunnelID)
     /\ Msg_Data frame !! "subdomain"%string = Some (JString subdomain)
     /\ Msg_Data frame !! "public_url"%string = Some (JString ("https://" +:+ host)))
  /\ extractSubdomain "syntra.dev" host = subdomain
  /\ subdomains (HandleWebSocket_handshake r.1 r.2 msgID None now)
       !! extractSubdomain "syntra.dev" host = Some r.2
  /\ connections (HandleWebSocket_handshake r.1 r.2 msgID (Some err) now) !! tunnelID = None
  /\ subdomains (HandleWebSocket_handshake r.1 r.2 msgID (Some err) now) !! subdomain = None.
Proof.
  cbn zeta. destruct (open_state tm userID tunnelID uuid now) as (Hp & Hid & Hsub).
  destruct (HandleWebSocket_open tm userID tunnelID uuid now) as [tm1 p].
  cbn [fst snd] in *.
  set (conn0 := mkTunnelConnection tunnelID userID _ 0 [] now now ∅ false) in *.
  assert (Hextract : extractSubdomain "syntra.dev"
                       (generateSubdomain userID uuid +:+ ".syntra.dev")
                     = generateSubdomain userID uuid).
  { destruct (generated_not_base userID uuid Hlen) as [Hne Hbase].
    rewrite (ExtractFacts.extract_label "syntra.dev" _ (generateSubdomain userID uuid)).
    - apply String.eqb_neq in Hne, Hbase. now rewrite Hne, Hbase.
    - apply ExtractFacts.stripPort_no_colon.
      unfold generateSubdomain. repeat apply no_byte_app; try assumption;
        cbn; repeat split; discriminate. }
  split; [|split; [exact Hextract|split; [|split]]].
  - unfold HandleWebSocket_handshake. rewrite Hp. cbn [WriteJSON].
    eexists _, _.
    split; [cbn [heap log update_conn set_heap]; now rewrite lookup_alter_eq, Hp|].
    cbn [written Conn_sent conn0 app]. split; [reflexivity|].
    split; [reflexivity|]. cbn [handshake Msg_Data Conn_ID Conn_Subdomain conn0].
    split; [apply lookup_insert_eq|].
    split; [now rewrite lookup_insert_ne, lookup_insert_eq by discriminate|].
    now rewrite !lookup_insert_ne, lookup_insert_eq by discriminate.
  - rewrite Hextract. unfold HandleWebSocket_handshake. now rewrite Hp.
  - unfold HandleWebSocket_handshake. rewrite Hp. cbn [WriteJSON Conn_ID conn0].
    unfold unregisterConnection. cbn [connections log heap]. rewrite Hid, Hp.
    cbn. apply lookup_delete_eq.
  - unfold HandleWebSocket_handshake. rewrite Hp. cbn [WriteJSON Conn_ID conn0].
    unfold unregisterConnection. cbn [connections log heap]. rewrite Hid, Hp.
    cbn. apply lookup_delete_eq.
Qed.

Lemma advertised_url_routes_back_witness :
  extractSubdomain "syntra.dev" "alice-abcd1234.syntra.dev" = "alice-abcd1234"%string.
Proof.
  destruct (advertised_url_routes_back (NewTunnelManager NewMemoryStore) "alice"
              "tunnel-1" "abcd1234-5678-4abc-9def-0123456789ab" 0 "hs-1" "closed")
    as (_ & Hextract & _).
  - simpl. repeat split; discriminate.
  - vm_compute. repeat split; discriminate.
  - vm_compute. lia.
  - exact Hextract.
Defined.

(** X25: at a heartbeat tick, a registered session that has been silent for
    more than 60 seconds is torn down (both lookups fail afterwards and the
    session is cancelled), while a session that has not gets a heartbeat
    frame written to its socket and stays registered with its pending table
    untouched. *)
Theorem heartbeat_tick_outcomes (tm : TunnelManager) (p : loc) (conn : TunnelConnection)
  (now : Z) (msgID : string)
  (Hreg : connections tm !! Conn_ID conn = Some p)
  (Hp : heap tm !! p = Some conn) :
  (now - LastPing conn > 60 * Second ->
   forall writeErr,
     connections (heartbeatLoop_tick tm p now msgID writeErr) !! Conn_ID conn = None
     /\ subdomains (heartbeatLoop_tick tm p now msgID writeErr) !! Conn_Subdomain conn = None
     /\ exists conn', heap (heartbeatLoop_tick tm p now msgID writeErr) !! p = Some conn'
                      /\ cancelled conn' = true)
  /\ (now - LastPing conn <= 60 * Second ->
      connections (heartbeatLoop_tick tm p now msgID None) = connections tm
      /\ subdomains (heartbeatLoop_tick tm p now msgID None) = subdomains tm
      /\ exists conn' frame,
           heap (heartbeatLoop_tick tm p now msgID None) !! p = Some conn'
           /\ Conn_sent conn' = Conn_sent conn ++ [frame]
           /\ Msg_Type frame = MessageTypeHeartbeat
           /\ pendingReqs conn' = pendingReqs conn
           /\ LastPing conn' = LastPing conn).
Proof.
  split.
  - intros Hsilent writeErr. unfold heartbeatLoop_tick. rewrite Hp.
    destruct (Z.gtb_spec (now - LastPing conn) (60 * Second)); [|lia].
    destruct (RegistryFacts.unregister_lookup tm (Conn_ID conn) now p conn Hreg Hp)
      as (H1 & H2 & H3 & _).
    split; [exact H1|]. split; [exact H2|]. exists (cancel conn). now split.
  - intros Hlive. unfold heartbeatLoop_tick. rewrite Hp.
    destruct (Z.gtb_spec (now - LastPing conn) (60 * Second)); [lia|].
    cbn [WriteJSON]. split; [reflexivity|]. split; [reflexivity|].
    eexists _, _. split; [cbn; now rewrite lookup_alter_eq, Hp|]. now repeat split.
Qed.

Lemma heartbeat_tick_outcomes_witness :
  connections (heartbeatLoop_tick Scenario.tm_alice 0%nat (61 * Second) "hb-1" None)
    !! "tunnel-1"%string = None.
Proof.
  destruct (heartbeat_tick_outcomes Scenario.tm_alice 0%nat
              (mkTunnelConnection "tunnel-1" "alice" "alice-abcd1234" 0 [] 0 0 ∅ false)
              (61 * Second) "hb-1") as [Hsilent _].
  - vm_compute. reflexivity.
  - vm_compute. reflexivity.
  - destruct (Hsilent ltac:(vm_compute; reflexivity) None) as (Hnone & _). exact Hnone.
Defined.

Section WithCanonicalKeys.
Variable CanonicalMIMEHeaderKey : string -> string.

Lemma built_headers (headers : gmap string string) :
  let built :=
    map_fold (λ key value header, <[CanonicalMIMEHeaderKey key := [value]]> header)
      (∅ : gmap string (list string)) headers in
  (forall name values, built !! name = Some values ->
     exists key value, headers !! key = Some value
                       /\ CanonicalMIMEHeaderKey key = name /\ values = [value])
  /\ (forall key value, headers !! key = Some value ->
        is_Some (built !! CanonicalMIMEHeaderKey key)).
Proof.
  cbn zeta. apply (map_fold_weak_ind
    (λ built headers,
       (forall name values, built !! name = Some values ->
          exists key value, headers !! key = Some value
                            /\ CanonicalMIMEHeaderKey key = name /\ values = [value])
       /\ (forall key value, headers !! key = Some value ->
             is_Some (built !! CanonicalMIMEHeaderKey key)))).
  - split; [intros name values H | intros key value H]; now rewrite lookup_empty in H.
  - intros k v m r Hk [IH1 IH2]. split.
    + intros name values H. apply lookup_insert_Some in H as [[<- <-]|[Hne H]].
      * exists k, v. now rewrite lookup_insert_eq.
      * destruct (IH1 name values H) as (key & value & Hkey & Hcanon & ->).
        exists key, value. rewrite lookup_insert_ne by congruence. now split.
    + intros key value H.
      destruct (decide (CanonicalMIMEHeaderKey k = CanonicalMIMEHeaderKey key)) as [->|Hne].
      * rewrite lookup_insert_eq. eauto.
      * rewrite lookup_insert_ne by exact Hne.
        apply lookup_insert_Some in H as [[-> _]|[_ H]]; [congruence | eauto].
Qed.

(** X26: the headers that [ProxyHandler] sets on the reply (its calls of
    [c.Set]; the headers the server adds when it writes the reply are not
    among them) come from the response frame: X-Tunnel-Response-Time is
    always set, to the measured time in whole milliseconds, truncated toward
    zero; every other header it sets is the value of a frame header whose
    canonical name it bears; and every frame header has its canonical name
    among the headers set. *)
Theorem headers_set_from_frame (msg : TunnelMessage) (responseTime : Z)
  (resp : HTTPResponse)
  (Hresp : buildHTTPResponse CanonicalMIMEHeaderKey msg = OK resp) :
  let reply := ProxyHandler_reply (OK resp) responseTime in
  fiber_headers reply !! "X-Tunnel-Response-Time"%string
  = Some (pretty (Z.quot responseTime 1000000) +:+ "ms")
  /\ (forall name value,
        name <> "X-Tunnel-Response-Time"%string ->
        fiber_headers reply !! name = Some value ->
        exists key, Msg_Headers msg !! key = Some value
                    /\ CanonicalMIMEHeaderKey key = name)
  /\ (forall key value,
        Msg_Headers msg !! key = Some value ->
        is_Some (fiber_headers reply !! CanonicalMIMEHeaderKey key)).
Proof.
  injection Hresp as <-. cbn zeta.
  destruct (built_headers (Msg_Headers msg)) as [H1 H2].
  cbn [ProxyHandler_reply httpResponseToFiber fiber_headers Resp_Header].
  split; [apply lookup_insert_eq|]. split.
  - intros name value Hne H. rewrite lookup_insert_ne, lookup_omap in H by congruence.
    destruct (map_fold _ _ _ !! name) as [values|] eqn:E; [|discriminate].
    destruct (H1 name values E) as (key & v & Hkey & Hcanon & ->).
    cbn in H. injection H as <-. eauto.
  - intros key value Hkey.
    destruct (decide ("X-Tunnel-Response-Time"%string = CanonicalMIMEHeaderKey key))
      as [<-|Hne]; [rewrite lookup_insert_eq; eauto|].
    rewrite lookup_insert_ne, lookup_omap by exact Hne.
    destruct (H2 key value Hkey) as [values E]. rewrite E.
    destruct (H1 _ _ E) as (k' & v' & _ & _ & ->). cbn. eauto.
Qed.

End WithCanonicalKeys.

Lemma headers_set_from_frame_witness :
  fiber_headers
    (ProxyHandler_reply
       (OK (mkHTTPResponse 200 {[ "Content-Type"%string := ["text/plain"%string] ]} None))
       7999999)
    !! "X-Tunnel-Response-Time"%string
  = Some "7ms"%string
  /\ (forall value,
        fiber_headers
          (ProxyHandler_reply
             (OK (mkHTTPResponse 200 {[ "Content-Type"%string := ["text/plain"%string] ]}
                    None))
             7999999)
          !! "Content-Type"%string
        = Some value ->
        value = "text/plain"%string)
  /\ is_Some
       (fiber_headers
          (ProxyHandler_reply
             (OK (mkHTTPResponse 200 {[ "Content-Type"%string := ["text/plain"%string] ]}
                    None))
             7999999)
          !! "Content-Type"%string).
Proof.
  destruct (headers_set_from_frame (fun key => key)
              (mkTunnelMessage "req-1" MessageTypeResponse ∅
                 {[ "Content-Type"%string := "text/plain"%string ]})
              7999999
              (mkHTTPResponse 200 {[ "Content-Type"%string := ["text/plain"%string] ]} None))
    as (Htime & Hfrom & Hall).
  - vm_compute. reflexivity.
  - split; [|split].
    + rewrite Htime. vm_compute. reflexivity.
    + intros value Hvalue.
      destruct (Hfrom "Content-Type"%string value ltac:(discriminate) Hvalue)
        as (key & Hkey & Hcanon).
      cbn [Msg_Headers] in Hkey. rewrite Hcanon in Hkey.
      apply lookup_singleton_Some in Hkey as [_ <-]. reflexivity.
    + apply (Hall "Content-Type"%string "text/plain"%string).
      apply lookup_singleton_eq.
Defined.

End LifecycleFacts.
